(** * ai-stocks-comfortique: the daily scheduler, the dispatcher and its collaborators

  A shallow embedding of the Go sources of the bot:

  - [GoTime]: the part of Go's [time] package the sources call
    (instants, zones with their transitions, civil dates, [Date],
    [After], [Add], [Sub], the layout [02.01.2006]);
  - [Scheduler]: the goroutine of [scheduleDaily];
  - [Telegram]: requests passed to [bot.Send], and the world the
    handlers run in (subscriber map, outbox, completion calls);
  - [TextBot]: the entry point that switches on [message.Text], with the
    AI service of [ai_service.go];
  - [CommandBot]: the entry point that switches on [message.Command()],
    with the AI service and the market data service it is built with;
  - [Samples]: concrete platforms, messages and surroundings on which
    the definitions are run.

  Network, clock, file system and environment variables are oracles:
  each call of a handler is a function of what they answer. *)

From Stdlib Require Import ZArith Lia String Ascii List Bool.
From Stdlib Require Import Floats.SpecFloat.
From stdpp Require Import base option list gmap strings.

Open Scope Z_scope.

(* ===================================================================== *)
(** ** Go's [time] package, as far as the sources use it *)
(* ===================================================================== *)

Module GoTime.

(** [time.Duration] is an int64 count of nanoseconds. *)
Definition Duration := Z.

Definition Nanosecond : Duration := 1.
Definition Second : Duration := 1000000000 * Nanosecond.
Definition Minute : Duration := 60 * Second.
Definition Hour : Duration := 60 * Minute.

Definition minDuration : Duration := - 2 ^ 63.
Definition maxDuration : Duration := 2 ^ 63 - 1.

(** A [*time.Location]: the offset east of UTC, in seconds, in force
    before the first transition, and the transitions in increasing order
    of their instant, each with the offset in force from that instant
    (Unix seconds) on.  [time.FixedZone] has no transition.  The zone
    [Europe/Moscow] of the tz database has many, the last on 2014-10-26;
    its rule for the time after the last transition is the fixed offset
    of that transition. *)
Record zoneTrans := { when : Z; offsetFrom : Z }.

Record Location := { zoneName : string; zoneOffset : Z; tx : list zoneTrans }.

Definition FixedZone (name : string) (offset : Z) : Location :=
  {| zoneName := name; zoneOffset := offset; tx := [] |}.

(** The bounds of the first and of the last period of a zone. *)
Definition alpha : Z := - 2 ^ 63.
Definition omega : Z := 2 ^ 63 - 1.

(** [l.lookup(sec)]: the offset in force at the instant [sec] and the
    bounds [start, end) of the period in which it is in force. *)
Fixpoint lookupFrom (offset start : Z) (transitions : list zoneTrans) (sec : Z)
    : Z * Z * Z :=
  match transitions with
  | [] => (offset, start, omega)
  | t :: rest =>
      if sec <? when t then (offset, start, when t)
      else lookupFrom (offsetFrom t) (when t) rest sec
  end.

Definition lookup (l : Location) (sec : Z) : Z * Z * Z :=
  lookupFrom (zoneOffset l) alpha (tx l) sec.

Definition offsetAt (l : Location) (sec : Z) : Z := fst (fst (lookup l sec)).

(** A [time.Time] without monotonic reading: nanoseconds since the Unix
    epoch and the location it is presented in.  [In] strips the monotonic
    reading, and every value the scheduler compares has gone through [In]
    or [Date]. *)
Record Time := { unixNano : Z; location : Location }.

Definition In (t : Time) (loc : Location) : Time :=
  {| unixNano := unixNano t; location := loc |}.

Definition unixSec (t : Time) : Z := unixNano t / Second.

(** [t.abs()]: seconds since the epoch shifted to the wall clock of the
    location by the offset in force at the instant; the day number and
    the second within the day. *)
Definition localSeconds (t : Time) : Z :=
  unixSec t + offsetAt (location t) (unixSec t).

Definition localDay (t : Time) : Z := localSeconds t / 86400.
Definition secondOfDay (t : Time) : Z := localSeconds t mod 86400.

(** Proleptic Gregorian calendar: day number (0 is 1970-01-01) to
    (year, month, day) and back. *)
Definition civil_from_days (z0 : Z) : Z * Z * Z :=
  let z := z0 + 719468 in
  let era := z / 146097 in
  let doe := z - era * 146097 in
  let yoe := (doe - doe / 1460 + doe / 36524 - doe / 146096) / 365 in
  let y := yoe + era * 400 in
  let doy := doe - (365 * yoe + yoe / 4 - yoe / 100) in
  let mp := (5 * doy + 2) / 153 in
  let d := doy - (153 * mp + 2) / 5 + 1 in
  let m := if mp <? 10 then mp + 3 else mp - 9 in
  (if m <=? 2 then y + 1 else y, m, d).

Definition days_from_civil (y0 m d : Z) : Z :=
  let y := if m <=? 2 then y0 - 1 else y0 in
  let era := y / 400 in
  let yoe := y - era * 400 in
  let doy := (153 * (if 2 <? m then m - 3 else m + 9) + 2) / 5 + d - 1 in
  let doe := yoe * 365 + yoe / 4 - yoe / 100 + doy in
  era * 146097 + doe - 719468.

Definition Year (t : Time) : Z := fst (fst (civil_from_days (localDay t))).
Definition Month (t : Time) : Z := snd (fst (civil_from_days (localDay t))).
Definition Day (t : Time) : Z := snd (civil_from_days (localDay t)).

Definition HourOf (t : Time) : Z := secondOfDay t / 3600.
Definition MinuteOf (t : Time) : Z := (secondOfDay t mod 3600) / 60.
Definition SecondOf (t : Time) : Z := secondOfDay t mod 60.
Definition NanosecondOf (t : Time) : Z := unixNano t mod Second.

(** [time.Date]: the month is normalised into 1..12 by carrying into the
    year; day, hour, minute, second and nanosecond overflow by plain
    carrying, which is what the linear sum below does.  The sum is the
    instant at which UTC shows the wall-clock time asked for; the offset
    in force at that instant is subtracted, unless the result falls
    outside the period of that offset: then the offset in force at the
    result is subtracted. *)
Definition Date (year month day hour min sec nsec : Z) (loc : Location) : Time :=
  let m := month - 1 in
  let year := year + m / 12 in
  let month := m mod 12 + 1 in
  let unix := days_from_civil year month day * 86400
              + hour * 3600 + min * 60 + sec + nsec / Second in
  let '(offset, start, end_) := lookup loc unix in
  let offset :=
    if offset =? 0 then 0
    else
      let utc := unix - offset in
      if (utc <? start) || (end_ <=? utc) then offsetAt loc utc else offset in
  {| unixNano := (unix - offset) * Second + nsec mod Second; location := loc |}.

Definition After (t u : Time) : bool := unixNano u <? unixNano t.

Definition Add (t : Time) (d : Duration) : Time :=
  {| unixNano := unixNano t + d; location := location t |}.

(** [t.Sub(u)] saturates at the bounds of int64. *)
Definition Sub (t u : Time) : Duration :=
  let d := unixNano t - unixNano u in
  if d <? minDuration then minDuration
  else if maxDuration <? d then maxDuration
  else d.

(** Decimal digits, zero padded to a width, as [appendInt] does for the
    layout elements [02], [01] and [2006]. *)
Definition digit (n : Z) : ascii := ascii_of_nat (Z.to_nat (48 + n mod 10)).

Fixpoint digits (width : nat) (n : Z) (acc : string) : string :=
  match width with
  | O => acc
  | S w => digits w (n / 10) (String (digit n) acc)
  end.

Definition pad (width : nat) (n : Z) : string := digits width n EmptyString.

(** [t.Format("02.01.2006")], for the years 0..9999. *)
Definition Format_02_01_2006 (t : Time) : string :=
  pad 2 (Day t) +:+ "." +:+ pad 2 (Month t) +:+ "." +:+ pad 4 (Year t).

End GoTime.

(* ===================================================================== *)
(** ** The daily scheduler: the goroutine of [scheduleDaily] *)
(* ===================================================================== *)

Module Scheduler.
Import GoTime.

(** [time.LoadLocation("Europe/Moscow")] gives the zone or nil; nil is
    replaced by the fixed zone MSK, UTC+3. *)
Definition zoneOf (loaded : option Location) : Location :=
  match loaded with
  | Some loc => loc
  | None => FixedZone "MSK" (3 * 60 * 60)
  end.

(** Today's target: [time.Date(now.Year(), now.Month(), now.Day(), hour,
    minute, 0, 0, loc)]. *)
Definition todayTarget (loc : Location) (hour minute : Z) (now : Time) : Time :=
  Date (Year now) (Month now) (Day now) hour minute 0 0 loc.

(** The next run, from a reading [now] already converted to [loc]. *)
Definition nextRun (loc : Location) (hour minute : Z) (now : Time) : Time :=
  let nextRun := todayTarget loc hour minute now in
  if After now nextRun then Add nextRun (24 * Hour) else nextRun.

(** One pass of the loop body up to the timer: the zone, the converted
    reading, the next run and the wait handed to [time.NewTimer]. *)
Record Plan := { planNow : Time; planNextRun : Time; waitDuration : Duration }.

Definition plan (loaded : option Location) (hour minute : Z) (reading : Time) : Plan :=
  let loc := zoneOf loaded in
  let now := In reading loc in
  let next := nextRun loc hour minute now in
  {| planNow := now; planNextRun := next; waitDuration := Sub next now |}.





(** A reading of the clock at 2024-01-01 10:00:00.000000000 Moscow time
    (07:00:00 UTC), presented in UTC. *)
Definition mondayMorning : Time :=
  {| unixNano := 1704092400 * Second; location := FixedZone "UTC" 0 |}.

(** A schedule as the specification constrains it. *)
Definition validSchedule (hour minute : Z) : Prop :=
  0 <= hour <= 23 /\ 0 <= minute <= 59.

(** Around a reading of the clock the zone is settled at [off]: [off] is
    less than a day, and it is the offset in force at every instant
    within two days of the reading.  The fixed zone MSK is settled at
    three hours around every reading. *)
Definition settled (loc : Location) (off : Z) (reading : Time) : Prop :=
  - 86400 <= off <= 86400
  /\ forall sec,
       unixSec reading - 2 * 86400 <= sec <= unixSec reading + 2 * 86400 ->
       offsetAt loc sec = off.

(** The last three transitions of [Europe/Moscow] in the tz database:
    back to winter time, UTC+3, on 2010-10-31; to UTC+4 on 2011-03-27;
    and to UTC+3 on 2014-10-26. *)
Definition europeMoscow : Location :=
  {| zoneName := "Europe/Moscow";
     zoneOffset := 4 * 3600;
     tx := [ {| when := 1288479600; offsetFrom := 3 * 3600 |};
             {| when := 1301180400; offsetFrom := 4 * 3600 |};
             {| when := 1414274400; offsetFrom := 3 * 3600 |} ] |}.

(** A reading at 2011-03-26 23:00:00 Moscow time (20:00:00 UTC), three
    hours before the clocks went from UTC+3 to UTC+4. *)
Definition lastWinterEvening : Time :=
  {| unixNano := 1301169600 * Second; location := FixedZone "UTC" 0 |}.


End Scheduler.

(* ===================================================================== *)
(** ** Constants of both entry points *)
(* ===================================================================== *)

Module Config.

Definition DAILY_HOUR : Z := 10.
Definition DAILY_MINUTE : Z := 0.
Definition ADMIN_USER_ID : Z := 449066543.


End Config.

(* ===================================================================== *)
(** ** The chat platform and the world the handlers run in *)
(* ===================================================================== *)

Module Telegram.

(** What [bot.Send] is given: a [MessageConfig] or an
    [EditMessageTextConfig], with the fields the sources set. *)
Inductive Chattable :=
| MessageConfig (ChatID : Z) (Text : string) (ParseMode : string)
| EditMessageTextConfig (ChatID : Z) (MessageID : Z) (Text : string) (ParseMode : string).

Definition NewMessage (chatID : Z) (text : string) : Chattable :=
  MessageConfig chatID text "".

Definition NewEditMessageText (chatID messageID : Z) (text : string) : Chattable :=
  EditMessageTextConfig chatID messageID text "".

Definition withParseMode (mode : string) (c : Chattable) : Chattable :=
  match c with
  | MessageConfig chat text _ => MessageConfig chat text mode
  | EditMessageTextConfig chat mid text _ => EditMessageTextConfig chat mid text mode
  end.

Definition isEdit (c : Chattable) : bool :=
  match c with
  | MessageConfig _ _ _ => false
  | EditMessageTextConfig _ _ _ _ => true
  end.

(** An inbound message: chat, sender, text and the entities the platform
    attached to the text.  [update.Message] of a private or group chat
    always carries a sender. *)
Record MessageEntity := { entityType : string; entityOffset : Z; entityLength : Z }.

Record Message :=
  { Chat_ID : Z; From_ID : Z; Text : string; Entities : list MessageEntity }.

(** [Message.IsCommand], [CommandWithAt] and [Command] of the bot
    library: the text begins with a [bot_command] entity; the command is
    the text of that entity without the slash and without [@botname].
    The platform only sends entities that lie within the text, so the
    slice [m.Text[1:entity.Length]] is in range. *)
Definition IsCommand (m : Message) : bool :=
  match Entities m with
  | [] => false
  | entity :: _ =>
      (entityOffset entity =? 0) && String.eqb (entityType entity) "bot_command"
  end.

Definition CommandWithAt (m : Message) : string :=
  if IsCommand m then
    match Entities m with
    | [] => ""
    | entity :: _ => substring 1 (Z.to_nat (entityLength entity) - 1) (Text m)
    end
  else "".

Definition Command (m : Message) : string :=
  let command := CommandWithAt m in
  match index 0 "@" command with
  | Some i => substring 0 i command
  | None => command
  end.

(** What the loop of [main] selects on: an update from the platform,
    whose message may be nil, or a signal from the daily ticker. *)
Inductive Event :=
| Update (message : option Message)
| WakeSignal.

(** Errors are their messages. *)
Definition error := string.

Inductive result (A : Type) :=
| Ok (a : A)
| Err (e : error).
Arguments Ok {A} a.
Arguments Err {A} e.

(** A POST to the completion endpoint: URL, bearer token and the fields
    of the JSON body that vary (the temperature is the constant 0.7). *)
Record HttpPost :=
  { postURL : string;
    postBearer : string;
    postModel : string;
    postMessages : list (string * string);
    postTools : list string;
    postToolChoice : string }.

(** Lines written with [log.Printf] by the handlers. *)
Inductive LogEntry :=
| LogBroadcast (subscribers : nat)
| LogGenerationFailed (e : error)
| LogDailyGenerationFailed (e : error)
| LogDeliveryFailed (chatID : Z) (e : error)
| LogMarketDataFailed (e : error).

(** Everything the dispatcher loop owns or can affect: the subscriber
    map, the requests handed to [bot.Send] in order, the number of
    completed calls of [GenerateAnalytics], the POSTs issued to the
    completion endpoint and the log. *)
Record World :=
  { subscribedChats : gmap Z bool;
    outbox : list Chattable;
    invocations : nat;
    posted : list HttpPost;
    logged : list LogEntry }.

(** What the platform answers.  [sendOutcome k] is the outcome of the
    [k]-th call of [bot.Send]: the identifier of the message, or an
    error.  [rangeOrder k m] is the order in which the [k]-th broadcast
    enumerates the keys of [m]; Go leaves the order of [range] over a map
    unspecified. *)
Record Platform :=
  { sendOutcome : nat -> result Z;
    rangeOrder : nat -> gmap Z bool -> list Z }.

(** [range] visits every key of the map once. *)
Definition rangesOverKeys (p : Platform) : Prop :=
  forall k (m : gmap Z bool), rangeOrder p k m ≡ₚ (map_to_list m).*1.

(** Handlers are state transformers over the world. *)
Definition M (A : Type) : Type := World -> A * World.

Definition ret {A} (a : A) : M A := fun w => (a, w).

Definition bind {A B} (c : M A) (k : A -> M B) : M B :=
  fun w => let '(a, w1) := c w in k a w1.

Declare Scope go_scope.
Delimit Scope go_scope with go.
Notation "x <~ c ;; k" := (bind c (fun x => k))
  (at level 100, c at next level, right associativity) : go_scope.
Notation "c ;;; k" := (bind c (fun _ => k))
  (at level 100, right associativity) : go_scope.

(** [bot.Send(c)]: the request joins the outbox; the result is the sent
    message's identifier, or the zero message and an error. *)
Definition Send (p : Platform) (c : Chattable) : M (Z * option error) :=
  fun w =>
    let answer := match sendOutcome p (length (outbox w)) with
                  | Ok mid => (mid, None)
                  | Err e => (0, Some e)
                  end in
    (answer,
     {| subscribedChats := subscribedChats w;
        outbox := outbox w ++ [c];
        invocations := invocations w;
        posted := posted w;
        logged := logged w |}).

Definition logPrintf (l : LogEntry) : M unit :=
  fun w =>
    (tt,
     {| subscribedChats := subscribedChats w;
        outbox := outbox w;
        invocations := invocations w;
        posted := posted w;
        logged := logged w ++ [l] |}).

(** [subscribedChats[chatID] = true] and [delete(subscribedChats, chatID)]. *)
Definition setSubscribed (chatID : Z) : M unit :=
  fun w =>
    (tt,
     {| subscribedChats := <[chatID := true]> (subscribedChats w);
        outbox := outbox w;
        invocations := invocations w;
        posted := posted w;
        logged := logged w |}).

Definition deleteSubscribed (chatID : Z) : M unit :=
  fun w =>
    (tt,
     {| subscribedChats := delete chatID (subscribedChats w);
        outbox := outbox w;
        invocations := invocations w;
        posted := posted w;
        logged := logged w |}).

Definition getSubscribed : M (gmap Z bool) := fun w => (subscribedChats w, w).

(** The effect of one call of [GenerateAnalytics] whose POSTs are
    [posts]: the call is counted and the POSTs are recorded. *)
Definition completed {A} (a : A) (posts : list HttpPost) : M A :=
  fun w =>
    (a,
     {| subscribedChats := subscribedChats w;
        outbox := outbox w;
        invocations := S (invocations w);
        posted := posted w ++ posts;
        logged := logged w |}).

Definition getInvocations : M nat := fun w => (invocations w, w).

(** The world after one more request has been handed to [bot.Send]. *)
Definition afterSend (c : Chattable) (w : World) : World :=
  {| subscribedChats := subscribedChats w; outbox := outbox w ++ [c];
     invocations := invocations w; posted := posted w; logged := logged w |}.

Definition initialWorld : World :=
  {| subscribedChats := ∅; outbox := []; invocations := 0%nat;
     posted := []; logged := [] |}.

(** Texts of the replies, as both entry points spell them. *)
Definition welcomeText : string :=
"Привет! 👋 Я твой милый помощник по инвестициям! 💖

Я буду каждый день в 10:00 по Москве отправлять тебе аналитику по российскому рынку с рекомендациями куда вложить 1000 рублей! 💰

Используй команды:
/subscribe - подписаться на ежедневную аналитику 📊
/unsubscribe - отписаться от ежедневной аналитики 🚫
/analytics - получить аналитику прямо сейчас ✨".

Definition adminSuffix : string :=
"

🔐 Вы администратор бота и имеете доступ ко всем функциям!".

Definition refusalText : string :=
  "Извините, но эта команда доступна только администратору бота! 🔒".

Definition subscribedText : string :=
  "Вы успешно подписались на ежедневную аналитику! 🎉 Ожидайте первый выпуск в 10:00 по Москве! 💖".

Definition unsubscribedText : string :=
  "Вы отписались от ежедневной аналитики 😢 Будем скучать! 💔".

Definition placeholderText : string :=
  "Генерирую аналитику, пожалуйста, подождите... ⏳".

Definition generationErrorText : string :=
  "Извини, произошла ошибка при генерации аналитики 😢 Попробуй позже! 💕".

Definition unknownCommandText : string :=
  "Прости, я не понимаю эту команду 🥺 Используй /start чтобы увидеть список команд! 💕".

End Telegram.

(* ===================================================================== *)
(** ** The entry point that switches on [message.Text] *)
(* ===================================================================== *)

Module TextBot.
Import GoTime Telegram Config.
Local Open Scope go_scope.

(** *** The AI service of [ai_service.go] *)

Record AIConfig := { APIKey : string; APIBaseURL : string; ModelName : string }.

(** The HTTP client has a timeout of 60 seconds, which is not modelled. *)
Record AIService := { config : AIConfig }.

(** The decoded body: the contents of the choices, and the error object
    when the body has one. *)
Record AIResponse := { Choices : list string; Error : option string }.

(** How far one exchange with the endpoint gets. *)
Inductive Exchange :=
| MarshalFails (e : error)
| NewRequestFails (e : error)
| DoFails (e : error)
| ReadAllFails (e : error)
| UnmarshalFails (e : error)
| Decoded (r : AIResponse).

(** The surroundings of the service.  [AIPromptDailyUpdate] is declared
    outside the files at hand and is taken as given.  The oracles indexed
    by [k] answer during the [k]-th call of [GenerateAnalytics]. *)
Record Env :=
  { platform : Platform;
    getenv : string -> string;
    AIPromptDailyUpdate : string;
    loadLocation : nat -> option Location;
    clockAt : nat -> Time;
    exchangeAt : nat -> Exchange }.

Definition NewAIService (env : Env) : AIService :=
  let apiKey := getenv env "AI_API_KEY" in
  let baseURL := getenv env "AI_API_BASE_URL" in
  let baseURL := if String.eqb baseURL "" then "https://api.openai.com/v1/chat/completions"
                 else baseURL in
  let modelName := getenv env "AI_MODEL_NAME" in
  let modelName := if String.eqb modelName "" then "gpt-4o" else modelName in
  {| config := {| APIKey := apiKey; APIBaseURL := baseURL; ModelName := modelName |} |}.

Definition moscowNow (env : Env) (k : nat) : Time :=
  In (clockAt env k) (Scheduler.zoneOf (loadLocation env k)).

Definition dq : string := String (ascii_of_nat 34) EmptyString.

(** [getLocalAnalytics]: the canned report around today's date. *)
Definition getLocalAnalytics (env : Env) (k : nat) : string :=
  let dateStr := Format_02_01_2006 (moscowNow env k) in
"✨ *Ежедневная аналитика рынка* ✨
🗓 *" +:+ dateStr +:+ "*

Приветик, дорогой инвестор! 👋💕

Сегодня российский рынок выглядит очень интересно! 📊 Я проанализировала все тренды специально для тебя! 🌟

🔍 *Общая ситуация на рынке РФ*:
Индекс Мосбиржи сегодня показывает небольшой рост, что создаёт приятные возможности для инвестиций! 💫 Рубль стабилен, что хорошо для прогнозирования! 🧮

💰 *Куда вложить 1000 рублей*:
Для такой суммы я рекомендую обратить внимание на акции компании " +:+ dq +:+ "Газпром" +:+ dq +:+ " через Сбер Инвестиции! 🏦 Сейчас они торгуются по привлекательной цене и имеют хороший потенциал роста в ближайшие месяцы! 📈

Альтернативный вариант - накопительный вклад в Тинькофф со ставкой 16% годовых для новых клиентов! 💝 Это безопасный способ сохранить деньги в текущих условиях! 🔐

🌈 *Почему это выгодно*:
Газпром выплачивает стабильные дивиденды, а текущая конъюнктура рынка энергоносителей благоприятна для компании! ✅ Даже с 1000 рублей ты сможешь получить настоящий инвестиционный опыт! 🤓

🎁 *Уникальный совет по подработке*:
Знаешь ли ты, что можно зарабатывать на своих знаниях? 🧠 Платформа Яндекс.Кью платит за качественные ответы на вопросы! 💡 Некоторые эксперты зарабатывают там до 20000 рублей в месяц, уделяя всего 2 часа в день! 🕰️ Это отличная возможность монетизировать свою экспертизу! 💸

Надеюсь, моя аналитика была полезной! 🌺 Жду тебя завтра с новыми инсайтами! 💖

Твой финансовый помощник! 💝".

Definition dateContext (dateStr : string) : string :=
  "Сегодняшняя дата: " +:+ dateStr +:+ ". Пожалуйста, используй свои актуальные знания о текущем состоянии российского рынка акций на эту дату. Нужна аналитика именно по сегодняшнему дню.".

Definition request (env : Env) (s : AIService) (k : nat) : HttpPost :=
  {| postURL := APIBaseURL (config s);
     postBearer := APIKey (config s);
     postModel := ModelName (config s);
     postMessages :=
       [("system", AIPromptDailyUpdate env);
        ("user", dateContext (Format_02_01_2006 (moscowNow env k)))];
     postTools := ["retrieval"];
     postToolChoice := "auto" |}.

(** The [k]-th call of [GenerateAnalytics]: its result and the POSTs it
    hands to [client.Do]. *)
Definition generate (env : Env) (s : AIService) (k : nat)
    : result string * list HttpPost :=
  if String.eqb (APIKey (config s)) "" then
    (Ok (getLocalAnalytics env k), [])
  else
    let req := request env s k in
    match exchangeAt env k with
    | MarshalFails e => (Err ("ошибка при сериализации запроса: " +:+ e), [])
    | NewRequestFails e => (Err ("ошибка при создании запроса: " +:+ e), [])
    | DoFails e => (Err ("ошибка при выполнении запроса: " +:+ e), [req])
    | ReadAllFails e => (Err ("ошибка при чтении ответа: " +:+ e), [req])
    | UnmarshalFails e => (Err ("ошибка при десериализации ответа: " +:+ e), [req])
    | Decoded aiResponse =>
        match Error aiResponse with
        | Some message => (Err ("ошибка API: " +:+ message), [req])
        | None =>
            match Choices aiResponse with
            | [] => (Err "пустой ответ от API", [req])
            | content :: _ => (Ok content, [req])
            end
        end
    end.

Definition GenerateAnalytics (env : Env) (s : AIService) : M (result string) :=
  k <~ getInvocations ;;
  let '(r, posts) := generate env s k in
  completed r posts.

(** *** The handlers *)

Definition handleMessage (env : Env) (message : Message) (aiService : AIService)
    : M unit :=
  let chatID := Chat_ID message in
  let userID := From_ID message in
  let isAdmin := userID =? ADMIN_USER_ID in
  if String.eqb (Text message) "/start" then
    let welcome := if isAdmin then welcomeText +:+ adminSuffix else welcomeText in
    Send (platform env) (NewMessage chatID welcome) ;;; ret tt
  else if negb isAdmin then
    Send (platform env) (NewMessage chatID refusalText) ;;; ret tt
  else if String.eqb (Text message) "/subscribe" then
    setSubscribed chatID ;;;
    Send (platform env) (NewMessage chatID subscribedText) ;;; ret tt
  else if String.eqb (Text message) "/unsubscribe" then
    deleteSubscribed chatID ;;;
    Send (platform env) (NewMessage chatID unsubscribedText) ;;; ret tt
  else if String.eqb (Text message) "/analytics" then
    sentMsg <~ Send (platform env) (NewMessage chatID placeholderText) ;;
    analytics <~ GenerateAnalytics env aiService ;;
    match analytics with
    | Err err =>
        logPrintf (LogGenerationFailed err) ;;;
        Send (platform env) (NewMessage chatID generationErrorText) ;;; ret tt
    | Ok text =>
        let editMsg := NewEditMessageText chatID (fst sentMsg) text in
        Send (platform env) (withParseMode "Markdown" editMsg) ;;; ret tt
    end
  else
    Send (platform env) (NewMessage chatID unknownCommandText) ;;; ret tt.

(** The body of [for chatID := range subscribedChats]. *)
Fixpoint deliver (env : Env) (analytics : string) (chats : list Z) : M unit :=
  match chats with
  | [] => ret tt
  | chatID :: rest =>
      sent <~ Send (platform env) (withParseMode "Markdown" (NewMessage chatID analytics)) ;;
      match snd sent with
      | Some err => logPrintf (LogDeliveryFailed chatID err) ;;; deliver env analytics rest
      | None => deliver env analytics rest
      end
  end.

Definition sendDailyAnalytics (env : Env) (aiService : AIService) : M unit :=
  subscribed <~ getSubscribed ;;
  logPrintf (LogBroadcast (size subscribed)) ;;;
  k <~ getInvocations ;;
  analytics <~ GenerateAnalytics env aiService ;;
  match analytics with
  | Err err => logPrintf (LogDailyGenerationFailed err) ;;; ret tt
  | Ok text =>
      subscribed <~ getSubscribed ;;
      deliver env text (rangeOrder (platform env) k subscribed)
  end.

(** One turn of the [select] in [main], and the loop over the events in
    the order they are received.  The line [main] logs for every message
    is left out. *)
Definition dispatch (env : Env) (aiService : AIService) (ev : Event) : M unit :=
  match ev with
  | Update (Some message) => handleMessage env message aiService
  | Update None => ret tt
  | WakeSignal => sendDailyAnalytics env aiService
  end.

Fixpoint mainLoop (env : Env) (aiService : AIService) (events : list Event) : M unit :=
  match events with
  | [] => ret tt
  | ev :: rest => dispatch env aiService ev ;;; mainLoop env aiService rest
  end.

End TextBot.

(* ===================================================================== *)
(** ** The entry point that switches on [message.Command()] *)
(* ===================================================================== *)

Module CommandBot.
Import GoTime Telegram Config.
Local Open Scope go_scope.

(** *** The market data service *)

(** A float64 is an IEEE 754 binary64 value; [x > y] is [SFltb y x]. *)
Definition float64 := spec_float.
Definition gt (x y : float64) : bool := SFltb y x.

Record StockInfo :=
  { Ticker : string; Name : string; Price : float64; Change : float64;
    Currency : string; SourceURL : string }.

Record NewsItem :=
  { Title : string; Source : string; URL : string; Timestamp : Time }.

Record MarketData :=
  { IndexMOEX : float64; IndexRTS : float64; USDRate : float64; EURRate : float64;
    TopStocks : list StockInfo;
    RecommendedStock : StockInfo;
    MarketTrend : string;
    MarketNews : list NewsItem }.

(** The literals of the stubs, as the binary64 values nearest to them. *)
Definition f_4100_0 : float64 := S754_finite false 4507997673881600 (-40).
Definition f_1100_0 : float64 := S754_finite false 4837851162214400 (-42).
Definition f_90_5 : float64 := S754_finite false 6368371348078592 (-46).
Definition f_98_7 : float64 := S754_finite false 6945395050335437 (-46).
Definition f_164_82 : float64 := S754_finite false 5799088207681290 (-45).
Definition f_0_63 : float64 := S754_finite false 5674535530486825 (-53).
Definition f_287_45 : float64 := S754_finite false 5056873878467379 (-44).
Definition f_1_12 : float64 := S754_finite false 5044031582654956 (-52).
Definition f_7046_5 : float64 := S754_finite false 7747708685123584 (-40).
Definition f_minus_0_35 : float64 := S754_finite true 6305039478318694 (-54).
Definition f_zero : float64 := S754_zero false.

Definition zeroStock : StockInfo :=
  {| Ticker := ""; Name := ""; Price := f_zero; Change := f_zero;
     Currency := ""; SourceURL := "" |}.

Definition stubMarketData : MarketData :=
  {| IndexMOEX := f_4100_0; IndexRTS := f_1100_0;
     USDRate := f_90_5; EURRate := f_98_7;
     TopStocks := []; RecommendedStock := zeroStock;
     MarketTrend := "stable"; MarketNews := [] |}.

Definition stubStocks : list StockInfo :=
  [ {| Ticker := "GAZP"; Name := "Газпром"; Price := f_164_82; Change := f_0_63;
       Currency := "RUB"; SourceURL := "" |};
    {| Ticker := "SBER"; Name := "Сбербанк"; Price := f_287_45; Change := f_1_12;
       Currency := "RUB"; SourceURL := "" |};
    {| Ticker := "LKOH"; Name := "Лукойл"; Price := f_7046_5; Change := f_minus_0_35;
       Currency := "RUB"; SourceURL := "" |} ].

Definition stubRecommended : StockInfo :=
  {| Ticker := "GAZP"; Name := "Газпром"; Price := f_164_82; Change := f_0_63;
     Currency := "RUB"; SourceURL := "" |}.

(** What the three fetches of one call of [GetMarketData] return: each
    is a value with a nil error, or an error. *)
Record Fetches :=
  { getMOEXData : result MarketData;
    getMarketNews : result (list NewsItem);
    getTopStocks : result (list StockInfo) }.

Definition withMarketNews (d : MarketData) (news : list NewsItem) : MarketData :=
  {| IndexMOEX := IndexMOEX d; IndexRTS := IndexRTS d;
     USDRate := USDRate d; EURRate := EURRate d;
     TopStocks := TopStocks d; RecommendedStock := RecommendedStock d;
     MarketTrend := MarketTrend d; MarketNews := news |}.

Definition withTopStocks (d : MarketData) (stocks : list StockInfo) : MarketData :=
  {| IndexMOEX := IndexMOEX d; IndexRTS := IndexRTS d;
     USDRate := USDRate d; EURRate := EURRate d;
     TopStocks := stocks; RecommendedStock := RecommendedStock d;
     MarketTrend := MarketTrend d; MarketNews := MarketNews d |}.

Definition withRecommendedStock (d : MarketData) (stock : StockInfo) : MarketData :=
  {| IndexMOEX := IndexMOEX d; IndexRTS := IndexRTS d;
     USDRate := USDRate d; EURRate := EURRate d;
     TopStocks := TopStocks d; RecommendedStock := stock;
     MarketTrend := MarketTrend d; MarketNews := MarketNews d |}.

(** The loop [for _, stock := range stocks] that keeps the best stock. *)
Fixpoint bestOf (bestStock : StockInfo) (stocks : list StockInfo) : StockInfo :=
  match stocks with
  | [] => bestStock
  | stock :: rest =>
      if gt (Change stock) (Change bestStock) then bestOf stock rest
      else bestOf bestStock rest
  end.

(** [GetMarketData]: the snapshot pointer (nil is [None]), the error (nil
    is [None]) and the lines it logs. *)
Definition GetMarketData (f : Fetches)
    : option MarketData * option error * list LogEntry :=
  let '(moexData, log1) :=
    match getMOEXData f with
    | Err err => (stubMarketData, [LogMarketDataFailed err])
    | Ok d => (d, [])
    end in
  let '(news, log2) :=
    match getMarketNews f with
    | Err err => ([], [LogMarketDataFailed err])
    | Ok n => (n, [])
    end in
  let moexData := withMarketNews moexData news in
  let '(stocks, log3) :=
    match getTopStocks f with
    | Err err => (stubStocks, [LogMarketDataFailed err])
    | Ok s => (s, [])
    end in
  let moexData := withTopStocks moexData stocks in
  let moexData :=
    match stocks with
    | first :: _ => withRecommendedStock moexData (bestOf first stocks)
    | [] => withRecommendedStock moexData stubRecommended
    end in
  (Some moexData, None, log1 ++ log2 ++ log3).

(** *** The AI service built with the market data service *)

Record AIService := { apiKey : string; apiURL : string; modelName : string }.

Definition NewAIService (apiKey modelName : string) : AIService :=
  {| apiKey := apiKey;
     apiURL := "https://api.openai.com/v1/chat/completions";
     modelName := modelName |}.

(** The decoded body: the contents of the choices and the message of the
    error object (empty when the body has none). *)
Record AIResponse := { Choices : list string; ErrorMessage : string }.

Inductive Exchange :=
| MarshalFails (e : error)
| NewRequestFails (e : error)
| DoFails (e : error)
| ReadAllFails (e : error)
| UnmarshalFails (e : error)
| Decoded (r : AIResponse).

(** The surroundings of the service.  [FormatMarketDataForAI] prints
    floats with [%.2f]; its text is taken as a function of the snapshot.
    [readPromptFile k] is the outcome of reading [ai_prompt.txt]. *)
Record Env :=
  { platform : Platform;
    fetchesAt : nat -> Fetches;
    readPromptFile : nat -> result string;
    FormatMarketDataForAI : MarketData -> string;
    exchangeAt : nat -> Exchange }.

Definition defaultPrompt : string :=
"Ты финансовый аналитик, специализирующийся на российском фондовом рынке. 
Твоя задача - давать полезные и понятные советы по инвестированию начинающим инвесторам.
Говори простым и дружелюбным языком, избегай сложных терминов. 
Используй эмодзи, чтобы сделать текст более живым.
Включай конкретные рекомендации по акциям, которые стоит купить на 1000 рублей.
Подкрепляй свои рекомендации актуальными данными и трендами.
Добавляй уникальные советы по инвестированию, которые будут интересны и полезны новичкам.
Твои советы должны быть актуальными и учитывать реальную ситуацию на рынке.".

Definition LoadAIPrompt (env : Env) (k : nat) : string :=
  match readPromptFile env k with
  | Ok content => if (0 <? String.length content)%nat then content else defaultPrompt
  | Err _ => defaultPrompt
  end.

Definition userPrompt (marketDataText : string) : string :=
  "Сгенерируй актуальную аналитику по российскому фондовому рынку на сегодня. "
  +:+ "Фокус на возможности инвестировать 1000 рублей. "
  +:+ "Используй дружелюбный тон, добавь эмодзи. "
  +:+ "Включи совет по инвестированию, который будет отличаться от предыдущих.

"
  +:+ "Вот текущие данные о рынке:

" +:+ marketDataText.

Definition request (env : Env) (s : AIService) (k : nat) : HttpPost :=
  let '(marketData, _, _) := GetMarketData (fetchesAt env k) in
  let marketDataText :=
    match marketData with
    | Some d => FormatMarketDataForAI env d
    | None => "ДАННЫЕ О РЫНКЕ НЕДОСТУПНЫ"
    end in
  {| postURL := apiURL s;
     postBearer := apiKey s;
     postModel := modelName s;
     postMessages := [("system", LoadAIPrompt env k); ("user", userPrompt marketDataText)];
     postTools := [];
     postToolChoice := "" |}.

(** The [k]-th call of [GenerateAnalytics]: its result, the POSTs it
    hands to [client.Do] and the lines it logs. *)
Definition generate (env : Env) (s : AIService) (k : nat)
    : result string * list HttpPost * list LogEntry :=
  let '(_, err, marketLog) := GetMarketData (fetchesAt env k) in
  let log := marketLog ++ match err with
                          | Some e => [LogMarketDataFailed e]
                          | None => []
                          end in
  let req := request env s k in
  match exchangeAt env k with
  | MarshalFails e => (Err ("ошибка маршалинга JSON: " +:+ e), [], log)
  | NewRequestFails e => (Err ("ошибка создания HTTP запроса: " +:+ e), [], log)
  | DoFails e => (Err ("ошибка отправки запроса: " +:+ e), [req], log)
  | ReadAllFails e => (Err ("ошибка чтения ответа: " +:+ e), [req], log)
  | UnmarshalFails e => (Err ("ошибка парсинга ответа: " +:+ e), [req], log)
  | Decoded aiResp =>
      if negb (String.eqb (ErrorMessage aiResp) "") then
        (Err ("ошибка API: " +:+ ErrorMessage aiResp), [req], log)
      else
        match Choices aiResp with
        | [] => (Err "пустой ответ от API", [req], log)
        | content :: _ => (Ok content, [req], log)
        end
  end.

Fixpoint logAll (entries : list LogEntry) : M unit :=
  match entries with
  | [] => ret tt
  | l :: rest => logPrintf l ;;; logAll rest
  end.

Definition GenerateAnalytics (env : Env) (s : AIService) : M (result string) :=
  k <~ getInvocations ;;
  let '(r, posts, log) := generate env s k in
  logAll log ;;;
  completed r posts.

(** *** The handlers *)

(** [len(message.Text) == 0 || message.Text[0] != '/'] *)
Definition notCommandText (text : string) : bool :=
  match text with
  | EmptyString => true
  | String c _ => negb (Ascii.eqb c "/")
  end.

Definition handleMessage (env : Env) (message : Message) (aiService : AIService)
    : M unit :=
  let chatID := Chat_ID message in
  let userID := From_ID message in
  let isAdmin := userID =? ADMIN_USER_ID in
  if notCommandText (Text message) then ret tt
  else
    let command := Command message in
    if String.eqb command "start" then
      let welcome := if isAdmin then welcomeText +:+ adminSuffix else welcomeText in
      Send (platform env) (NewMessage chatID welcome) ;;; ret tt
    else if String.eqb command "subscribe" || String.eqb command "unsubscribe"
            || String.eqb command "analytics" then
      if negb isAdmin then
        Send (platform env) (NewMessage chatID refusalText) ;;; ret tt
      else if String.eqb command "subscribe" then
        setSubscribed chatID ;;;
        Send (platform env) (NewMessage chatID subscribedText) ;;; ret tt
      else if String.eqb command "unsubscribe" then
        deleteSubscribed chatID ;;;
        Send (platform env) (NewMessage chatID unsubscribedText) ;;; ret tt
      else if String.eqb command "analytics" then
        sentMsg <~ Send (platform env) (NewMessage chatID placeholderText) ;;
        analytics <~ GenerateAnalytics env aiService ;;
        match analytics with
        | Err err =>
            logPrintf (LogGenerationFailed err) ;;;
            Send (platform env) (NewMessage chatID generationErrorText) ;;; ret tt
        | Ok text =>
            let editMsg := NewEditMessageText chatID (fst sentMsg) text in
            Send (platform env) (withParseMode "Markdown" editMsg) ;;; ret tt
        end
      else ret tt
    else ret tt.

Fixpoint deliver (env : Env) (analytics : string) (chats : list Z) : M unit :=
  match chats with
  | [] => ret tt
  | chatID :: rest =>
      sent <~ Send (platform env) (withParseMode "Markdown" (NewMessage chatID analytics)) ;;
      match snd sent with
      | Some err => logPrintf (LogDeliveryFailed chatID err) ;;; deliver env analytics rest
      | None => deliver env analytics rest
      end
  end.

Definition sendDailyAnalytics (env : Env) (aiService : AIService) : M unit :=
  subscribed <~ getSubscribed ;;
  logPrintf (LogBroadcast (size subscribed)) ;;;
  k <~ getInvocations ;;
  analytics <~ GenerateAnalytics env aiService ;;
  match analytics with
  | Err err => logPrintf (LogDailyGenerationFailed err) ;;; ret tt
  | Ok text =>
      subscribed <~ getSubscribed ;;
      deliver env text (rangeOrder (platform env) k subscribed)
  end.

(** One turn of the [select] in [main], and the loop over the events in
    the order they are received.  The line [main] logs for every message
    is left out. *)
Definition dispatch (env : Env) (aiService : AIService) (ev : Event) : M unit :=
  match ev with
  | Update (Some message) => handleMessage env message aiService
  | Update None => ret tt
  | WakeSignal => sendDailyAnalytics env aiService
  end.

Fixpoint mainLoop (env : Env) (aiService : AIService) (events : list Event) : M unit :=
  match events with
  | [] => ret tt
  | ev :: rest => dispatch env aiService ev ;;; mainLoop env aiService rest
  end.

End CommandBot.

(* ===================================================================== *)
(** ** Concrete surroundings and messages *)
(* ===================================================================== *)

Module Samples.
Import GoTime Telegram Config.

(** A platform that accepts every request and numbers the messages, and
    a platform that rejects every request. *)
Definition acceptingPlatform : Platform :=
  {| sendOutcome := fun k => Ok (100 + Z.of_nat k);
     rangeOrder := fun _ m => (map_to_list m).*1 |}.

Definition rejectingPlatform : Platform :=
  {| sendOutcome := fun _ => Err "Forbidden: bot was blocked by the user";
     rangeOrder := fun _ m => (map_to_list m).*1 |}.

Definition commandEntity (length : Z) : MessageEntity :=
  {| entityType := "bot_command"; entityOffset := 0; entityLength := length |}.

Definition fromAdmin (text : string) : Message :=
  {| Chat_ID := ADMIN_USER_ID; From_ID := ADMIN_USER_ID; Text := text;
     Entities := [commandEntity (Z.of_nat (String.length text))] |}.

Definition fromStranger (text : string) : Message :=
  {| Chat_ID := 7001; From_ID := 7001; Text := text;
     Entities := [commandEntity (Z.of_nat (String.length text))] |}.

Definition plainFromAdmin (text : string) : Message :=
  {| Chat_ID := ADMIN_USER_ID; From_ID := ADMIN_USER_ID; Text := text; Entities := [] |}.

Definition twoSubscribers : World :=
  {| subscribedChats := <[ADMIN_USER_ID := true]> (<[7001 := true]> ∅);
     outbox := []; invocations := 0%nat; posted := []; logged := [] |}.

(** Surroundings of the text-matching entry point: a credential is set
    or not, and the endpoint is unreachable or answers with one choice. *)
Definition textEnv (p : Platform) (key : string) (exchange : TextBot.Exchange)
    : TextBot.Env :=
  {| TextBot.platform := p;
     TextBot.getenv := fun name => if String.eqb name "AI_API_KEY" then key else "";
     TextBot.AIPromptDailyUpdate := "daily prompt";
     TextBot.loadLocation := fun _ => None;
     TextBot.clockAt := fun _ => Scheduler.mondayMorning;
     TextBot.exchangeAt := fun _ => exchange |}.

Definition textUnreachable : TextBot.Exchange :=
  TextBot.DoFails "dial tcp: connection refused".

Definition textAnswers (content : string) : TextBot.Exchange :=
  TextBot.Decoded {| TextBot.Choices := [content]; TextBot.Error := None |}.

(** Surroundings of the command-matching entry point: every market
    fetch fails and there is no prompt file. *)
Definition allFetchesFail : CommandBot.Fetches :=
  {| CommandBot.getMOEXData := Err "moex unavailable";
     CommandBot.getMarketNews := Err "news unavailable";
     CommandBot.getTopStocks := Err "stocks unavailable" |}.

Definition commandEnv (p : Platform) (exchange : CommandBot.Exchange)
    : CommandBot.Env :=
  {| CommandBot.platform := p;
     CommandBot.fetchesAt := fun _ => allFetchesFail;
     CommandBot.readPromptFile := fun _ => Err "open ai_prompt.txt: no such file";
     CommandBot.FormatMarketDataForAI := fun _ => "market data";
     CommandBot.exchangeAt := fun _ => exchange |}.

Definition commandUnreachable : CommandBot.Exchange :=
  CommandBot.DoFails "dial tcp: connection refused".

Definition commandAnswers (content : string) : CommandBot.Exchange :=
  CommandBot.Decoded {| CommandBot.Choices := [content]; CommandBot.ErrorMessage := "" |}.

End Samples.

(* ===================================================================== *)
(** ** What one event may do to the world *)
(* ===================================================================== *)

Module Steps.
Import Telegram.

(** The chat a request is addressed to. *)
Definition chatOf (c : Chattable) : Z :=
  match c with
  | MessageConfig chat _ _ => chat
  | EditMessageTextConfig chat _ _ _ => chat
  end.

(** The footprint of handling one message, from world [w] to world [w'],
    when a call of [GenerateAnalytics] in [w] would issue [posts]: the
    subscriber map is left alone or changed at the chat of the message by
    the administrator; between [least] and two requests are handed to
    [bot.Send], all for the chat of the message; [GenerateAnalytics] is
    called at most once, and only for the administrator; the log only
    grows. *)
Definition handled (least : nat) (message : Message) (posts : list HttpPost)
    (w w' : World) : Prop :=
  (subscribedChats w' = subscribedChats w
   \/ (From_ID message = Config.ADMIN_USER_ID
       /\ (subscribedChats w' = <[Chat_ID message := true]> (subscribedChats w)
           \/ subscribedChats w' = delete (Chat_ID message) (subscribedChats w))))
  /\ (exists new, outbox w' = outbox w ++ new
        /\ (least <= length new <= 2)%nat
        /\ Forall (fun c => chatOf c = Chat_ID message) new)
  /\ ((invocations w' = invocations w /\ posted w' = posted w)
      \/ (From_ID message = Config.ADMIN_USER_ID
          /\ invocations w' = S (invocations w)
          /\ posted w' = posted w ++ posts))
  /\ exists lines, logged w' = logged w ++ lines.

(** The footprint of one broadcast: the subscriber map is unchanged, the
    new requests are new messages, [GenerateAnalytics] is called once. *)
Definition broadcast (posts : list HttpPost) (w w' : World) : Prop :=
  subscribedChats w' = subscribedChats w
  /\ (exists new, outbox w' = outbox w ++ new /\ Forall (fun c => isEdit c = false) new)
  /\ invocations w' = S (invocations w)
  /\ posted w' = posted w ++ posts
  /\ exists lines, logged w' = logged w ++ lines.

(** The lines a broadcast logs for deliveries: one per chat whose
    request the platform rejects, the requests being numbered from
    [start]. *)
Fixpoint deliveryFailures (p : Platform) (start : nat) (chats : list Z) : list LogEntry :=
  match chats with
  | [] => []
  | chat :: rest =>
      match sendOutcome p start with
      | Err e => LogDeliveryFailed chat e :: deliveryFailures p (S start) rest
      | Ok _ => deliveryFailures p (S start) rest
      end
  end.

(** The footprint of one turn of the loop of [main]. *)
Definition stepped (posts : World -> list HttpPost) (ev : Event) (w w' : World) : Prop :=
  match ev with
  | Update (Some message) => handled 0 message (posts w) w w'
  | Update None => w' = w
  | WakeSignal => broadcast (posts w) w w'
  end.

(** The events that can reach [GenerateAnalytics]: a signal of the ticker
    and a message of the administrator. *)
Definition mayGenerate (ev : Event) : bool :=
  match ev with
  | WakeSignal => true
  | Update (Some message) => From_ID message =? Config.ADMIN_USER_ID
  | Update None => false
  end.

(** The chats from which the administrator has written in a history. *)
Definition sentByAdministrator (history : list Event) (chat : Z) : Prop :=
  exists message,
    Update (Some message) ∈ history
    /\ Chat_ID message = chat
    /\ From_ID message = Config.ADMIN_USER_ID.

End Steps.

(* ===================================================================== *)
(** ** Start-up of the two entry points *)
(* ===================================================================== *)

Module Startup.
Import Telegram Steps.

(** How [main] goes: [log.Fatal] before the bot exists, [log.Panic] when
    [tgbotapi.NewBotAPI] fails, or the loop, of which a finite history of
    events is run from the empty subscriber map. *)
Inductive Start :=
| Fatal (message : string)
| Panics (e : error)
| Ran (final : World).

Definition tokenMissing : string :=
  "Необходимо установить переменную окружения TELEGRAM_BOT_TOKEN".

Definition keyMissing : string :=
  "Необходимо установить переменную окружения AI_API_KEY".

(** [main] of the text-matching entry point.  [NewBotAPI] is the outcome
    of the platform's login for a token. *)
Definition textMain (env : TextBot.Env) (NewBotAPI : string -> result unit)
    (events : list Event) : Start :=
  let botToken := TextBot.getenv env "TELEGRAM_BOT_TOKEN" in
  if String.eqb botToken "" then Fatal tokenMissing
  else
    match NewBotAPI botToken with
    | Err err => Panics err
    | Ok _ =>
        let aiService := TextBot.NewAIService env in
        Ran (snd (TextBot.mainLoop env aiService events initialWorld))
    end.

(** [main] of the command-matching entry point.  [getenv] is the
    environment after [godotenv.Load], whose failure only logs.  The loop
    runs with fetches of the market data service that return a value or
    an error; a fetch that panics, see [Moex], ends the program. *)
Definition commandMain (env : CommandBot.Env) (getenv : string -> string)
    (NewBotAPI : string -> result unit) (events : list Event) : Start :=
  let botToken := getenv "TELEGRAM_BOT_TOKEN" in
  if String.eqb botToken "" then Fatal tokenMissing
  else
    let apiKey := getenv "AI_API_KEY" in
    if String.eqb apiKey "" then Fatal keyMissing
    else
      let modelName := getenv "AI_MODEL_NAME" in
      let modelName := if String.eqb modelName "" then "gpt-4o" else modelName in
      match NewBotAPI botToken with
      | Err err => Panics err
      | Ok _ =>
          let aiService := CommandBot.NewAIService apiKey modelName in
          Ran (snd (CommandBot.mainLoop env aiService events initialWorld))
      end.

End Startup.

(* ===================================================================== *)
(** ** Concrete deployments *)
(* ===================================================================== *)

Module Deployments.
Import Telegram Samples.

(** An environment with a bot token and a completion credential. *)
Definition configured (token key : string) (name : string) : string :=
  if String.eqb name "TELEGRAM_BOT_TOKEN" then token
  else if String.eqb name "AI_API_KEY" then key
  else "".

Definition textDeployment (p : Platform) (token key : string)
    (exchange : TextBot.Exchange) : TextBot.Env :=
  {| TextBot.platform := p;
     TextBot.getenv := configured token key;
     TextBot.AIPromptDailyUpdate := "daily prompt";
     TextBot.loadLocation := fun _ => None;
     TextBot.clockAt := fun _ => Scheduler.mondayMorning;
     TextBot.exchangeAt := fun _ => exchange |}.

(** The platform accepts every token. *)
Definition login (token : string) : result unit := Ok tt.

(** The administrator subscribes, a stranger tries to, the ticker fires
    twice and the administrator asks for analytics. *)
Definition busyDay : list Event :=
  [ Update (Some (fromAdmin "/subscribe"));
    Update (Some (fromStranger "/subscribe"));
    WakeSignal;
    Update None;
    Update (Some (fromAdmin "/analytics"));
    Update (Some (fromStranger "/analytics"));
    WakeSignal ].

End Deployments.

(* ===================================================================== *)
(** ** The fetches of the market data service *)
(* ===================================================================== *)

Module Moex.
Import GoTime Telegram.

(** What [json.Unmarshal] stores in an [interface{}]: nil, a bool, a
    float64, a string, a slice or a map.  A map is listed with one pair
    per key. *)
#[local] Unset Elimination Schemes.
Inductive JSON :=
| JNull
| JBool (b : bool)
| JNumber (f : CommandBot.float64)
| JString (s : string)
| JArray (items : list JSON)
| JObject (fields : list (string * JSON)).
#[local] Set Elimination Schemes.

(** [m[name]] on a decoded map: the value, or nil when the key is absent. *)
Fixpoint field (name : string) (fields : list (string * JSON)) : JSON :=
  match fields with
  | [] => JNull
  | (key, value) :: rest => if String.eqb key name then value else field name rest
  end.

(** [s[i]] on a slice with an [int] index: out of range panics, which is
    [None] here. *)
Definition at_ {A} (s : list A) (i : Z) : option A :=
  if i <? 0 then None else s !! Z.to_nat i.

(** A function returns or panics. *)
Inductive outcome (A : Type) :=
| Returns (a : A)
| Panics (reason : string).
Arguments Returns {A} a.
Arguments Panics {A} reason.

Definition indexOutOfRange : string := "runtime error: index out of range".

(** How far an HTTP GET followed by [io.ReadAll] and [json.Unmarshal]
    gets. *)
Inductive Fetched (A : Type) :=
| NoResponse (e : error)
| NoBody (e : error)
| NotJSON (e : error)
| Parsed (a : A).
Arguments NoResponse {A} e.
Arguments NoBody {A} e.
Arguments NotJSON {A} e.
Arguments Parsed {A} a.

(** [MoexAPIResponse], of which only [cbrf] is read. *)
Record Table := { Columns : list string; Data : list (list JSON) }.
Record MoexAPIResponse := { Cbrf : Table; WapRates : Table }.

(** The body of a News API answer. *)
Record Article :=
  { articleTitle : string; articleSource : string; articleURL : string;
    PublishedAt : string }.
Record NewsResponse := { Status : string; Articles : list Article }.

(** The surroundings of one call of [GetMarketData].  [clock n] is the
    [n]-th reading of [time.Now()] during the call; [rangeStocks] is the
    order in which [range] enumerates the stock map. *)
Record Sources :=
  { indexResponse : Fetched (list (string * JSON));
    currencyResponse : Fetched MoexAPIResponse;
    stocksResponse : Fetched (list (string * JSON));
    newsResponse : Fetched NewsResponse;
    NEWS_API_KEY : string;
    ParseFloat : string -> result CommandBot.float64;
    parseRFC3339 : string -> result Time;
    clock : nat -> Time;
    rangeStocks : gmap string CommandBot.StockInfo -> list CommandBot.StockInfo }.

(** [range] visits every entry of the stock map once. *)
Definition rangesOverStocks (src : Sources) : Prop :=
  forall m, rangeStocks src m ≡ₚ (map_to_list m).*2.

Definition f_4200 : CommandBot.float64 := S754_finite false 4617948836659200 (-40).
Definition f_3800 : CommandBot.float64 := S754_finite false 8356288371097600 (-41).

Definition withIndexMOEX (d : CommandBot.MarketData) (x : CommandBot.float64)
    : CommandBot.MarketData :=
  {| CommandBot.IndexMOEX := x; CommandBot.IndexRTS := CommandBot.IndexRTS d;
     CommandBot.USDRate := CommandBot.USDRate d; CommandBot.EURRate := CommandBot.EURRate d;
     CommandBot.TopStocks := CommandBot.TopStocks d;
     CommandBot.RecommendedStock := CommandBot.RecommendedStock d;
     CommandBot.MarketTrend := CommandBot.MarketTrend d;
     CommandBot.MarketNews := CommandBot.MarketNews d |}.

Definition withIndexRTS (d : CommandBot.MarketData) (x : CommandBot.float64)
    : CommandBot.MarketData :=
  {| CommandBot.IndexMOEX := CommandBot.IndexMOEX d; CommandBot.IndexRTS := x;
     CommandBot.USDRate := CommandBot.USDRate d; CommandBot.EURRate := CommandBot.EURRate d;
     CommandBot.TopStocks := CommandBot.TopStocks d;
     CommandBot.RecommendedStock := CommandBot.RecommendedStock d;
     CommandBot.MarketTrend := CommandBot.MarketTrend d;
     CommandBot.MarketNews := CommandBot.MarketNews d |}.

Definition withUSDRate (d : CommandBot.MarketData) (x : CommandBot.float64)
    : CommandBot.MarketData :=
  {| CommandBot.IndexMOEX := CommandBot.IndexMOEX d; CommandBot.IndexRTS := CommandBot.IndexRTS d;
     CommandBot.USDRate := x; CommandBot.EURRate := CommandBot.EURRate d;
     CommandBot.TopStocks := CommandBot.TopStocks d;
     CommandBot.RecommendedStock := CommandBot.RecommendedStock d;
     CommandBot.MarketTrend := CommandBot.MarketTrend d;
     CommandBot.MarketNews := CommandBot.MarketNews d |}.

Definition withEURRate (d : CommandBot.MarketData) (x : CommandBot.float64)
    : CommandBot.MarketData :=
  {| CommandBot.IndexMOEX := CommandBot.IndexMOEX d; CommandBot.IndexRTS := CommandBot.IndexRTS d;
     CommandBot.USDRate := CommandBot.USDRate d; CommandBot.EURRate := x;
     CommandBot.TopStocks := CommandBot.TopStocks d;
     CommandBot.RecommendedStock := CommandBot.RecommendedStock d;
     CommandBot.MarketTrend := CommandBot.MarketTrend d;
     CommandBot.MarketNews := CommandBot.MarketNews d |}.

Definition withMarketTrend (d : CommandBot.MarketData) (trend : string)
    : CommandBot.MarketData :=
  {| CommandBot.IndexMOEX := CommandBot.IndexMOEX d; CommandBot.IndexRTS := CommandBot.IndexRTS d;
     CommandBot.USDRate := CommandBot.USDRate d; CommandBot.EURRate := CommandBot.EURRate d;
     CommandBot.TopStocks := CommandBot.TopStocks d;
     CommandBot.RecommendedStock := CommandBot.RecommendedStock d;
     CommandBot.MarketTrend := trend;
     CommandBot.MarketNews := CommandBot.MarketNews d |}.

(** [&MarketData{MarketTrend: "stable"}] *)
Definition freshMarketData : CommandBot.MarketData :=
  {| CommandBot.IndexMOEX := CommandBot.f_zero; CommandBot.IndexRTS := CommandBot.f_zero;
     CommandBot.USDRate := CommandBot.f_zero; CommandBot.EURRate := CommandBot.f_zero;
     CommandBot.TopStocks := []; CommandBot.RecommendedStock := CommandBot.zeroStock;
     CommandBot.MarketTrend := "stable"; CommandBot.MarketNews := [] |}.

(** A cell that is a float64, or a string [strconv.ParseFloat] accepts. *)
Definition numberIn (src : Sources) (cell : JSON) : option CommandBot.float64 :=
  match cell with
  | JNumber f => Some f
  | JString s =>
      match ParseFloat src s with
      | Ok f => Some f
      | Err _ => None
      end
  | _ => None
  end.

(** The loop of [getMOEXData] over the rows of [securities], from row [i]
    on: the last price of IMOEX and of RTSI is copied from the row of
    [marketdata] with the same number. *)
Fixpoint scanIndices (src : Sources) (i : nat) (secData mdData : list JSON)
    (marketData : CommandBot.MarketData) : CommandBot.MarketData :=
  match secData with
  | [] => marketData
  | sec :: rest =>
      let continue := scanIndices src (S i) rest mdData in
      match sec with
      | JArray secArray =>
          if (length secArray <? 2)%nat then continue marketData
          else
            match secArray !! 0%nat with
            | Some (JString ticker) =>
                match mdData !! i with
                | None => continue marketData
                | Some (JArray mdArray) =>
                    if (length mdArray <? 3)%nat then continue marketData
                    else
                      match mdArray !! 2%nat with
                      | Some cell =>
                          match numberIn src cell with
                          | Some lastPrice =>
                              if String.eqb ticker "IMOEX"
                              then continue (withIndexMOEX marketData lastPrice)
                              else if String.eqb ticker "RTSI"
                              then continue (withIndexRTS marketData lastPrice)
                              else continue marketData
                          | None => continue marketData
                          end
                      | None => continue marketData
                      end
                | Some _ => continue marketData
                end
            | _ => continue marketData
            end
      | _ => continue marketData
      end
  end.

(** [idx[col] = i] for every column, and [idx[name]], which is 0 for a
    name that is no column. *)
Fixpoint columnIndices (i : nat) (columns : list string) (idx : gmap string nat)
    : gmap string nat :=
  match columns with
  | [] => idx
  | col :: rest => columnIndices (S i) rest (<[col := i]> idx)
  end.

Definition indexOfColumn (idx : gmap string nat) (name : string) : nat :=
  default 0%nat (idx !! name).

(** [x, _ = cell.(float64)]: the zero value when the cell is no float64. *)
Definition floatOrZero (cell : JSON) : CommandBot.float64 :=
  match cell with
  | JNumber f => f
  | _ => CommandBot.f_zero
  end.

(** The currency part of [getMOEXData]: the rates are read from the first
    row of the table [cbrf].  A request that fails is logged with its
    error, a body that cannot be read or decoded is passed over in
    silence. *)
Definition currencyRates (src : Sources) (marketData : CommandBot.MarketData)
    : outcome (CommandBot.MarketData * list LogEntry) :=
  match currencyResponse src with
  | NoResponse err => Returns (marketData, [LogMarketDataFailed err])
  | NoBody _ => Returns (marketData, [])
  | NotJSON _ => Returns (marketData, [])
  | Parsed currResp =>
      let idx := columnIndices 0 (Columns (Cbrf currResp)) ∅ in
      match Data (Cbrf currResp) with
      | [] => Panics indexOutOfRange
      | row :: _ =>
          match row !! indexOfColumn idx "CBRF_USD_LAST" with
          | None => Panics indexOutOfRange
          | Some usd =>
              let marketData := withUSDRate marketData (floatOrZero usd) in
              match row !! indexOfColumn idx "CBRF_EUR_LAST" with
              | None => Panics indexOutOfRange
              | Some eur => Returns (withEURRate marketData (floatOrZero eur), [])
              end
          end
      end
  end.

(** The trend, from the level of the index. *)
Definition classifyTrend (marketData : CommandBot.MarketData) : CommandBot.MarketData :=
  let marketData := withMarketTrend marketData "stable" in
  if CommandBot.gt (CommandBot.IndexMOEX marketData) f_4200
  then withMarketTrend marketData "up"
  else if SFltb (CommandBot.IndexMOEX marketData) f_3800
  then withMarketTrend marketData "down"
  else marketData.

Definition getMOEXData (src : Sources)
    : outcome (result CommandBot.MarketData * list LogEntry) :=
  match indexResponse src with
  | NoResponse err => Returns (Err ("ошибка при запросе к MOEX API: " +:+ err), [])
  | NoBody err => Returns (Err ("ошибка при чтении ответа MOEX API: " +:+ err), [])
  | NotJSON err => Returns (Err ("ошибка при парсинге ответа MOEX API: " +:+ err), [])
  | Parsed moexResp =>
      let marketData := freshMarketData in
      match field "securities" moexResp with
      | JObject securities =>
          match field "data" securities with
          | JArray secData =>
              match field "marketdata" moexResp with
              | JObject marketdata =>
                  match field "data" marketdata with
                  | JArray mdData =>
                      let marketData := scanIndices src 0 secData mdData marketData in
                      match currencyRates src marketData with
                      | Panics reason => Panics reason
                      | Returns (marketData, log) =>
                          Returns (Ok (classifyTrend marketData), log)
                      end
                  | _ => Returns (Err "некорректный формат marketdata.data от MOEX API", [])
                  end
              | _ => Returns (Err "некорректный формат marketdata от MOEX API", [])
              end
          | _ => Returns (Err "некорректный формат data от MOEX API", [])
          end
      | _ => Returns (Err "некорректный формат данных от MOEX API", [])
      end
  end.

(** [translateTrend] *)
Definition translateTrend (trend : string) : string :=
  if String.eqb trend "up" then "РОСТ 📈"
  else if String.eqb trend "down" then "ПАДЕНИЕ 📉"
  else "СТАБИЛЬНЫЙ ↔️".

(** The two loops of [getTopStocks] over the column names. *)
Record SecurityColumns := { tickerIdx : Z; shortNameIdx : Z; boardIdIdx : Z }.
Record MarketColumns := { lastIdx : Z; changeIdx : Z }.

Fixpoint securityColumns (i : Z) (columns : list JSON) (found : SecurityColumns)
    : SecurityColumns :=
  match columns with
  | [] => found
  | col :: rest =>
      match col with
      | JString colName =>
          if String.eqb colName "SECID" then
            securityColumns (i + 1) rest
              {| tickerIdx := i; shortNameIdx := shortNameIdx found;
                 boardIdIdx := boardIdIdx found |}
          else if String.eqb colName "SHORTNAME" then
            securityColumns (i + 1) rest
              {| tickerIdx := tickerIdx found; shortNameIdx := i;
                 boardIdIdx := boardIdIdx found |}
          else if String.eqb colName "BOARDID" then
            securityColumns (i + 1) rest
              {| tickerIdx := tickerIdx found; shortNameIdx := shortNameIdx found;
                 boardIdIdx := i |}
          else securityColumns (i + 1) rest found
      | _ => securityColumns (i + 1) rest found
      end
  end.

Fixpoint marketColumns (i : Z) (columns : list JSON) (found : MarketColumns)
    : MarketColumns :=
  match columns with
  | [] => found
  | col :: rest =>
      match col with
      | JString colName =>
          if String.eqb colName "LAST" then
            marketColumns (i + 1) rest {| lastIdx := i; changeIdx := changeIdx found |}
          else if String.eqb colName "CHANGE" then
            marketColumns (i + 1) rest {| lastIdx := lastIdx found; changeIdx := i |}
          else marketColumns (i + 1) rest found
      | _ => marketColumns (i + 1) rest found
      end
  end.

(** [price] and [change] of one row: the cell at the column when the
    column is within the row and the cell is a number or a string that
    parses; zero otherwise. *)
Definition cellNumber (src : Sources) (mdArray : list JSON) (column : Z)
    : CommandBot.float64 :=
  if (0 <=? column) && (column <? Z.of_nat (length mdArray)) then
    match at_ mdArray column with
    | Some cell =>
        match numberIn src cell with
        | Some x => x
        | None => CommandBot.f_zero
        end
    | None => CommandBot.f_zero
    end
  else CommandBot.f_zero.

(** The loop of [getTopStocks] over the rows of [securities], from row
    [i] on, filling the map from ticker to stock. *)
Fixpoint collectStocks (src : Sources) (sc : SecurityColumns) (mc : MarketColumns)
    (i : nat) (secData mdData : list JSON) (stockMap : gmap string CommandBot.StockInfo)
    : outcome (gmap string CommandBot.StockInfo) :=
  match secData with
  | [] => Returns stockMap
  | sec :: rest =>
      let continue := collectStocks src sc mc (S i) rest mdData in
      match sec with
      | JArray secArray =>
          if Z.of_nat (length secArray) <=? shortNameIdx sc then continue stockMap
          else
            match at_ secArray (tickerIdx sc) with
            | None => Panics indexOutOfRange
            | Some (JString ticker) =>
                match at_ secArray (boardIdIdx sc) with
                | None => Panics indexOutOfRange
                | Some (JString boardId) =>
                    if negb (String.eqb boardId "TQBR") then continue stockMap
                    else
                      match at_ secArray (shortNameIdx sc) with
                      | None => Panics indexOutOfRange
                      | Some shortName =>
                          let name := match shortName with
                                      | JString name => name
                                      | _ => ticker
                                      end in
                          match mdData !! i with
                          | None => continue stockMap
                          | Some (JArray mdArray) =>
                              if Z.of_nat (length mdArray) <=? lastIdx mc
                              then continue stockMap
                              else
                                let price := cellNumber src mdArray (lastIdx mc) in
                                let change := cellNumber src mdArray (changeIdx mc) in
                                let stock :=
                                  {| CommandBot.Ticker := ticker;
                                     CommandBot.Name := name;
                                     CommandBot.Price := price;
                                     CommandBot.Change := change;
                                     CommandBot.Currency := "RUB";
                                     CommandBot.SourceURL := "" |} in
                                continue (<[ticker := stock]> stockMap)
                          | Some _ => continue stockMap
                          end
                      end
                | Some _ => continue stockMap
                end
            | Some _ => continue stockMap
            end
      | _ => continue stockMap
      end
  end.

Definition columnsMissing : error :=
  "не удалось найти все необходимые столбцы в ответе API".

Definition noStocks : error := "не удалось получить информацию об акциях".

Definition getTopStocks (src : Sources) : outcome (result (list CommandBot.StockInfo)) :=
  match stocksResponse src with
  | NoResponse err => Returns (Err ("ошибка при запросе к MOEX API для акций: " +:+ err))
  | NoBody err => Returns (Err ("ошибка при чтении ответа MOEX API для акций: " +:+ err))
  | NotJSON err => Returns (Err ("ошибка при парсинге ответа MOEX API для акций: " +:+ err))
  | Parsed moexResp =>
      match field "securities" moexResp with
      | JObject securities =>
          match field "columns" securities with
          | JArray columns =>
              match field "data" securities with
              | JArray secData =>
                  match field "marketdata" moexResp with
                  | JObject marketdata =>
                      match field "columns" marketdata with
                      | JArray mdColumns =>
                          match field "data" marketdata with
                          | JArray mdData =>
                              let sc := securityColumns 0 columns
                                          {| tickerIdx := -1; shortNameIdx := -1;
                                             boardIdIdx := -1 |} in
                              let mc := marketColumns 0 mdColumns
                                          {| lastIdx := -1; changeIdx := -1 |} in
                              if (tickerIdx sc =? -1) || (shortNameIdx sc =? -1)
                                 || (lastIdx mc =? -1)
                              then Returns (Err columnsMissing)
                              else
                                match collectStocks src sc mc 0 secData mdData ∅ with
                                | Panics reason => Panics reason
                                | Returns stockMap =>
                                    let stocks := rangeStocks src stockMap in
                                    if (length stocks =? 0)%nat then Returns (Err noStocks)
                                    else if (5 <? length stocks)%nat
                                    then Returns (Ok (take 5 stocks))
                                    else Returns (Ok stocks)
                                end
                          | _ => Returns (Err "некорректный формат marketdata.data от MOEX API для акций")
                          end
                      | _ => Returns (Err "некорректный формат marketdata.columns от MOEX API для акций")
                      end
                  | _ => Returns (Err "некорректный формат marketdata от MOEX API для акций")
                  end
              | _ => Returns (Err "некорректный формат data от MOEX API для акций")
              end
          | _ => Returns (Err "некорректный формат columns от MOEX API для акций")
          end
      | _ => Returns (Err "некорректный формат данных от MOEX API для акций")
      end
  end.

(** [fetchNewsFromAPI]: one item per article; a publication time that
    does not parse is replaced by the next reading of the clock, readings
    being counted from [tick]. *)
Fixpoint convertArticles (src : Sources) (tick : nat) (articles : list Article)
    : list CommandBot.NewsItem :=
  match articles with
  | [] => []
  | article :: rest =>
      match parseRFC3339 src (PublishedAt article) with
      | Ok pubTime =>
          {| CommandBot.Title := articleTitle article;
             CommandBot.Source := articleSource article;
             CommandBot.URL := articleURL article;
             CommandBot.Timestamp := pubTime |}
            :: convertArticles src tick rest
      | Err _ =>
          {| CommandBot.Title := articleTitle article;
             CommandBot.Source := articleSource article;
             CommandBot.URL := articleURL article;
             CommandBot.Timestamp := clock src tick |}
            :: convertArticles src (S tick) rest
      end
  end.

Definition fetchNewsFromAPI (src : Sources) (tick : nat)
    : result (list CommandBot.NewsItem) :=
  match newsResponse src with
  | NoResponse err => Err ("ошибка при запросе к News API: " +:+ err)
  | NoBody err => Err ("ошибка при чтении ответа News API: " +:+ err)
  | NotJSON err => Err ("ошибка при парсинге ответа News API: " +:+ err)
  | Parsed newsResp =>
      if negb (String.eqb (Status newsResp) "ok") || (length (Articles newsResp) =? 0)%nat
      then Err "некорректный ответ от News API"
      else Ok (convertArticles src tick (Articles newsResp))
  end.

(** The three canned items of [getMarketNews], dated from the first three
    readings of the clock. *)
Definition cannedNews (src : Sources) : list CommandBot.NewsItem :=
  [ {| CommandBot.Title := "Индекс Мосбиржи: актуальный прогноз на сегодня";
       CommandBot.Source := "РБК";
       CommandBot.URL := "https://www.rbc.ru/finances/";
       CommandBot.Timestamp := Add (clock src 0) (-2 * Hour) |};
    {| CommandBot.Title := "Какие акции российских компаний показывают рост в текущих условиях";
       CommandBot.Source := "Ведомости";
       CommandBot.URL := "https://www.vedomosti.ru/finance/";
       CommandBot.Timestamp := Add (clock src 1) (-5 * Hour) |};
    {| CommandBot.Title := "Курс рубля: факторы влияния и перспективы на ближайшее время";
       CommandBot.Source := "Коммерсантъ";
       CommandBot.URL := "https://www.kommersant.ru/finance/";
       CommandBot.Timestamp := Add (clock src 2) (-24 * Hour) |} ].

Definition getMarketNews (src : Sources) : result (list CommandBot.NewsItem) :=
  let news := cannedNews src in
  let newsAPI := NEWS_API_KEY src in
  if negb (String.eqb newsAPI "") then
    match fetchNewsFromAPI src 3 with
    | Ok realNews => if (0 <? length realNews)%nat then Ok realNews else Ok news
    | Err _ => Ok news
    end
  else Ok news.

(** [GetMarketData] on the three fetches as the service performs them,
    in their order; a panic of a fetch ends the call. *)
Definition GetMarketData (src : Sources)
    : outcome (option CommandBot.MarketData * option error * list LogEntry) :=
  match getMOEXData src with
  | Panics reason => Panics reason
  | Returns (moexData, log) =>
      let news := getMarketNews src in
      match getTopStocks src with
      | Panics reason => Panics reason
      | Returns stocks =>
          let '(snapshot, err, lines) :=
            CommandBot.GetMarketData
              {| CommandBot.getMOEXData := moexData;
                 CommandBot.getMarketNews := news;
                 CommandBot.getTopStocks := stocks |} in
          Returns (snapshot, err, log ++ lines)
      end
  end.

End Moex.

(* ===================================================================== *)
(** ** Shapes of the answers of the exchange *)
(* ===================================================================== *)

Module Shapes.
Import Telegram Moex.

(** The answer to the index request has the four parts [getMOEXData]
    asserts: the objects [securities] and [marketdata], each with an array
    [data]. *)
Definition indexTables (src : Sources) (secData mdData : list JSON) : Prop :=
  exists moexResp securities marketdata,
    indexResponse src = Parsed moexResp
    /\ field "securities" moexResp = JObject securities
    /\ field "data" securities = JArray secData
    /\ field "marketdata" moexResp = JObject marketdata
    /\ field "data" marketdata = JArray mdData.

(** The answer to the stocks request has the six parts [getTopStocks]
    asserts. *)
Definition stockTables (src : Sources) (columns secData mdColumns mdData : list JSON)
    : Prop :=
  exists moexResp securities marketdata,
    stocksResponse src = Parsed moexResp
    /\ field "securities" moexResp = JObject securities
    /\ field "columns" securities = JArray columns
    /\ field "data" securities = JArray secData
    /\ field "marketdata" moexResp = JObject marketdata
    /\ field "columns" marketdata = JArray mdColumns
    /\ field "data" marketdata = JArray mdData.

(** Every stock of the map is in roubles and filed under its ticker. *)
Definition keyedByTicker (stockMap : gmap string CommandBot.StockInfo) : Prop :=
  forall ticker stock,
    stockMap !! ticker = Some stock ->
    CommandBot.Ticker stock = ticker /\ CommandBot.Currency stock = "RUB".

(** A small answer of the exchange: one row for the index IMOEX, priced
    as a string, and two shares of the board TQBR. *)
Definition f_4250 : CommandBot.float64 := S754_finite false 4672924418048000 (-40).

Definition sampleIndex : list (string * JSON) :=
  [ ("securities", JObject [("data", JArray [JArray [JString "IMOEX"; JString "Индекс МосБиржи"]])]);
    ("marketdata", JObject [("data", JArray [JArray [JNull; JNull; JString "4250"]])]) ].

Definition sampleRates : MoexAPIResponse :=
  {| Cbrf := {| Columns := ["CBRF_USD_LAST"; "CBRF_EUR_LAST"];
                Data := [[JNumber CommandBot.f_90_5; JNumber CommandBot.f_98_7]] |};
     WapRates := {| Columns := []; Data := [] |} |}.

Definition sampleStocks : list (string * JSON) :=
  [ ("securities",
     JObject [ ("columns", JArray [JString "SECID"; JString "BOARDID"; JString "SHORTNAME"]);
               ("data", JArray [ JArray [JString "SBER"; JString "TQBR"; JString "Сбербанк"];
                                 JArray [JString "GAZP"; JString "TQBR"; JString "Газпром"];
                                 JArray [JString "SBER"; JString "SMAL"; JString "Сбербанк"] ]) ]);
    ("marketdata",
     JObject [ ("columns", JArray [JString "SECID"; JString "LAST"; JString "CHANGE"]);
               ("data", JArray [ JArray [JString "SBER"; JNumber CommandBot.f_287_45;
                                         JNumber CommandBot.f_1_12];
                                 JArray [JString "GAZP"; JNumber CommandBot.f_164_82;
                                         JNumber CommandBot.f_0_63];
                                 JArray [JString "SBER"; JNull; JNull] ]) ]) ].

Definition sampleParseFloat (s : string) : result CommandBot.float64 :=
  if String.eqb s "4250" then Ok f_4250 else Err "strconv.ParseFloat: invalid syntax".

(** An answer with both tables empty. *)
Definition quietIndex : list (string * JSON) :=
  [ ("securities", JObject [("data", JArray [])]);
    ("marketdata", JObject [("data", JArray [])]) ].

Definition sourcesWith (index : Fetched (list (string * JSON)))
    (rates : Fetched MoexAPIResponse) : Sources :=
  {| indexResponse := index;
     currencyResponse := rates;
     stocksResponse := Parsed sampleStocks;
     newsResponse := NoResponse "no network";
     NEWS_API_KEY := "";
     ParseFloat := sampleParseFloat;
     parseRFC3339 := fun _ => Err "parsing time";
     clock := fun _ => Scheduler.mondayMorning;
     rangeStocks := fun m => (map_to_list m).*2 |}.

Definition sampleSources (rates : Fetched MoexAPIResponse) : Sources :=
  sourcesWith (Parsed sampleIndex) rates.

(** A rates table without rows, and one whose only row is empty. *)
Definition ratesWithoutRows : MoexAPIResponse :=
  {| Cbrf := {| Columns := ["CBRF_USD_LAST"; "CBRF_EUR_LAST"]; Data := [] |};
     WapRates := {| Columns := []; Data := [] |} |}.

(** What the body [{}] decodes to: both tables without columns and
    without rows. *)
Definition ratesFromEmptyObject : MoexAPIResponse :=
  {| Cbrf := {| Columns := []; Data := [] |};
     WapRates := {| Columns := []; Data := [] |} |}.

(** A rates table that lacks the dollar column and gives the euro rate
    as a string. *)
Definition ratesWithoutDollar : MoexAPIResponse :=
  {| Cbrf := {| Columns := ["TRADEDATE"; "CBRF_EUR_LAST"];
                Data := [[JString "2024-01-01"; JString "98.7"]] |};
     WapRates := {| Columns := []; Data := [] |} |}.

End Shapes.

Module StockSamples.
Import Telegram Moex Shapes.

(** The answer of the exchange without the column BOARDID. *)
Definition stocksWithoutBoard : list (string * JSON) :=
  [ ("securities",
     JObject [ ("columns", JArray [JString "SECID"; JString "SHORTNAME"]);
               ("data", JArray [ JArray [JString "SBER"; JString "Сбербанк"] ]) ]);
    ("marketdata",
     JObject [ ("columns", JArray [JString "SECID"; JString "LAST"]);
               ("data", JArray [ JArray [JString "SBER"; JNumber CommandBot.f_287_45] ]) ]) ].

(** The answer of the exchange without the column LAST. *)
Definition stocksWithoutLast : list (string * JSON) :=
  [ ("securities",
     JObject [ ("columns", JArray [JString "SECID"; JString "BOARDID"; JString "SHORTNAME"]);
               ("data", JArray []) ]);
    ("marketdata",
     JObject [ ("columns", JArray [JString "SECID"; JString "CHANGE"]);
               ("data", JArray []) ]) ].

Definition stockSources (stocks : list (string * JSON)) : Sources :=
  {| indexResponse := Parsed sampleIndex;
     currencyResponse := Parsed sampleRates;
     stocksResponse := Parsed stocks;
     newsResponse := NoResponse "no network";
     NEWS_API_KEY := "";
     ParseFloat := sampleParseFloat;
     parseRFC3339 := fun _ => Err "parsing time";
     clock := fun _ => Scheduler.mondayMorning;
     rangeStocks := fun m => (map_to_list m).*2 |}.

(** A News API answer with two articles, the second without a usable
    publication time, and surroundings in which the key is set. *)
Definition sampleArticles : NewsResponse :=
  {| Status := "ok";
     Articles :=
       [ {| articleTitle := "Рынок акций вырос"; articleSource := "Интерфакс";
            articleURL := "https://www.interfax.ru/1"; PublishedAt := "2024-01-01T06:00:00Z" |};
         {| articleTitle := "Рубль укрепился"; articleSource := "ТАСС";
            articleURL := "https://tass.ru/2"; PublishedAt := "yesterday" |} ] |}.

Definition newsSources (key : string) (news : Fetched NewsResponse) : Sources :=
  {| indexResponse := Parsed sampleIndex;
     currencyResponse := Parsed sampleRates;
     stocksResponse := Parsed sampleStocks;
     newsResponse := news;
     NEWS_API_KEY := key;
     ParseFloat := sampleParseFloat;
     parseRFC3339 :=
       fun s => if String.eqb s "2024-01-01T06:00:00Z"
                then Ok (GoTime.Add Scheduler.mondayMorning (- GoTime.Hour))
                else Err "parsing time";
     clock := fun n => GoTime.Add Scheduler.mondayMorning (Z.of_nat n);
     rangeStocks := fun m => (map_to_list m).*2 |}.

End StockSamples.
(* ===================================================================== *)
(** ** Facts about the calendar *)
(* ===================================================================== *)

Section Calendar.
Import GoTime.

Lemma year_of_era_bounds doe :
  0 <= doe < 146097 ->
  let yoe := (doe - doe / 1460 + doe / 36524 - doe / 146096) / 365 in
  0 <= yoe <= 399 /\ 0 <= doe - (365 * yoe + yoe / 4 - yoe / 100) <= 365.
Proof.
  intros H yoe; subst yoe. Z.div_mod_to_equations. lia.
Qed.

Lemma civil_month_range z :
  1 <= snd (fst (civil_from_days z)) <= 12.
Proof.
  unfold civil_from_days; cbn [fst snd].
  set (z1 := z + 719468).
  set (doe := z1 - z1 / 146097 * 146097).
  assert (Hdoe : 0 <= doe < 146097).
  { subst doe. pose proof (Z.mod_pos_bound z1 146097 eq_refl) as Hm.
    rewrite Z.mod_eq in Hm by lia. lia. }
  destruct (year_of_era_bounds doe Hdoe) as [_ Hdoy].
  set (yoe := (doe - doe / 1460 + doe / 36524 - doe / 146096) / 365) in *.
  set (doy := doe - (365 * yoe + yoe / 4 - yoe / 100)) in *.
  assert (Hmp : 0 <= (5 * doy + 2) / 153 <= 11).
  { split; [apply Z.div_pos; lia | ].
    apply Z.lt_succ_r, Z.div_lt_upper_bound; lia. }
  destruct ((5 * doy + 2) / 153 <? 10) eqn:E;
    [apply Z.ltb_lt in E | apply Z.ltb_ge in E]; lia.
Qed.

(** Going from a day number to a civil date and back is the identity. *)
Lemma days_from_civil_of_days z :
  let '(y, m, d) := civil_from_days z in days_from_civil y m d = z.
Proof.
  unfold civil_from_days.
  set (z1 := z + 719468).
  set (era := z1 / 146097).
  set (doe := z1 - era * 146097).
  assert (Hdoe : 0 <= doe < 146097).
  { subst doe era. pose proof (Z.mod_pos_bound z1 146097 eq_refl) as Hm.
    rewrite Z.mod_eq in Hm by lia. lia. }
  destruct (year_of_era_bounds doe Hdoe) as [Hyoe Hdoy].
  set (yoe := (doe - doe / 1460 + doe / 36524 - doe / 146096) / 365) in *.
  set (doy := doe - (365 * yoe + yoe / 4 - yoe / 100)) in *.
  set (mp := (5 * doy + 2) / 153).
  assert (Hmp : 0 <= mp <= 11).
  { subst mp. split; [apply Z.div_pos; lia | ].
    apply Z.lt_succ_r, Z.div_lt_upper_bound; lia. }
  unfold days_from_civil.
  set (m := if mp <? 10 then mp + 3 else mp - 9).
  assert (Hback : (if 2 <? m then m - 3 else m + 9) = mp).
  { subst m. destruct (mp <? 10) eqn:E;
      [apply Z.ltb_lt in E | apply Z.ltb_ge in E].
    - replace (2 <? mp + 3) with true by (symmetry; apply Z.ltb_lt; lia). lia.
    - replace (2 <? mp - 9) with false by (symmetry; apply Z.ltb_ge; lia). lia. }
  rewrite Hback.
  assert (Hy : (if m <=? 2 then (if m <=? 2 then yoe + era * 400 + 1 else yoe + era * 400) - 1
                else if m <=? 2 then yoe + era * 400 + 1 else yoe + era * 400)
               = yoe + era * 400).
  { destruct (m <=? 2); lia. }
  rewrite Hy.
  assert (Hera : (yoe + era * 400) / 400 = era).
  { rewrite Z.div_add by lia. rewrite Z.div_small by lia. lia. }
  rewrite Hera.
  replace (yoe + era * 400 - era * 400) with yoe by lia.
  subst doy doe z1. lia.
Qed.

(** The fields [Date] is given by [scheduleDaily] lead back to the day
    number of the reading. *)
Lemma days_of_reading (t : Time) :
  days_from_civil (Year t + (Month t - 1) / 12) ((Month t - 1) mod 12 + 1) (Day t)
  = localDay t.
Proof.
  unfold Year, Month, Day.
  pose proof (civil_month_range (localDay t)) as Hm.
  pose proof (days_from_civil_of_days (localDay t)) as Hr.
  destruct (civil_from_days (localDay t)) as [[y m] d]; cbn [fst snd] in *.
  replace ((m - 1) / 12) with 0 by (symmetry; apply Z.div_small; lia).
  replace ((m - 1) mod 12) with (m - 1) by (symmetry; apply Z.mod_small; lia).
  replace (y + 0) with y by lia. replace (m - 1 + 1) with m by lia.
  exact Hr.
Qed.

End Calendar.

(* ===================================================================== *)
(** ** Zones *)
(* ===================================================================== *)

Section Zones.
Import GoTime Scheduler.



(** The zone of the tz database is settled at UTC+3 around every reading
    from 2014-10-28 on. *)
Lemma europeMoscow_settled reading :
  1414274400 + 2 * 86400 <= unixSec reading ->
  settled (zoneOf (Some europeMoscow)) (3 * 60 * 60) reading.
Proof.
  intros Hlate. split; [lia | ]. intros sec Hsec.
  unfold offsetAt, lookup, zoneOf, europeMoscow.
  cbn [tx zoneOffset lookupFrom when offsetFrom].
  repeat match goal with
         | |- context [?a <? ?b] => destruct (Z.ltb_spec a b); try lia
         end.
  reflexivity.
Qed.

Lemma Date_location year month day hour min sec nsec loc :
  location (Date year month day hour min sec nsec loc) = loc.
Proof.
  unfold Date. destruct (lookup loc _) as [[offset start] end_]. reflexivity.
Qed.

End Zones.

(* ===================================================================== *)
(** ** The next run of the scheduler *)
(* ===================================================================== *)

Section NextRun.
Import GoTime Scheduler.

Variables (loc : Location) (hour minute off : Z).
Hypothesis Hvalid : validSchedule hour minute.

(** A time at a whole number [a] of wall-clock seconds of [loc], at an
    instant at which the offset is [off]. *)
Lemma wall_clock_fields (t : Time) a day :
  location t = loc ->
  offsetAt loc (a - off) = off ->
  unixNano t = (a - off) * Second ->
  a = day * 86400 + hour * 3600 + minute * 60 ->
  localDay t = day /\ HourOf t = hour /\ MinuteOf t = minute
  /\ SecondOf t = 0 /\ NanosecondOf t = 0.
Proof using Hvalid.
  destruct Hvalid as [Hh Hm]. intros Hloc Hoff Hns Ha.
  assert (Hsec : unixSec t = a - off).
  { unfold unixSec. rewrite Hns.
    apply Z.div_mul. unfold Second, Nanosecond; lia. }
  assert (Hls : localSeconds t = a).
  { unfold localSeconds. rewrite Hloc, Hsec, Hoff. lia. }
  unfold localDay, HourOf, MinuteOf, SecondOf, NanosecondOf, secondOfDay.
  rewrite Hls, Hns.
  assert (Hmod : a mod 86400 = hour * 3600 + minute * 60).
  { subst a.
    replace (day * 86400 + hour * 3600 + minute * 60)
      with (hour * 3600 + minute * 60 + day * 86400) by lia.
    rewrite Z.mod_add by lia. apply Z.mod_small. lia. }
  rewrite Hmod. repeat split.
  - subst a. Z.div_mod_to_equations. lia.
  - Z.div_mod_to_equations. lia.
  - Z.div_mod_to_equations. lia.
  - Z.div_mod_to_equations. lia.
  - apply Z.mod_mul. unfold Second, Nanosecond; lia.
Qed.

Variable now : Time.
Hypothesis Hnow : location now = loc.
Hypothesis Hsettled : settled loc off now.

Let target := todayTarget loc hour minute now.

Lemma now_local : localSeconds now = unixSec now + off.
Proof using Hnow Hsettled.
  unfold localSeconds. rewrite Hnow.
  rewrite (proj2 Hsettled (unixSec now)) by lia. reflexivity.
Qed.

(** The wall clock of the reading lies within its own civil day. *)
Lemma now_day :
  localDay now * 86400 <= unixSec now + off < localDay now * 86400 + 86400.
Proof using Hnow Hsettled.
  unfold localDay. rewrite now_local. Z.div_mod_to_equations. lia.
Qed.

Lemma todayTarget_nano :
  unixNano target
  = (localDay now * 86400 + hour * 3600 + minute * 60 - off) * Second.
Proof using Hvalid Hnow Hsettled.
  pose proof now_day as Hday. destruct Hvalid as [Hh Hm].
  destruct Hsettled as [Hoff Hwin].
  subst target. unfold todayTarget, Date. rewrite days_of_reading.
  change (0 / Second) with 0. change (0 mod Second) with 0.
  set (unix := localDay now * 86400 + hour * 3600 + minute * 60 + 0 + 0).
  assert (Hunix : offsetAt loc unix = off) by (apply Hwin; subst unix; lia).
  unfold offsetAt in Hunix.
  destruct (lookup loc unix) as [[offset start] end_]. cbn [fst] in Hunix. subst offset.
  destruct (Z.eqb_spec off 0) as [Hzero | Hnonzero].
  - cbn [unixNano]. subst unix. lia.
  - destruct ((unix - off <? start) || (end_ <=? unix - off)).
    + rewrite Hwin by (subst unix; lia). cbn [unixNano]. subst unix. lia.
    + cbn [unixNano]. subst unix. lia.
Qed.

(** The reading lies within its own civil day. *)
Lemma now_within_day :
  (localDay now * 86400 - off) * Second <= unixNano now
  < (localDay now * 86400 + 86400 - off) * Second.
Proof using Hnow Hsettled.
  pose proof now_day as Hday. unfold unixSec in Hday.
  unfold Second, Nanosecond in *. Z.div_mod_to_equations. lia.
Qed.

Lemma nextRun_not_after :
  unixNano now <= unixNano target -> nextRun loc hour minute now = target.
Proof.
  intros H. unfold nextRun. fold target. unfold After.
  replace (unixNano target <? unixNano now) with false; [reflexivity | ].
  symmetry. apply Z.ltb_ge. exact H.
Qed.

Lemma nextRun_after :
  unixNano target < unixNano now ->
  nextRun loc hour minute now = Add target (24 * Hour).
Proof.
  intros H. unfold nextRun. fold target. unfold After.
  replace (unixNano target <? unixNano now) with true; [reflexivity | ].
  symmetry. apply Z.ltb_lt. exact H.
Qed.

Lemma nextRun_location : location (nextRun loc hour minute now) = loc.
Proof.
  unfold nextRun, todayTarget.
  destruct (After _ _); cbn [Add location]; apply Date_location.
Qed.

Lemma nextRun_bounds :
  unixNano now <= unixNano (nextRun loc hour minute now) < unixNano now + 24 * Hour
  /\ (unixNano now <> unixNano target ->
      unixNano now < unixNano (nextRun loc hour minute now)).
Proof using Hvalid Hnow Hsettled.
  pose proof todayTarget_nano as HT. pose proof now_within_day as HN.
  destruct Hvalid as [Hh Hm].
  destruct (Z_le_gt_dec (unixNano now) (unixNano target)) as [Hle | Hgt].
  - rewrite nextRun_not_after by exact Hle.
    unfold Hour, Minute, Second, Nanosecond in *. lia.
  - rewrite nextRun_after by lia. cbn [Add unixNano].
    unfold Hour, Minute, Second, Nanosecond in *. lia.
Qed.

(** The next run is on the civil day of the reading or on the next one,
    at the hour and minute of the schedule. *)
Lemma nextRun_day :
  exists day,
    (day = localDay now \/ day = localDay now + 1)
    /\ unixNano (nextRun loc hour minute now)
       = (day * 86400 + hour * 3600 + minute * 60 - off) * Second
    /\ localDay (nextRun loc hour minute now) = day
    /\ HourOf (nextRun loc hour minute now) = hour
    /\ MinuteOf (nextRun loc hour minute now) = minute
    /\ SecondOf (nextRun loc hour minute now) = 0
    /\ NanosecondOf (nextRun loc hour minute now) = 0.
Proof using Hvalid Hnow Hsettled.
  pose proof todayTarget_nano as HT. pose proof now_day as Hday.
  pose proof nextRun_location as Hloc.
  assert (Hsec : forall day, (day = localDay now \/ day = localDay now + 1) ->
            offsetAt loc (day * 86400 + hour * 3600 + minute * 60 - off) = off).
  { intros day Hd. apply (proj2 Hsettled). destruct Hvalid as [Hh Hm]. lia. }
  destruct (Z_le_gt_dec (unixNano now) (unixNano target)) as [Hle | Hgt].
  - exists (localDay now). split; [left; reflexivity | ].
    rewrite nextRun_not_after in * by exact Hle. split; [exact HT | ].
    apply (wall_clock_fields target (localDay now * 86400 + hour * 3600 + minute * 60)
             (localDay now));
      [exact Hloc | apply Hsec; left; reflexivity | exact HT | reflexivity].
  - exists (localDay now + 1). split; [right; reflexivity | ].
    rewrite nextRun_after in * by lia.
    assert (Hns : unixNano (Add target (24 * Hour))
                  = ((localDay now + 1) * 86400 + hour * 3600 + minute * 60 - off) * Second).
    { cbn [Add unixNano]. rewrite HT. unfold Hour, Minute, Second, Nanosecond. lia. }
    split; [exact Hns | ].
    apply (wall_clock_fields _ ((localDay now + 1) * 86400 + hour * 3600 + minute * 60)
             (localDay now + 1));
      [exact Hloc | apply Hsec; right; reflexivity | exact Hns | reflexivity].
Qed.

End NextRun.

Section SchedulerClaims.
Import GoTime Scheduler Config.

Lemma In_location t loc : location (In t loc) = loc.
Proof. reflexivity. Qed.

Lemma In_settled loc off reading :
  settled loc off reading -> settled loc off (In reading loc).
Proof. intros H. exact H. Qed.

Lemma Sub_small t u :
  minDuration <= unixNano t - unixNano u <= maxDuration ->
  Sub t u = unixNano t - unixNano u.
Proof.
  intros [Hlo Hhi]. unfold Sub.
  replace (unixNano t - unixNano u <? minDuration) with false
    by (symmetry; apply Z.ltb_ge; lia).
  replace (maxDuration <? unixNano t - unixNano u) with false
    by (symmetry; apply Z.ltb_ge; lia).
  reflexivity.
Qed.

(** The wait of a pass is the distance from the reading to the next
    run. *)
Lemma plan_wait loaded hour minute reading off :
  validSchedule hour minute ->
  settled (zoneOf loaded) off reading ->
  let p := plan loaded hour minute reading in
  waitDuration p = unixNano (planNextRun p) - unixNano reading
  /\ 0 <= waitDuration p < 24 * Hour.
Proof.
  intros Hvalid Hsettled. cbv zeta. unfold plan; cbn [planNow planNextRun waitDuration].
  set (loc := zoneOf loaded) in *. set (now := In reading loc).
  destruct (nextRun_bounds loc hour minute off Hvalid now eq_refl Hsettled)
    as [[Hge Hlt] _].
  change (unixNano now) with (unixNano reading) in *.
  assert (Hwait : Sub (nextRun loc hour minute now) now
                  = unixNano (nextRun loc hour minute now) - unixNano reading).
  { change (unixNano reading) with (unixNano now). apply Sub_small.
    change (unixNano now) with (unixNano reading).
    unfold minDuration, maxDuration, Hour, Minute, Second, Nanosecond in *. lia. }
  rewrite Hwait. split; [reflexivity | lia].
Qed.

(** C1, as amended.  For every schedule with hour in 0..23 and minute in
    0..59, every zone the loader returns and every reading of the clock
    around which that zone is settled: the next run is never before the
    reading, and strictly after it whenever the reading is not exactly
    today's target instant; the wait handed to the timer is the distance
    to the next run and is at most 24 hours; the next run is at
    hour:minute:00.000000000 on the wall clock of the zone; exactly 24
    hours are added to today's target when the reading is strictly after
    it, and nothing is added when the reading is strictly before it. *)
Theorem scheduleDaily_next_run loaded hour minute reading off :
  validSchedule hour minute ->
  settled (zoneOf loaded) off reading ->
  let p := plan loaded hour minute reading in
  let next := planNextRun p in
  let target := todayTarget (zoneOf loaded) hour minute (planNow p) in
  unixNano reading <= unixNano next
  /\ (unixNano reading <> unixNano target -> unixNano reading < unixNano next)
  /\ waitDuration p = unixNano next - unixNano reading
  /\ waitDuration p <= 24 * Hour
  /\ location next = zoneOf loaded
  /\ HourOf next = hour /\ MinuteOf next = minute
  /\ SecondOf next = 0 /\ NanosecondOf next = 0
  /\ (unixNano target < unixNano reading -> next = Add target (24 * Hour))
  /\ (unixNano reading < unixNano target -> next = target).
Proof.
  intros Hvalid Hsettled.
  destruct (plan_wait loaded hour minute reading off Hvalid Hsettled) as [Hwait Hshort].
  cbv zeta in *. unfold plan in *; cbn [planNow planNextRun waitDuration] in *.
  set (loc := zoneOf loaded) in *. set (now := In reading loc) in *.
  destruct (nextRun_bounds loc hour minute off Hvalid now eq_refl Hsettled)
    as [[Hge Hlt] Hstrict].
  destruct (nextRun_day loc hour minute off Hvalid now eq_refl Hsettled)
    as (day & _ & _ & _ & Hh & Hm & Hs & Hn).
  change (unixNano now) with (unixNano reading) in *.
  split; [exact Hge | ]. split; [exact Hstrict | ]. split; [exact Hwait | ].
  split; [lia | ].
  split; [apply nextRun_location | ].
  split; [exact Hh | ]. split; [exact Hm | ]. split; [exact Hs | ]. split; [exact Hn | ].
  split; [exact (nextRun_after loc hour minute now) | ].
  intros Hbefore. apply (nextRun_not_after loc hour minute now).
  change (unixNano now) with (unixNano reading). lia.
Qed.

Lemma scheduleDaily_next_run_witness :
  validSchedule DAILY_HOUR DAILY_MINUTE
  /\ settled (zoneOf (Some europeMoscow)) (3 * 60 * 60) mondayMorning
  /\ HourOf (planNextRun (plan (Some europeMoscow) DAILY_HOUR DAILY_MINUTE mondayMorning))
     = DAILY_HOUR.
Proof.
  assert (H : validSchedule DAILY_HOUR DAILY_MINUTE)
    by (unfold validSchedule, DAILY_HOUR, DAILY_MINUTE; lia).
  assert (Hs : settled (zoneOf (Some europeMoscow)) (3 * 60 * 60) mondayMorning)
    by (apply europeMoscow_settled; vm_compute; discriminate).
  split; [exact H | ]. split; [exact Hs | ].
  exact (proj1 (proj2 (proj2 (proj2 (proj2 (proj2
    (scheduleDaily_next_run (Some europeMoscow) DAILY_HOUR DAILY_MINUTE mondayMorning _
       H Hs))))))).
Defined.

(** C1, as stated, fails in two ways.  When the reading is exactly
    today's target instant, 2024-01-01 10:00:00.000000000 in Moscow,
    today's target is at (not after) the reading, yet nothing is added:
    the next run is the reading itself, which is not strictly in the
    future.  And with the zone of the tz database, at the reading
    2011-03-26 23:00:00 the 24 hours added to today's target cross the
    change from UTC+3 to UTC+4, so that the next run is at 11:00:00 on
    the wall clock, not at 10:00:00. *)
Lemma scheduleDaily_next_run_fails_as_stated :
  (let p := plan None DAILY_HOUR DAILY_MINUTE mondayMorning in
   let target := todayTarget (zoneOf None) DAILY_HOUR DAILY_MINUTE (planNow p) in
   unixNano target <= unixNano mondayMorning
   /\ ~ unixNano mondayMorning < unixNano (planNextRun p)
   /\ planNextRun p <> Add target (24 * Hour)
   /\ waitDuration p = 0)
  /\ (let p := plan (Some europeMoscow) DAILY_HOUR DAILY_MINUTE lastWinterEvening in
      let target := todayTarget europeMoscow DAILY_HOUR DAILY_MINUTE (planNow p) in
      unixNano target < unixNano lastWinterEvening
      /\ planNextRun p = Add target (24 * Hour)
      /\ HourOf (planNextRun p) = 11
      /\ HourOf (planNextRun p) <> DAILY_HOUR).
Proof.
  cbv zeta. split.
  - repeat split.
    + vm_compute. discriminate.
    + vm_compute. discriminate.
    + vm_compute. discriminate.
  - split; [vm_compute; reflexivity | ].
    split; [vm_compute; reflexivity | ].
    split; [vm_compute; reflexivity | vm_compute; discriminate].
Qed.

(** A reading strictly after the previous target and less than 24 hours
    after it, with the zone settled at the same offset around both
    readings, yields a positive wait for the previous target plus 24
    hours, on the next civil day. *)
Lemma recomputed_wait_after_target loaded1 loaded2 hour minute reading1 reading2 off :
  validSchedule hour minute ->
  settled (zoneOf loaded1) off reading1 ->
  settled (zoneOf loaded2) off reading2 ->
  let p1 := plan loaded1 hour minute reading1 in
  let p2 := plan loaded2 hour minute reading2 in
  unixNano (planNextRun p1) < unixNano reading2 < unixNano (planNextRun p1) + 24 * Hour ->
  unixNano (planNextRun p2) = unixNano (planNextRun p1) + 24 * Hour
  /\ localDay (planNextRun p2) = localDay (planNextRun p1) + 1
  /\ 0 < waitDuration p2 < 24 * Hour.
Proof.
  intros Hvalid Hs1 Hs2.
  destruct (plan_wait loaded2 hour minute reading2 off Hvalid Hs2) as [Hwait Hshort].
  cbv zeta in *. unfold plan in *; cbn [planNow planNextRun waitDuration] in *.
  set (loc1 := zoneOf loaded1) in *. set (loc2 := zoneOf loaded2) in *.
  set (now1 := In reading1 loc1) in *. set (now2 := In reading2 loc2) in *.
  intros Hwin.
  destruct (nextRun_day loc1 hour minute off Hvalid now1 eq_refl Hs1)
    as (E1 & _ & HE1 & HdayE1 & _).
  destruct (nextRun_day loc2 hour minute off Hvalid now2 eq_refl Hs2)
    as (E2 & _ & HE2 & HdayE2 & _).
  destruct (nextRun_bounds loc2 hour minute off Hvalid now2 eq_refl Hs2) as [[Hge2 Hlt2] _].
  change (unixNano now2) with (unixNano reading2) in *.
  rewrite HdayE1, HdayE2. rewrite Hwait. rewrite HE1, HE2 in *.
  unfold Hour, Minute, Second, Nanosecond in *.
  assert (E2 = E1 + 1) by lia. subst E2. lia.
Qed.




End SchedulerClaims.

(* ===================================================================== *)
(** ** The handlers *)
(* ===================================================================== *)

Section Worlds.
Import Telegram.

Lemma Send_world p c w :
  snd (Send p c w)
  = {| subscribedChats := subscribedChats w; outbox := outbox w ++ [c];
       invocations := invocations w; posted := posted w; logged := logged w |}.
Proof. reflexivity. Qed.

Lemma bind_snd {A B} (c : M A) (k : A -> M B) w :
  snd (bind c k w) = snd (k (fst (c w)) (snd (c w))).
Proof. unfold bind. destruct (c w); reflexivity. Qed.

Lemma bind_fst {A B} (c : M A) (k : A -> M B) w :
  fst (bind c k w) = fst (k (fst (c w)) (snd (c w))).
Proof. unfold bind. destruct (c w); reflexivity. Qed.

Lemma logPrintf_world l w :
  snd (logPrintf l w)
  = {| subscribedChats := subscribedChats w; outbox := outbox w;
       invocations := invocations w; posted := posted w;
       logged := logged w ++ [l] |}.
Proof. reflexivity. Qed.

End Worlds.

Section TextBotBroadcast.
Import Telegram TextBot.

Variables (env : Env) (aiService : AIService).

(** Delivery changes nothing but the outbox and the log, and hands one
    request per chat to [bot.Send], whatever the platform answers. *)
Lemma text_deliver_world analytics chats w :
  let w' := snd (deliver env analytics chats w) in
  subscribedChats w' = subscribedChats w
  /\ invocations w' = invocations w
  /\ posted w' = posted w
  /\ outbox w' = outbox w ++ map (fun chat => MessageConfig chat analytics "Markdown") chats.
Proof.
  cbv zeta. revert w. induction chats as [ | chat rest IH]; intros w.
  - cbn. rewrite app_nil_r. auto.
  - cbn [deliver]. rewrite bind_snd, Send_world.
    destruct (snd (fst (Send _ _ w))) as [err | ];
      [rewrite bind_snd, logPrintf_world | ];
      match goal with
      | |- context [deliver env analytics rest ?w0] =>
          destruct (IH w0) as (I1 & I2 & I3 & I4)
      end;
      rewrite I1, I2, I3, I4; cbn; rewrite <- app_assoc; auto.
Qed.

End TextBotBroadcast.

Section RangeOrder.
Import Telegram.

(** An enumeration of the keys of a map visits every subscribed chat,
    visits nothing else and visits nothing twice. *)
Lemma range_visits_each_key_once (order : list Z) (m : gmap Z bool) :
  order ≡ₚ (map_to_list m).*1 ->
  NoDup order /\ forall chat, chat ∈ order <-> is_Some (m !! chat).
Proof.
  intros Hperm. split.
  - rewrite Hperm. apply NoDup_fst_map_to_list.
  - intros chat. rewrite Hperm, list_elem_of_fmap. split.
    + intros ([k v] & -> & Hin). apply elem_of_map_to_list in Hin. eauto.
    + intros [v Hv]. exists (chat, v). split; [reflexivity | ].
      apply elem_of_map_to_list. exact Hv.
Qed.

End RangeOrder.

Section TextBotDaily.
Import Telegram TextBot.

Variables (env : Env) (aiService : AIService).

Lemma text_GenerateAnalytics_run w :
  GenerateAnalytics env aiService w
  = (fst (generate env aiService (invocations w)),
     {| subscribedChats := subscribedChats w; outbox := outbox w;
        invocations := S (invocations w);
        posted := posted w ++ snd (generate env aiService (invocations w));
        logged := logged w |}).
Proof.
  unfold GenerateAnalytics, bind, getInvocations.
  destruct (generate env aiService (invocations w)) as [r posts]. reflexivity.
Qed.

(** One call issues at most one POST. *)
Lemma text_generate_posts k :
  (length (snd (generate env aiService k)) <= 1)%nat.
Proof.
  unfold generate. destruct (String.eqb _ _); [cbn; lia | ].
  destruct (exchangeAt env k) as [e | e | e | e | e | r]; cbn; try lia.
  destruct (Error r); [cbn; lia | ]. destruct (Choices r); cbn; lia.
Qed.

Lemma text_sendDaily_failure w e :
  fst (generate env aiService (invocations w)) = Err e ->
  let w' := snd (sendDailyAnalytics env aiService w) in
  outbox w' = outbox w
  /\ subscribedChats w' = subscribedChats w
  /\ invocations w' = S (invocations w)
  /\ logged w' = logged w ++ [LogBroadcast (size (subscribedChats w));
                              LogDailyGenerationFailed e].
Proof.
  intros Hgen. cbv zeta. unfold sendDailyAnalytics.
  rewrite !bind_snd. cbn [getSubscribed getInvocations logPrintf fst snd].
  rewrite text_GenerateAnalytics_run. cbn [fst snd invocations].
  rewrite Hgen. rewrite !bind_snd. cbn. rewrite <- app_assoc. auto.
Qed.

Lemma text_sendDaily_success w text :
  fst (generate env aiService (invocations w)) = Ok text ->
  let w' := snd (sendDailyAnalytics env aiService w) in
  outbox w' = outbox w
              ++ map (fun chat => MessageConfig chat text "Markdown")
                   (rangeOrder (platform env) (invocations w) (subscribedChats w))
  /\ subscribedChats w' = subscribedChats w
  /\ invocations w' = S (invocations w)
  /\ posted w' = posted w ++ snd (generate env aiService (invocations w)).
Proof.
  intros Hgen. cbv zeta. unfold sendDailyAnalytics.
  rewrite !bind_snd. cbn [getSubscribed getInvocations logPrintf fst snd].
  rewrite text_GenerateAnalytics_run. cbn [fst snd invocations].
  rewrite Hgen. rewrite !bind_snd. cbn [getSubscribed fst snd subscribedChats].
  match goal with
  | |- context [deliver env text ?chats ?w0] =>
      destruct (text_deliver_world env text chats w0) as (I1 & I2 & I3 & I4)
  end.
  rewrite I1, I2, I3, I4. cbn. auto.
Qed.

End TextBotDaily.

Section CommandBotDaily.
Import Telegram CommandBot.

Variables (env : Env) (aiService : AIService).

Lemma command_deliver_world analytics chats w :
  let w' := snd (deliver env analytics chats w) in
  subscribedChats w' = subscribedChats w
  /\ invocations w' = invocations w
  /\ posted w' = posted w
  /\ outbox w' = outbox w ++ map (fun chat => MessageConfig chat analytics "Markdown") chats.
Proof.
  cbv zeta. revert w. induction chats as [ | chat rest IH]; intros w.
  - cbn. rewrite app_nil_r. auto.
  - cbn [deliver]. rewrite bind_snd, Send_world.
    destruct (snd (fst (Send _ _ w))) as [err | ];
      [rewrite bind_snd, logPrintf_world | ];
      match goal with
      | |- context [deliver env analytics rest ?w0] =>
          destruct (IH w0) as (I1 & I2 & I3 & I4)
      end;
      rewrite I1, I2, I3, I4; cbn; rewrite <- app_assoc; auto.
Qed.

Lemma logAll_run entries w :
  logAll entries w
  = (tt, {| subscribedChats := subscribedChats w; outbox := outbox w;
            invocations := invocations w; posted := posted w;
            logged := logged w ++ entries |}).
Proof.
  revert w. induction entries as [ | l rest IH]; intros w.
  - cbn. rewrite app_nil_r. destruct w; reflexivity.
  - cbn [logAll]. unfold bind. cbn [logPrintf]. rewrite IH. cbn.
    rewrite <- app_assoc. reflexivity.
Qed.

Lemma command_GenerateAnalytics_run w :
  let g := generate env aiService (invocations w) in
  GenerateAnalytics env aiService w
  = (fst (fst g),
     {| subscribedChats := subscribedChats w; outbox := outbox w;
        invocations := S (invocations w);
        posted := posted w ++ snd (fst g);
        logged := logged w ++ snd g |}).
Proof.
  cbv zeta. unfold GenerateAnalytics, bind, getInvocations.
  destruct (generate env aiService (invocations w)) as [[r posts] log].
  rewrite logAll_run. reflexivity.
Qed.

Lemma command_generate_posts k :
  (length (snd (fst (generate env aiService k))) <= 1)%nat.
Proof.
  unfold generate.
  destruct (GetMarketData (fetchesAt env k)) as [[ptr err] marketLog].
  destruct (exchangeAt env k) as [e | e | e | e | e | r]; cbn; try lia.
  destruct (negb _); [cbn; lia | ]. destruct (Choices r); cbn; lia.
Qed.

Lemma command_sendDaily_failure w e :
  fst (fst (generate env aiService (invocations w))) = Err e ->
  let w' := snd (sendDailyAnalytics env aiService w) in
  outbox w' = outbox w
  /\ subscribedChats w' = subscribedChats w
  /\ invocations w' = S (invocations w)
  /\ logged w' = logged w ++ [LogBroadcast (size (subscribedChats w))]
                 ++ snd (generate env aiService (invocations w))
                 ++ [LogDailyGenerationFailed e].
Proof.
  intros Hgen. cbv zeta. unfold sendDailyAnalytics.
  rewrite !bind_snd. cbn [getSubscribed getInvocations logPrintf fst snd].
  rewrite command_GenerateAnalytics_run. cbn [fst snd invocations].
  rewrite Hgen. rewrite !bind_snd. cbn. rewrite <- !app_assoc. auto.
Qed.

Lemma command_sendDaily_success w text :
  fst (fst (generate env aiService (invocations w))) = Ok text ->
  let w' := snd (sendDailyAnalytics env aiService w) in
  outbox w' = outbox w
              ++ map (fun chat => MessageConfig chat text "Markdown")
                   (rangeOrder (platform env) (invocations w) (subscribedChats w))
  /\ subscribedChats w' = subscribedChats w
  /\ invocations w' = S (invocations w)
  /\ posted w' = posted w ++ snd (fst (generate env aiService (invocations w))).
Proof.
  intros Hgen. cbv zeta. unfold sendDailyAnalytics.
  rewrite !bind_snd. cbn [getSubscribed getInvocations logPrintf fst snd].
  rewrite command_GenerateAnalytics_run. cbn [fst snd invocations].
  rewrite Hgen. rewrite !bind_snd. cbn [getSubscribed fst snd subscribedChats].
  match goal with
  | |- context [deliver env text ?chats ?w0] =>
      destruct (command_deliver_world text chats w0) as (I1 & I2 & I3 & I4)
  end.
  rewrite I1, I2, I3, I4. cbn. auto.
Qed.

End CommandBotDaily.

Section TextBotHandler.
Import Telegram TextBot Config.

Variables (env : Env) (aiService : AIService) (message : Message).

Let chatID := Chat_ID message.

Lemma text_handle_start w :
  Text message = "/start" ->
  snd (handleMessage env message aiService w)
  = afterSend (NewMessage chatID
                 (if From_ID message =? ADMIN_USER_ID
                  then welcomeText +:+ adminSuffix else welcomeText)) w.
Proof.
  intros Htext. unfold handleMessage. rewrite Htext.
  cbn [String.eqb Ascii.eqb Bool.eqb]. reflexivity.
Qed.

Lemma text_handle_refusal w :
  From_ID message <> ADMIN_USER_ID ->
  Text message <> "/start" ->
  snd (handleMessage env message aiService w)
  = afterSend (NewMessage chatID refusalText) w.
Proof.
  intros Hadmin Htext. unfold handleMessage.
  apply String.eqb_neq in Htext. rewrite Htext.
  apply Z.eqb_neq in Hadmin. rewrite Hadmin. reflexivity.
Qed.

Lemma text_handle_subscribe w :
  From_ID message = ADMIN_USER_ID ->
  Text message = "/subscribe" ->
  snd (handleMessage env message aiService w)
  = {| subscribedChats := <[chatID := true]> (subscribedChats w);
       outbox := outbox w ++ [NewMessage chatID subscribedText];
       invocations := invocations w; posted := posted w; logged := logged w |}.
Proof.
  intros Hadmin Htext. unfold handleMessage. rewrite Htext, Hadmin.
  rewrite Z.eqb_refl. cbn [String.eqb Ascii.eqb Bool.eqb negb]. reflexivity.
Qed.

Lemma text_handle_unsubscribe w :
  From_ID message = ADMIN_USER_ID ->
  Text message = "/unsubscribe" ->
  snd (handleMessage env message aiService w)
  = {| subscribedChats := delete chatID (subscribedChats w);
       outbox := outbox w ++ [NewMessage chatID unsubscribedText];
       invocations := invocations w; posted := posted w; logged := logged w |}.
Proof.
  intros Hadmin Htext. unfold handleMessage. rewrite Htext, Hadmin.
  rewrite Z.eqb_refl. cbn [String.eqb Ascii.eqb Bool.eqb negb]. reflexivity.
Qed.

Lemma text_handle_analytics_failure w e :
  From_ID message = ADMIN_USER_ID ->
  Text message = "/analytics" ->
  fst (generate env aiService (invocations w)) = Err e ->
  snd (handleMessage env message aiService w)
  = {| subscribedChats := subscribedChats w;
       outbox := outbox w ++ [NewMessage chatID placeholderText;
                              NewMessage chatID generationErrorText];
       invocations := S (invocations w);
       posted := posted w ++ snd (generate env aiService (invocations w));
       logged := logged w ++ [LogGenerationFailed e] |}.
Proof.
  intros Hadmin Htext Hgen. unfold handleMessage. rewrite Htext, Hadmin.
  rewrite Z.eqb_refl. cbn [String.eqb Ascii.eqb Bool.eqb negb].
  rewrite !bind_snd, Send_world, text_GenerateAnalytics_run.
  cbn [fst snd invocations]. rewrite Hgen.
  rewrite !bind_snd. cbn. rewrite <- app_assoc. reflexivity.
Qed.

Lemma text_handle_analytics_success w text :
  From_ID message = ADMIN_USER_ID ->
  Text message = "/analytics" ->
  fst (generate env aiService (invocations w)) = Ok text ->
  snd (handleMessage env message aiService w)
  = {| subscribedChats := subscribedChats w;
       outbox := outbox w
                 ++ [NewMessage chatID placeholderText;
                     EditMessageTextConfig chatID
                       (match sendOutcome (platform env) (length (outbox w)) with
                        | Ok mid => mid
                        | Err _ => 0
                        end) text "Markdown"];
       invocations := S (invocations w);
       posted := posted w ++ snd (generate env aiService (invocations w));
       logged := logged w |}.
Proof.
  intros Hadmin Htext Hgen. unfold handleMessage. rewrite Htext, Hadmin.
  rewrite Z.eqb_refl. cbn [String.eqb Ascii.eqb Bool.eqb negb].
  rewrite !bind_snd, Send_world, text_GenerateAnalytics_run.
  cbn [fst snd invocations]. rewrite Hgen.
  rewrite !bind_snd. cbn. rewrite <- app_assoc.
  destruct (sendOutcome (platform env) (length (outbox w))); reflexivity.
Qed.

Lemma text_handle_unknown w :
  From_ID message = ADMIN_USER_ID ->
  Text message <> "/start" -> Text message <> "/subscribe" ->
  Text message <> "/unsubscribe" -> Text message <> "/analytics" ->
  snd (handleMessage env message aiService w)
  = afterSend (NewMessage chatID unknownCommandText) w.
Proof.
  intros Hadmin H1 H2 H3 H4. unfold handleMessage.
  apply String.eqb_neq in H1, H2, H3, H4. rewrite H1, H2, H3, H4, Hadmin.
  rewrite Z.eqb_refl. reflexivity.
Qed.

End TextBotHandler.

Section CommandBotHandler.
Import Telegram CommandBot Config.

Variables (env : Env) (aiService : AIService) (message : Message).

Let chatID := Chat_ID message.

Lemma command_handle_not_command w :
  notCommandText (Text message) = true ->
  handleMessage env message aiService w = (tt, w).
Proof.
  intros Htext. unfold handleMessage. rewrite Htext. reflexivity.
Qed.

Lemma command_handle_unknown w :
  Command message <> "start" -> Command message <> "subscribe" ->
  Command message <> "unsubscribe" -> Command message <> "analytics" ->
  handleMessage env message aiService w = (tt, w).
Proof.
  intros H1 H2 H3 H4. unfold handleMessage.
  apply String.eqb_neq in H1, H2, H3, H4. rewrite H1, H2, H3, H4.
  destruct (notCommandText _); reflexivity.
Qed.

Lemma command_handle_start w :
  notCommandText (Text message) = false ->
  Command message = "start" ->
  snd (handleMessage env message aiService w)
  = afterSend (NewMessage chatID
                 (if From_ID message =? ADMIN_USER_ID
                  then welcomeText +:+ adminSuffix else welcomeText)) w.
Proof.
  intros Htext Hcmd. unfold handleMessage. rewrite Htext, Hcmd.
  cbn [String.eqb Ascii.eqb Bool.eqb]. reflexivity.
Qed.

Lemma command_handle_refusal w :
  From_ID message <> ADMIN_USER_ID ->
  notCommandText (Text message) = false ->
  Command message = "subscribe" \/ Command message = "unsubscribe"
  \/ Command message = "analytics" ->
  snd (handleMessage env message aiService w)
  = afterSend (NewMessage chatID refusalText) w.
Proof.
  intros Hadmin Htext Hcmd. unfold handleMessage. rewrite Htext.
  apply Z.eqb_neq in Hadmin. rewrite Hadmin.
  destruct Hcmd as [-> | [-> | ->]]; reflexivity.
Qed.

Lemma command_handle_subscribe w :
  From_ID message = ADMIN_USER_ID ->
  notCommandText (Text message) = false ->
  Command message = "subscribe" ->
  snd (handleMessage env message aiService w)
  = {| subscribedChats := <[chatID := true]> (subscribedChats w);
       outbox := outbox w ++ [NewMessage chatID subscribedText];
       invocations := invocations w; posted := posted w; logged := logged w |}.
Proof.
  intros Hadmin Htext Hcmd. unfold handleMessage. rewrite Htext, Hcmd, Hadmin.
  rewrite Z.eqb_refl. cbn [String.eqb Ascii.eqb Bool.eqb negb orb]. reflexivity.
Qed.

Lemma command_handle_unsubscribe w :
  From_ID message = ADMIN_USER_ID ->
  notCommandText (Text message) = false ->
  Command message = "unsubscribe" ->
  snd (handleMessage env message aiService w)
  = {| subscribedChats := delete chatID (subscribedChats w);
       outbox := outbox w ++ [NewMessage chatID unsubscribedText];
       invocations := invocations w; posted := posted w; logged := logged w |}.
Proof.
  intros Hadmin Htext Hcmd. unfold handleMessage. rewrite Htext, Hcmd, Hadmin.
  rewrite Z.eqb_refl. cbn [String.eqb Ascii.eqb Bool.eqb negb orb]. reflexivity.
Qed.

Lemma command_handle_analytics_failure w e :
  From_ID message = ADMIN_USER_ID ->
  notCommandText (Text message) = false ->
  Command message = "analytics" ->
  fst (fst (generate env aiService (invocations w))) = Err e ->
  snd (handleMessage env message aiService w)
  = {| subscribedChats := subscribedChats w;
       outbox := outbox w ++ [NewMessage chatID placeholderText;
                              NewMessage chatID generationErrorText];
       invocations := S (invocations w);
       posted := posted w ++ snd (fst (generate env aiService (invocations w)));
       logged := logged w ++ snd (generate env aiService (invocations w))
                 ++ [LogGenerationFailed e] |}.
Proof.
  intros Hadmin Htext Hcmd Hgen. unfold handleMessage. rewrite Htext, Hcmd, Hadmin.
  rewrite Z.eqb_refl. cbn [String.eqb Ascii.eqb Bool.eqb negb orb].
  rewrite !bind_snd, Send_world, command_GenerateAnalytics_run.
  cbn [fst snd invocations]. rewrite Hgen.
  rewrite !bind_snd. cbn. rewrite <- !app_assoc. reflexivity.
Qed.

Lemma command_handle_analytics_success w text :
  From_ID message = ADMIN_USER_ID ->
  notCommandText (Text message) = false ->
  Command message = "analytics" ->
  fst (fst (generate env aiService (invocations w))) = Ok text ->
  snd (handleMessage env message aiService w)
  = {| subscribedChats := subscribedChats w;
       outbox := outbox w
                 ++ [NewMessage chatID placeholderText;
                     EditMessageTextConfig chatID
                       (match sendOutcome (platform env) (length (outbox w)) with
                        | Ok mid => mid
                        | Err _ => 0
                        end) text "Markdown"];
       invocations := S (invocations w);
       posted := posted w ++ snd (fst (generate env aiService (invocations w)));
       logged := logged w ++ snd (generate env aiService (invocations w)) |}.
Proof.
  intros Hadmin Htext Hcmd Hgen. unfold handleMessage. rewrite Htext, Hcmd, Hadmin.
  rewrite Z.eqb_refl. cbn [String.eqb Ascii.eqb Bool.eqb negb orb].
  rewrite !bind_snd, Send_world, command_GenerateAnalytics_run.
  cbn [fst snd invocations]. rewrite Hgen.
  rewrite !bind_snd. cbn. rewrite <- !app_assoc.
  destruct (sendOutcome (platform env) (length (outbox w))); reflexivity.
Qed.

End CommandBotHandler.

(* ===================================================================== *)
(** ** The claims about the dispatcher *)
(* ===================================================================== *)

Section DispatcherClaims.
Import Telegram Config Samples.

(** C5.  When [GenerateAnalytics] fails during a scheduled broadcast, in
    either entry point, nothing is handed to [bot.Send], the subscriber
    map is unchanged, the collaborator has been called once and the
    failure is the last line of the log. *)
Theorem failed_generation_skips_broadcast :
  (forall env aiService w e,
      fst (TextBot.generate env aiService (invocations w)) = Err e ->
      let w' := snd (TextBot.dispatch env aiService WakeSignal w) in
      outbox w' = outbox w
      /\ subscribedChats w' = subscribedChats w
      /\ invocations w' = S (invocations w)
      /\ last (logged w') = Some (LogDailyGenerationFailed e))
  /\ (forall env aiService w e,
      fst (fst (CommandBot.generate env aiService (invocations w))) = Err e ->
      let w' := snd (CommandBot.dispatch env aiService WakeSignal w) in
      outbox w' = outbox w
      /\ subscribedChats w' = subscribedChats w
      /\ invocations w' = S (invocations w)
      /\ last (logged w') = Some (LogDailyGenerationFailed e)).
Proof.
  split; intros env aiService w e Hgen; cbv zeta; cbn [TextBot.dispatch CommandBot.dispatch].
  - destruct (text_sendDaily_failure env aiService w e Hgen) as (H1 & H2 & H3 & H4).
    rewrite H1, H2, H3, H4. repeat split.
    rewrite last_app. reflexivity.
  - destruct (command_sendDaily_failure env aiService w e Hgen) as (H1 & H2 & H3 & H4).
    rewrite H1, H2, H3, H4. repeat split.
    rewrite !app_assoc. apply last_snoc.
Qed.

Lemma failed_generation_skips_broadcast_witness :
  outbox (snd (TextBot.dispatch (textEnv acceptingPlatform "sk-test" textUnreachable)
                 (TextBot.NewAIService (textEnv acceptingPlatform "sk-test" textUnreachable))
                 WakeSignal twoSubscribers)) = []
  /\ outbox (snd (CommandBot.dispatch (commandEnv acceptingPlatform commandUnreachable)
                    (CommandBot.NewAIService "sk-test" "gpt-4o")
                    WakeSignal twoSubscribers)) = [].
Proof.
  split.
  - exact (proj1 (proj1 failed_generation_skips_broadcast
             (textEnv acceptingPlatform "sk-test" textUnreachable)
             (TextBot.NewAIService (textEnv acceptingPlatform "sk-test" textUnreachable))
             twoSubscribers _ eq_refl)).
  - exact (proj1 (proj2 failed_generation_skips_broadcast
             (commandEnv acceptingPlatform commandUnreachable)
             (CommandBot.NewAIService "sk-test" "gpt-4o")
             twoSubscribers _ eq_refl)).
Defined.

(** C4.  On a wake signal, in either entry point and whatever the
    platform answers to each request, [GenerateAnalytics] is called once
    and issues at most one POST; when it returns a text, that one text is
    handed to [bot.Send] in Markdown mode once for every chat of the
    subscriber map and for nothing else, and the subscriber map is
    unchanged. *)
Theorem broadcast_reaches_every_subscriber :
  (forall env aiService w text,
      rangesOverKeys (TextBot.platform env) ->
      fst (TextBot.generate env aiService (invocations w)) = Ok text ->
      let w' := snd (TextBot.dispatch env aiService WakeSignal w) in
      invocations w' = S (invocations w)
      /\ (length (posted w') <= length (posted w) + 1)%nat
      /\ subscribedChats w' = subscribedChats w
      /\ exists order,
           outbox w' = outbox w ++ map (fun chat => MessageConfig chat text "Markdown") order
           /\ NoDup order
           /\ forall chat, chat ∈ order <-> is_Some (subscribedChats w !! chat))
  /\ (forall env aiService w text,
      rangesOverKeys (CommandBot.platform env) ->
      fst (fst (CommandBot.generate env aiService (invocations w))) = Ok text ->
      let w' := snd (CommandBot.dispatch env aiService WakeSignal w) in
      invocations w' = S (invocations w)
      /\ (length (posted w') <= length (posted w) + 1)%nat
      /\ subscribedChats w' = subscribedChats w
      /\ exists order,
           outbox w' = outbox w ++ map (fun chat => MessageConfig chat text "Markdown") order
           /\ NoDup order
           /\ forall chat, chat ∈ order <-> is_Some (subscribedChats w !! chat)).
Proof.
  split; intros env aiService w text Hrange Hgen; cbv zeta;
    cbn [TextBot.dispatch CommandBot.dispatch].
  - destruct (text_sendDaily_success env aiService w text Hgen) as (H1 & H2 & H3 & H4).
    pose proof (text_generate_posts env aiService (invocations w)) as Hposts.
    rewrite H2, H3, H4, length_app. repeat split; [lia | ].
    eexists. split; [exact H1 | ].
    apply range_visits_each_key_once, Hrange.
  - destruct (command_sendDaily_success env aiService w text Hgen) as (H1 & H2 & H3 & H4).
    pose proof (command_generate_posts env aiService (invocations w)) as Hposts.
    rewrite H2, H3, H4, length_app. repeat split; [lia | ].
    eexists. split; [exact H1 | ].
    apply range_visits_each_key_once, Hrange.
Qed.

Lemma sample_platform_ranges p :
  rangeOrder p = (fun _ m => (map_to_list m).*1) -> rangesOverKeys p.
Proof. intros H k m. rewrite H. reflexivity. Qed.

(** Two subscribers, a platform that rejects every request: both are
    still addressed and both stay subscribed. *)
Lemma broadcast_reaches_every_subscriber_witness :
  let text_w' := snd (TextBot.dispatch (textEnv rejectingPlatform "sk-test" (textAnswers "TEXT"))
                        (TextBot.NewAIService (textEnv rejectingPlatform "sk-test" (textAnswers "TEXT")))
                        WakeSignal twoSubscribers) in
  let command_w' := snd (CommandBot.dispatch (commandEnv rejectingPlatform (commandAnswers "TEXT"))
                           (CommandBot.NewAIService "sk-test" "gpt-4o")
                           WakeSignal twoSubscribers) in
  (invocations text_w' = 1%nat /\ subscribedChats text_w' = subscribedChats twoSubscribers)
  /\ (invocations command_w' = 1%nat
      /\ subscribedChats command_w' = subscribedChats twoSubscribers).
Proof.
  cbv zeta. split.
  - pose proof (proj1 broadcast_reaches_every_subscriber
                  (textEnv rejectingPlatform "sk-test" (textAnswers "TEXT"))
                  (TextBot.NewAIService (textEnv rejectingPlatform "sk-test" (textAnswers "TEXT")))
                  twoSubscribers "TEXT"
                  (sample_platform_ranges rejectingPlatform eq_refl) eq_refl)
      as (H1 & _ & H3 & _).
    split; [exact H1 | exact H3].
  - pose proof (proj2 broadcast_reaches_every_subscriber
                  (commandEnv rejectingPlatform (commandAnswers "TEXT"))
                  (CommandBot.NewAIService "sk-test" "gpt-4o")
                  twoSubscribers "TEXT"
                  (sample_platform_ranges rejectingPlatform eq_refl) eq_refl)
      as (H1 & _ & H3 & _).
    split; [exact H1 | exact H3].
Defined.

End DispatcherClaims.

Section CommandClaims.
Import Telegram Config Samples.

(** C3, as amended.  When the administrator sends the analytics command
    and [GenerateAnalytics] fails, in either entry point: exactly two
    requests are handed to [bot.Send], first a new message with the
    placeholder and then a second new message with the fixed error text
    (the placeholder is not edited); [GenerateAnalytics] has been called
    once and has issued at most one POST, so nothing is retried; the
    subscriber map is unchanged; the handler returns. *)
Theorem analytics_failure_is_answered_once :
  (forall env aiService message w e,
      From_ID message = ADMIN_USER_ID ->
      Text message = "/analytics" ->
      fst (TextBot.generate env aiService (invocations w)) = Err e ->
      let w' := snd (TextBot.dispatch env aiService (Update (Some message)) w) in
      outbox w' = outbox w ++ [NewMessage (Chat_ID message) placeholderText;
                               NewMessage (Chat_ID message) generationErrorText]
      /\ invocations w' = S (invocations w)
      /\ (length (posted w') <= length (posted w) + 1)%nat
      /\ subscribedChats w' = subscribedChats w
      /\ fst (TextBot.dispatch env aiService (Update (Some message)) w) = tt)
  /\ (forall env aiService message w e,
      From_ID message = ADMIN_USER_ID ->
      CommandBot.notCommandText (Text message) = false ->
      Command message = "analytics" ->
      fst (fst (CommandBot.generate env aiService (invocations w))) = Err e ->
      let w' := snd (CommandBot.dispatch env aiService (Update (Some message)) w) in
      outbox w' = outbox w ++ [NewMessage (Chat_ID message) placeholderText;
                               NewMessage (Chat_ID message) generationErrorText]
      /\ invocations w' = S (invocations w)
      /\ (length (posted w') <= length (posted w) + 1)%nat
      /\ subscribedChats w' = subscribedChats w
      /\ fst (CommandBot.dispatch env aiService (Update (Some message)) w) = tt).
Proof.
  split.
  - intros env aiService message w e Hadmin Htext Hgen. cbv zeta.
    cbn [TextBot.dispatch].
    rewrite (text_handle_analytics_failure env aiService message w e Hadmin Htext Hgen).
    pose proof (text_generate_posts env aiService (invocations w)) as Hposts.
    cbn [outbox invocations posted subscribedChats]. rewrite length_app.
    repeat split; [lia | ].
    match goal with |- ?u = tt => destruct u; reflexivity end.
  - intros env aiService message w e Hadmin Htext Hcmd Hgen. cbv zeta.
    cbn [CommandBot.dispatch].
    rewrite (command_handle_analytics_failure env aiService message w e
               Hadmin Htext Hcmd Hgen).
    pose proof (command_generate_posts env aiService (invocations w)) as Hposts.
    cbn [outbox invocations posted subscribedChats]. rewrite length_app.
    repeat split; [lia | ].
    match goal with |- ?u = tt => destruct u; reflexivity end.
Qed.

Lemma analytics_failure_is_answered_once_witness :
  length (outbox (snd (TextBot.dispatch
                         (textEnv acceptingPlatform "sk-test" textUnreachable)
                         (TextBot.NewAIService (textEnv acceptingPlatform "sk-test" textUnreachable))
                         (Update (Some (fromAdmin "/analytics"))) initialWorld))) = 2%nat
  /\ length (outbox (snd (CommandBot.dispatch
                            (commandEnv acceptingPlatform commandUnreachable)
                            (CommandBot.NewAIService "sk-test" "gpt-4o")
                            (Update (Some (fromAdmin "/analytics"))) initialWorld))) = 2%nat.
Proof.
  split.
  - rewrite (proj1 (proj1 analytics_failure_is_answered_once
               (textEnv acceptingPlatform "sk-test" textUnreachable)
               (TextBot.NewAIService (textEnv acceptingPlatform "sk-test" textUnreachable))
               (fromAdmin "/analytics") initialWorld _ eq_refl eq_refl eq_refl)).
    reflexivity.
  - rewrite (proj1 (proj2 analytics_failure_is_answered_once
               (commandEnv acceptingPlatform commandUnreachable)
               (CommandBot.NewAIService "sk-test" "gpt-4o")
               (fromAdmin "/analytics") initialWorld _ eq_refl eq_refl eq_refl eq_refl)).
    reflexivity.
Defined.

(** C3, as stated, fails: with the endpoint unreachable, the second
    request handed to [bot.Send] is a new message, and no request edits
    the placeholder. *)
Lemma analytics_failure_does_not_edit :
  let w' := snd (TextBot.dispatch
                   (textEnv acceptingPlatform "sk-test" textUnreachable)
                   (TextBot.NewAIService (textEnv acceptingPlatform "sk-test" textUnreachable))
                   (Update (Some (fromAdmin "/analytics"))) initialWorld) in
  outbox w' = [MessageConfig ADMIN_USER_ID placeholderText "";
               MessageConfig ADMIN_USER_ID generationErrorText ""]
  /\ existsb isEdit (outbox w') = false.
Proof.
  cbv zeta. split; vm_compute; reflexivity.
Qed.

(** C6.  A sender other than the administrator who invokes subscribe,
    unsubscribe or analytics, in either entry point, is answered with the
    refusal text and nothing else; the subscriber map is unchanged and
    [GenerateAnalytics] is not called. *)
Theorem stranger_is_refused :
  (forall env aiService message w,
      From_ID message <> ADMIN_USER_ID ->
      Text message = "/subscribe" \/ Text message = "/unsubscribe"
      \/ Text message = "/analytics" ->
      let w' := snd (TextBot.dispatch env aiService (Update (Some message)) w) in
      outbox w' = outbox w ++ [NewMessage (Chat_ID message) refusalText]
      /\ subscribedChats w' = subscribedChats w
      /\ invocations w' = invocations w)
  /\ (forall env aiService message w,
      From_ID message <> ADMIN_USER_ID ->
      CommandBot.notCommandText (Text message) = false ->
      Command message = "subscribe" \/ Command message = "unsubscribe"
      \/ Command message = "analytics" ->
      let w' := snd (CommandBot.dispatch env aiService (Update (Some message)) w) in
      outbox w' = outbox w ++ [NewMessage (Chat_ID message) refusalText]
      /\ subscribedChats w' = subscribedChats w
      /\ invocations w' = invocations w).
Proof.
  split.
  - intros env aiService message w Hadmin Htext. cbv zeta. cbn [TextBot.dispatch].
    rewrite text_handle_refusal;
      [cbn; auto | exact Hadmin | destruct Htext as [-> | [-> | ->]]; discriminate].
  - intros env aiService message w Hadmin Htext Hcmd. cbv zeta. cbn [CommandBot.dispatch].
    rewrite command_handle_refusal by assumption. cbn; auto.
Qed.

Lemma stranger_is_refused_witness :
  subscribedChats (snd (TextBot.dispatch
                          (textEnv acceptingPlatform "sk-test" textUnreachable)
                          (TextBot.NewAIService (textEnv acceptingPlatform "sk-test" textUnreachable))
                          (Update (Some (fromStranger "/subscribe"))) initialWorld)) = ∅
  /\ subscribedChats (snd (CommandBot.dispatch
                             (commandEnv acceptingPlatform commandUnreachable)
                             (CommandBot.NewAIService "sk-test" "gpt-4o")
                             (Update (Some (fromStranger "/subscribe"))) initialWorld)) = ∅.
Proof.
  assert (Hstranger : From_ID (fromStranger "/subscribe") <> ADMIN_USER_ID)
    by (cbn; unfold ADMIN_USER_ID; lia).
  split.
  - exact (proj1 (proj2 (proj1 stranger_is_refused
             (textEnv acceptingPlatform "sk-test" textUnreachable)
             (TextBot.NewAIService (textEnv acceptingPlatform "sk-test" textUnreachable))
             (fromStranger "/subscribe") initialWorld Hstranger (or_introl eq_refl)))).
  - exact (proj1 (proj2 (proj2 stranger_is_refused
             (commandEnv acceptingPlatform commandUnreachable)
             (CommandBot.NewAIService "sk-test" "gpt-4o")
             (fromStranger "/subscribe") initialWorld Hstranger eq_refl
             (or_introl eq_refl)))).
Defined.

End CommandClaims.

Section SubscriberClaims.
Import Telegram Config Samples.

(** C7, as amended.  An update without a message is ignored by both
    entry points.  The command-matching entry point ignores every
    message that is not a recognized command: the world is left exactly
    as it was.  The text-matching entry point answers every text other
    than its four commands with one fixed reply, the refusal for a
    stranger and the unknown-command text for the administrator; the
    subscriber map is unchanged and [GenerateAnalytics] is not called. *)
Theorem unrecognized_input :
  (forall env aiService w,
      TextBot.dispatch env aiService (Update None) w = (tt, w))
  /\ (forall env aiService w,
      CommandBot.dispatch env aiService (Update None) w = (tt, w))
  /\ (forall env aiService message w,
      CommandBot.notCommandText (Text message) = true
      \/ (Command message <> "start" /\ Command message <> "subscribe"
          /\ Command message <> "unsubscribe" /\ Command message <> "analytics") ->
      CommandBot.dispatch env aiService (Update (Some message)) w = (tt, w))
  /\ (forall env aiService message w,
      Text message <> "/start" -> Text message <> "/subscribe" ->
      Text message <> "/unsubscribe" -> Text message <> "/analytics" ->
      let w' := snd (TextBot.dispatch env aiService (Update (Some message)) w) in
      outbox w' = outbox w
                  ++ [NewMessage (Chat_ID message)
                        (if From_ID message =? ADMIN_USER_ID
                         then unknownCommandText else refusalText)]
      /\ subscribedChats w' = subscribedChats w
      /\ invocations w' = invocations w).
Proof.
  split; [reflexivity | ]. split; [reflexivity | ]. split.
  - intros env aiService message w [Htext | (H1 & H2 & H3 & H4)]; cbn [CommandBot.dispatch].
    + apply command_handle_not_command. exact Htext.
    + apply command_handle_unknown; assumption.
  - intros env aiService message w H1 H2 H3 H4. cbv zeta. cbn [TextBot.dispatch].
    destruct (Z.eqb_spec (From_ID message) ADMIN_USER_ID) as [Hadmin | Hadmin].
    + rewrite text_handle_unknown by assumption. cbn; auto.
    + rewrite text_handle_refusal by assumption. cbn; auto.
Qed.

Lemma unrecognized_input_witness :
  CommandBot.dispatch (commandEnv acceptingPlatform commandUnreachable)
    (CommandBot.NewAIService "sk-test" "gpt-4o")
    (Update (Some (plainFromAdmin "hello"))) twoSubscribers = (tt, twoSubscribers)
  /\ subscribedChats
       (snd (TextBot.dispatch (textEnv acceptingPlatform "sk-test" textUnreachable)
               (TextBot.NewAIService (textEnv acceptingPlatform "sk-test" textUnreachable))
               (Update (Some (plainFromAdmin "hello"))) twoSubscribers))
     = subscribedChats twoSubscribers.
Proof.
  split.
  - exact (proj1 (proj2 (proj2 unrecognized_input))
             (commandEnv acceptingPlatform commandUnreachable)
             (CommandBot.NewAIService "sk-test" "gpt-4o")
             (plainFromAdmin "hello") twoSubscribers (or_introl eq_refl)).
  - refine (proj1 (proj2 (proj2 (proj2 (proj2 unrecognized_input))
             (textEnv acceptingPlatform "sk-test" textUnreachable)
             (TextBot.NewAIService (textEnv acceptingPlatform "sk-test" textUnreachable))
             (plainFromAdmin "hello") twoSubscribers _ _ _ _))); discriminate.
Defined.

(** C7, as stated, fails in the text-matching entry point: a text that
    is no command, sent by the administrator, is answered with the
    unknown-command text. *)
Lemma unknown_text_is_answered :
  outbox (snd (TextBot.dispatch (textEnv acceptingPlatform "sk-test" textUnreachable)
                 (TextBot.NewAIService (textEnv acceptingPlatform "sk-test" textUnreachable))
                 (Update (Some (plainFromAdmin "hello"))) initialWorld))
  = [MessageConfig ADMIN_USER_ID unknownCommandText ""].
Proof. vm_compute. reflexivity. Qed.

(** A key of a map is listed once among its keys. *)
Lemma key_listed_once (m : gmap Z bool) chat :
  is_Some (m !! chat) ->
  count_occ Z.eq_dec (map_to_list m).*1 chat = 1%nat.
Proof.
  intros [v Hv].
  apply (proj1 (NoDup_count_occ' Z.eq_dec _)
           (proj1 (NoDup_ListNoDup _) (NoDup_fst_map_to_list m))).
  apply list_elem_of_In, list_elem_of_fmap. exists (chat, v).
  split; [reflexivity | ]. apply elem_of_map_to_list. exact Hv.
Qed.

Lemma subscribed_twice (m : gmap Z bool) chat :
  let once := <[chat := true]> m in
  let twice := <[chat := true]> once in
  twice = once
  /\ twice !! chat = Some true
  /\ count_occ Z.eq_dec (map_to_list twice).*1 chat = 1%nat.
Proof.
  cbv zeta. rewrite insert_insert_eq. split; [reflexivity | ].
  split; [apply lookup_insert_eq | ].
  apply key_listed_once. rewrite lookup_insert_eq. eauto.
Qed.

(** C8.  In either entry point, when the administrator subscribes a
    chat twice, the subscriber map after the second time is the map after
    the first time, and the chat is listed once among its keys; when the
    administrator unsubscribes a chat that is not subscribed, the
    subscriber map is unchanged. *)
Theorem subscription_is_idempotent :
  (forall env aiService message w,
      From_ID message = ADMIN_USER_ID ->
      Text message = "/subscribe" ->
      let w1 := snd (TextBot.dispatch env aiService (Update (Some message)) w) in
      let w2 := snd (TextBot.dispatch env aiService (Update (Some message)) w1) in
      subscribedChats w2 = subscribedChats w1
      /\ subscribedChats w2 !! Chat_ID message = Some true
      /\ count_occ Z.eq_dec (map_to_list (subscribedChats w2)).*1 (Chat_ID message) = 1%nat)
  /\ (forall env aiService message w,
      From_ID message = ADMIN_USER_ID ->
      Text message = "/unsubscribe" ->
      subscribedChats w !! Chat_ID message = None ->
      subscribedChats (snd (TextBot.dispatch env aiService (Update (Some message)) w))
      = subscribedChats w)
  /\ (forall env aiService message w,
      From_ID message = ADMIN_USER_ID ->
      CommandBot.notCommandText (Text message) = false ->
      Command message = "subscribe" ->
      let w1 := snd (CommandBot.dispatch env aiService (Update (Some message)) w) in
      let w2 := snd (CommandBot.dispatch env aiService (Update (Some message)) w1) in
      subscribedChats w2 = subscribedChats w1
      /\ subscribedChats w2 !! Chat_ID message = Some true
      /\ count_occ Z.eq_dec (map_to_list (subscribedChats w2)).*1 (Chat_ID message) = 1%nat)
  /\ (forall env aiService message w,
      From_ID message = ADMIN_USER_ID ->
      CommandBot.notCommandText (Text message) = false ->
      Command message = "unsubscribe" ->
      subscribedChats w !! Chat_ID message = None ->
      subscribedChats (snd (CommandBot.dispatch env aiService (Update (Some message)) w))
      = subscribedChats w).
Proof.
  split; [ | split; [ | split]].
  - intros env aiService message w Hadmin Htext. cbv zeta. cbn [TextBot.dispatch].
    rewrite !text_handle_subscribe by assumption. cbn [subscribedChats].
    apply subscribed_twice.
  - intros env aiService message w Hadmin Htext Habsent. cbn [TextBot.dispatch].
    rewrite text_handle_unsubscribe by assumption. cbn [subscribedChats].
    apply delete_id. exact Habsent.
  - intros env aiService message w Hadmin Htext Hcmd. cbv zeta. cbn [CommandBot.dispatch].
    rewrite !command_handle_subscribe by assumption. cbn [subscribedChats].
    apply subscribed_twice.
  - intros env aiService message w Hadmin Htext Hcmd Habsent. cbn [CommandBot.dispatch].
    rewrite command_handle_unsubscribe by assumption. cbn [subscribedChats].
    apply delete_id. exact Habsent.
Qed.

Lemma subscription_is_idempotent_witness :
  (let w1 := snd (TextBot.dispatch (textEnv acceptingPlatform "" textUnreachable)
                    (TextBot.NewAIService (textEnv acceptingPlatform "" textUnreachable))
                    (Update (Some (fromAdmin "/subscribe"))) initialWorld) in
   let w2 := snd (TextBot.dispatch (textEnv acceptingPlatform "" textUnreachable)
                    (TextBot.NewAIService (textEnv acceptingPlatform "" textUnreachable))
                    (Update (Some (fromAdmin "/subscribe"))) w1) in
   subscribedChats w2 = subscribedChats w1)
  /\ subscribedChats
       (snd (TextBot.dispatch (textEnv acceptingPlatform "" textUnreachable)
               (TextBot.NewAIService (textEnv acceptingPlatform "" textUnreachable))
               (Update (Some (fromAdmin "/unsubscribe"))) initialWorld)) = ∅
  /\ (let w1 := snd (CommandBot.dispatch (commandEnv acceptingPlatform commandUnreachable)
                       (CommandBot.NewAIService "sk-test" "gpt-4o")
                       (Update (Some (fromAdmin "/subscribe@stocks_bot"))) initialWorld) in
      let w2 := snd (CommandBot.dispatch (commandEnv acceptingPlatform commandUnreachable)
                       (CommandBot.NewAIService "sk-test" "gpt-4o")
                       (Update (Some (fromAdmin "/subscribe@stocks_bot"))) w1) in
      subscribedChats w2 = subscribedChats w1)
  /\ subscribedChats
       (snd (CommandBot.dispatch (commandEnv acceptingPlatform commandUnreachable)
               (CommandBot.NewAIService "sk-test" "gpt-4o")
               (Update (Some (fromAdmin "/unsubscribe"))) initialWorld)) = ∅.
Proof.
  split; [ | split; [ | split]].
  - exact (proj1 (proj1 subscription_is_idempotent
             (textEnv acceptingPlatform "" textUnreachable)
             (TextBot.NewAIService (textEnv acceptingPlatform "" textUnreachable))
             (fromAdmin "/subscribe") initialWorld eq_refl eq_refl)).
  - exact (proj1 (proj2 subscription_is_idempotent)
             (textEnv acceptingPlatform "" textUnreachable)
             (TextBot.NewAIService (textEnv acceptingPlatform "" textUnreachable))
             (fromAdmin "/unsubscribe") initialWorld eq_refl eq_refl eq_refl).
  - exact (proj1 (proj1 (proj2 (proj2 subscription_is_idempotent))
             (commandEnv acceptingPlatform commandUnreachable)
             (CommandBot.NewAIService "sk-test" "gpt-4o")
             (fromAdmin "/subscribe@stocks_bot") initialWorld eq_refl eq_refl eq_refl)).
  - exact (proj2 (proj2 (proj2 subscription_is_idempotent))
             (commandEnv acceptingPlatform commandUnreachable)
             (CommandBot.NewAIService "sk-test" "gpt-4o")
             (fromAdmin "/unsubscribe") initialWorld eq_refl eq_refl eq_refl eq_refl).
Defined.

End SubscriberClaims.

Section MarketData.
Import Telegram CommandBot.

Lemma gt_irrefl x : gt x x = false.
Proof.
  unfold gt, SFltb, SFcompare.
  destruct x as [s | s | | s m e]; try destruct s; try reflexivity;
    rewrite Z.compare_refl, Pos.compare_cont_refl; reflexivity.
Qed.

Lemma gt_trans x y z : gt x y = true -> gt y z = true -> gt x z = true.
Proof.
  unfold gt, SFltb, SFcompare.
  destruct x as [sx | sx | | sx mx ex], y as [sy | sy | | sy my ey],
    z as [sz | sz | | sz mz ez];
    try destruct sx; try destruct sy; try destruct sz;
    try discriminate; try reflexivity;
    change (Pos.compare_cont Eq ?a ?b) with (Pos.compare a b);
    destruct (Z.compare_spec ez ey), (Z.compare_spec ey ex), (Z.compare_spec ez ex);
    try lia; try discriminate; try reflexivity;
    destruct (Pos.compare_spec mz my), (Pos.compare_spec my mx), (Pos.compare_spec mz mx);
    cbn; try lia; try discriminate; try reflexivity.
Qed.

Lemma gt_asym x y : gt x y = true -> gt y x = false.
Proof.
  intros H. destruct (gt y x) eqn:E; [ | reflexivity].
  pose proof (gt_trans x y x H E) as Hxx. rewrite gt_irrefl in Hxx. discriminate.
Qed.

(** When neither value is NaN, not greater means less or equal. *)
Lemma not_gt_le x y :
  x <> S754_nan -> y <> S754_nan -> gt x y = false -> SFleb x y = true.
Proof.
  unfold gt, SFltb, SFleb, SFcompare. intros Hx Hy.
  destruct x as [sx | sx | | sx mx ex], y as [sy | sy | | sy my ey];
    try destruct sx; try destruct sy; try congruence; try reflexivity;
    change (Pos.compare_cont Eq ?a ?b) with (Pos.compare a b);
    rewrite (Z.compare_antisym ex ey), (Pos.compare_antisym mx my);
    destruct (ex ?= ey)%Z; cbn; try congruence;
    destruct (mx ?= my)%positive; cbn; congruence.
Qed.

(** The loop returns its starting stock or a later one with a strictly
    greater change, and no stock it has seen has a greater change than
    the one it returns. *)
Lemma bestOf_spec stocks : forall bestStock,
  let best := bestOf bestStock stocks in
  (best = bestStock \/ (best ∈ stocks /\ gt (Change best) (Change bestStock) = true))
  /\ forall stock, stock ∈ stocks -> gt (Change stock) (Change best) = false.
Proof.
  induction stocks as [ | stock rest IH]; intros bestStock; cbv zeta.
  - cbn. split; [left; reflexivity | ]. intros stock Hin. inversion Hin.
  - cbn [bestOf]. destruct (gt (Change stock) (Change bestStock)) eqn:Hgt.
    + destruct (IH stock) as [Hsel Hmax]. split.
      * right. destruct Hsel as [-> | [Hin Hbetter]].
        -- split; [left | exact Hgt].
        -- split; [right; exact Hin | ]. exact (gt_trans _ _ _ Hbetter Hgt).
      * intros s Hin. apply elem_of_cons in Hin as [-> | Hin]; [ | exact (Hmax s Hin)].
        destruct Hsel as [-> | [_ Hbetter]]; [apply gt_irrefl | ].
        apply gt_asym. exact Hbetter.
    + destruct (IH bestStock) as [Hsel Hmax]. split.
      * destruct Hsel as [-> | [Hin Hbetter]]; [left; reflexivity | ].
        right. split; [right; exact Hin | exact Hbetter].
      * intros s Hin. apply elem_of_cons in Hin as [-> | Hin]; [ | exact (Hmax s Hin)].
        destruct Hsel as [-> | [_ Hbetter]]; [exact Hgt | ].
        destruct (gt (Change stock) (Change (bestOf bestStock rest))) eqn:E; [ | reflexivity].
        rewrite (gt_trans _ _ _ E Hbetter) in Hgt. discriminate.
Qed.

(** [GetMarketData] always returns a snapshot and a nil error. *)
Lemma GetMarketData_shape f :
  exists d log, GetMarketData f = (Some d, None, log).
Proof.
  unfold GetMarketData.
  destruct (getMOEXData f), (getMarketNews f), (getTopStocks f) as [[ | first rest] | ];
    eexists; eexists; reflexivity.
Qed.

End MarketData.

Section CollaboratorClaims.
Import Telegram Config Samples Startup Deployments.

(** C9, as amended.  In the service of [ai_service.go], when the
    credential is empty, and so when [AI_API_KEY] is not set,
    [GenerateAnalytics] returns the canned local report with a nil error
    and issues no POST; the entry point built with that service reaches
    its loop without the credential.  The entry point built with the
    market data service refuses to start without the credential: [main]
    ends in [log.Fatal] and never reaches its loop.  Its
    [GenerateAnalytics] has no guard on the credential and no local
    report: called with an empty credential it hands its request, with an
    empty bearer token, to [client.Do] whenever the request can be built,
    and its result is the outcome of that exchange. *)
Theorem missing_credential :
  (forall env aiService k,
      TextBot.APIKey (TextBot.config aiService) = "" ->
      TextBot.generate env aiService k = (Ok (TextBot.getLocalAnalytics env k), []))
  /\ (forall env w,
      TextBot.getenv env "AI_API_KEY" = "" ->
      let run := TextBot.GenerateAnalytics env (TextBot.NewAIService env) w in
      fst run = Ok (TextBot.getLocalAnalytics env (invocations w))
      /\ posted (snd run) = posted w)
  /\ (forall env name k,
      let aiService := CommandBot.NewAIService "" name in
      let '(r, posts, _) := CommandBot.generate env aiService k in
      postBearer (CommandBot.request env aiService k) = ""
      /\ match CommandBot.exchangeAt env k with
         | CommandBot.MarshalFails _ | CommandBot.NewRequestFails _ =>
             posts = [] /\ exists e, r = Err e
         | CommandBot.DoFails _ | CommandBot.ReadAllFails _
         | CommandBot.UnmarshalFails _ =>
             posts = [CommandBot.request env aiService k] /\ exists e, r = Err e
         | CommandBot.Decoded aiResp =>
             posts = [CommandBot.request env aiService k]
             /\ (CommandBot.ErrorMessage aiResp = "" ->
                 forall content rest,
                   CommandBot.Choices aiResp = content :: rest -> r = Ok content)
         end)
  /\ (forall env getenv NewBotAPI events,
      getenv "AI_API_KEY" = "" ->
      (getenv "TELEGRAM_BOT_TOKEN" <> "" ->
       commandMain env getenv NewBotAPI events = Fatal keyMissing)
      /\ forall final, commandMain env getenv NewBotAPI events <> Ran final)
  /\ (forall env NewBotAPI events,
      TextBot.getenv env "AI_API_KEY" = "" ->
      TextBot.getenv env "TELEGRAM_BOT_TOKEN" <> "" ->
      NewBotAPI (TextBot.getenv env "TELEGRAM_BOT_TOKEN") = Ok tt ->
      exists final, textMain env NewBotAPI events = Ran final).
Proof.
  split; [ | split; [ | split; [ | split]]].
  - intros env aiService k Hkey. unfold TextBot.generate. rewrite Hkey. reflexivity.
  - intros env w Hkey. cbv zeta. rewrite text_GenerateAnalytics_run. cbn [fst snd posted].
    unfold TextBot.generate, TextBot.NewAIService. cbn [TextBot.config TextBot.APIKey].
    rewrite Hkey. cbn [String.eqb fst snd]. rewrite app_nil_r. auto.
  - intros env name k. cbv zeta.
    destruct (CommandBot.generate env (CommandBot.NewAIService "" name) k)
      as [[r posts] log] eqn:Hgen.
    split.
    { unfold CommandBot.request.
      destruct (GetMarketData_shape (CommandBot.fetchesAt env k)) as (d & log' & ->).
      reflexivity. }
    unfold CommandBot.generate in Hgen.
    destruct (CommandBot.GetMarketData (CommandBot.fetchesAt env k)) as [[ptr err] marketLog].
    destruct (CommandBot.exchangeAt env k) as [e | e | e | e | e | aiResp];
      try (injection Hgen as <- <- _; split; [reflexivity | eexists; reflexivity]).
    destruct (negb (String.eqb (CommandBot.ErrorMessage aiResp) "")) eqn:Herr.
    + injection Hgen as <- <- _. split; [reflexivity | ].
      intros Hempty. rewrite Hempty in Herr. discriminate.
    + destruct (CommandBot.Choices aiResp) as [ | first others] eqn:Hchoices;
        injection Hgen as <- <- _; (split; [reflexivity | ]);
        intros _ content rest Heq; congruence.
  - intros env getenv NewBotAPI events Hkey. unfold commandMain. rewrite Hkey.
    destruct (String.eqb_spec (getenv "TELEGRAM_BOT_TOKEN") "") as [Htoken | Htoken].
    + split; [contradiction | discriminate].
    + cbn [String.eqb]. split; [reflexivity | discriminate].
  - intros env NewBotAPI events Hkey Htoken Hlogin. unfold textMain.
    destruct (String.eqb_spec (TextBot.getenv env "TELEGRAM_BOT_TOKEN") "");
      [contradiction | ].
    rewrite Hlogin. eexists. reflexivity.
Qed.

Lemma missing_credential_witness :
  TextBot.generate (textEnv acceptingPlatform "" textUnreachable)
    (TextBot.NewAIService (textEnv acceptingPlatform "" textUnreachable)) 0
  = (Ok (TextBot.getLocalAnalytics (textEnv acceptingPlatform "" textUnreachable) 0), []).
Proof.
  exact (proj1 missing_credential
           (textEnv acceptingPlatform "" textUnreachable)
           (TextBot.NewAIService (textEnv acceptingPlatform "" textUnreachable))
           0%nat eq_refl).
Defined.

(** C9, as stated, fails for the entry point built with the market data
    service: with a bot token and no completion credential, [main] ends
    in [log.Fatal] before the bot exists, so the program fails instead of
    degrading to a local report, while the entry point built with the
    service of [ai_service.go] runs the same history in the same
    surroundings. *)
Lemma missing_credential_refuses_to_start :
  commandMain (commandEnv acceptingPlatform (commandAnswers "TEXT"))
    (configured "123:token" "") login busyDay
  = Fatal keyMissing
  /\ exists final,
       textMain (textDeployment acceptingPlatform "123:token" "" (textAnswers "TEXT"))
         login busyDay
       = Ran final.
Proof.
  split; [reflexivity | ]. eexists. vm_compute. reflexivity.
Qed.

(** Whenever each of the three fetches returns a value or an error,
    [GetMarketData] returns a snapshot (not nil) and a nil error.  Each
    fetch that returned an error is replaced by its stub: the stub
    indices, rates and trend, no news, the three stub stocks; each fetch
    that succeeded is passed on.  When the list of top stocks is not
    empty, the recommended stock is one of them and none of them has a
    greater change (which, when no change is NaN, means every change is
    less than or equal to the recommended one); when it is empty, the
    recommended stock is the stub. *)
Lemma GetMarketData_replaces_failures f :
  exists d log,
    CommandBot.GetMarketData f = (Some d, None, log)
    /\ match CommandBot.getMOEXData f with
       | Ok moex =>
           CommandBot.IndexMOEX d = CommandBot.IndexMOEX moex
           /\ CommandBot.IndexRTS d = CommandBot.IndexRTS moex
           /\ CommandBot.USDRate d = CommandBot.USDRate moex
           /\ CommandBot.EURRate d = CommandBot.EURRate moex
           /\ CommandBot.MarketTrend d = CommandBot.MarketTrend moex
       | Err _ =>
           CommandBot.IndexMOEX d = CommandBot.f_4100_0
           /\ CommandBot.IndexRTS d = CommandBot.f_1100_0
           /\ CommandBot.USDRate d = CommandBot.f_90_5
           /\ CommandBot.EURRate d = CommandBot.f_98_7
           /\ CommandBot.MarketTrend d = "stable"
       end
    /\ CommandBot.MarketNews d
       = match CommandBot.getMarketNews f with Ok news => news | Err _ => [] end
    /\ CommandBot.TopStocks d
       = match CommandBot.getTopStocks f with
         | Ok stocks => stocks
         | Err _ => CommandBot.stubStocks
         end
    /\ (CommandBot.TopStocks d <> [] ->
        CommandBot.RecommendedStock d ∈ CommandBot.TopStocks d
        /\ (forall stock, stock ∈ CommandBot.TopStocks d ->
              CommandBot.gt (CommandBot.Change stock)
                (CommandBot.Change (CommandBot.RecommendedStock d)) = false)
        /\ ((forall stock, stock ∈ CommandBot.TopStocks d ->
               CommandBot.Change stock <> S754_nan) ->
            forall stock, stock ∈ CommandBot.TopStocks d ->
              SFleb (CommandBot.Change stock)
                (CommandBot.Change (CommandBot.RecommendedStock d)) = true))
    /\ (CommandBot.TopStocks d = [] ->
        CommandBot.RecommendedStock d = CommandBot.stubRecommended).
Proof.
  assert (Hbest : forall first rest,
            let stocks := first :: rest in
            let best := CommandBot.bestOf first stocks in
            best ∈ stocks
            /\ (forall stock, stock ∈ stocks ->
                  CommandBot.gt (CommandBot.Change stock) (CommandBot.Change best) = false)
            /\ ((forall stock, stock ∈ stocks -> CommandBot.Change stock <> S754_nan) ->
                forall stock, stock ∈ stocks ->
                  SFleb (CommandBot.Change stock) (CommandBot.Change best) = true)).
  { intros first rest stocks best.
    destruct (bestOf_spec stocks first) as [Hsel Hmax]. fold best in Hsel, Hmax.
    assert (Hin : best ∈ stocks).
    { destruct Hsel as [-> | [Hin _]]; [left | exact Hin]. }
    split; [exact Hin | ]. split; [exact Hmax | ].
    intros Hnan stock Hstock. apply not_gt_le; auto. }
  unfold CommandBot.GetMarketData.
  destruct (CommandBot.getMOEXData f) as [moex | e1],
           (CommandBot.getMarketNews f) as [news | e2],
           (CommandBot.getTopStocks f) as [[ | first rest] | e3];
    eexists; eexists; (split; [reflexivity | ]);
    cbn [CommandBot.IndexMOEX CommandBot.IndexRTS CommandBot.USDRate CommandBot.EURRate
         CommandBot.MarketTrend CommandBot.MarketNews CommandBot.TopStocks
         CommandBot.RecommendedStock CommandBot.withMarketNews CommandBot.withTopStocks
         CommandBot.withRecommendedStock CommandBot.stubMarketData CommandBot.stubStocks];
    (split; [repeat split | ]); (split; [reflexivity | ]); (split; [reflexivity | ]);
    (split; [intros Hne; try congruence
            | intros Hnil; try discriminate Hnil; try reflexivity]);
    apply Hbest.
Qed.

End CollaboratorClaims.

(* ===================================================================== *)
(** ** The loop of [main] on two short histories *)
(* ===================================================================== *)

Section Scenarios.
Import Telegram Config Samples.

(** The administrator subscribes, the ticker fires and the endpoint
    answers TEXT: the administrator is sent the confirmation and then one
    message with body TEXT, in both entry points. *)
Example administrator_subscribes_then_broadcast :
  let history := [Update (Some (fromAdmin "/subscribe")); WakeSignal] in
  let textWorld :=
    snd (TextBot.mainLoop (textEnv acceptingPlatform "sk-test" (textAnswers "TEXT"))
           (TextBot.NewAIService (textEnv acceptingPlatform "sk-test" (textAnswers "TEXT")))
           history initialWorld) in
  let commandWorld :=
    snd (CommandBot.mainLoop (commandEnv acceptingPlatform (commandAnswers "TEXT"))
           (CommandBot.NewAIService "sk-test" "gpt-4o") history initialWorld) in
  outbox textWorld = [MessageConfig ADMIN_USER_ID subscribedText "";
                      MessageConfig ADMIN_USER_ID "TEXT" "Markdown"]
  /\ outbox commandWorld = outbox textWorld
  /\ subscribedChats textWorld = {[ ADMIN_USER_ID := true ]}
  /\ subscribedChats commandWorld = {[ ADMIN_USER_ID := true ]}.
Proof. vm_compute. repeat split; reflexivity. Qed.

(** A stranger tries to subscribe and the ticker fires: the stranger is
    refused, nobody is subscribed and nothing is broadcast. *)
Example stranger_subscribes_then_broadcast :
  let history := [Update (Some (fromStranger "/subscribe")); WakeSignal] in
  let textWorld :=
    snd (TextBot.mainLoop (textEnv acceptingPlatform "sk-test" (textAnswers "TEXT"))
           (TextBot.NewAIService (textEnv acceptingPlatform "sk-test" (textAnswers "TEXT")))
           history initialWorld) in
  let commandWorld :=
    snd (CommandBot.mainLoop (commandEnv acceptingPlatform (commandAnswers "TEXT"))
           (CommandBot.NewAIService "sk-test" "gpt-4o") history initialWorld) in
  outbox textWorld = [MessageConfig 7001 refusalText ""]
  /\ outbox commandWorld = outbox textWorld
  /\ subscribedChats textWorld = ∅
  /\ subscribedChats commandWorld = ∅.
Proof. vm_compute. repeat split; reflexivity. Qed.

End Scenarios.

(* ===================================================================== *)
(** ** What one event can do to the world *)
(* ===================================================================== *)

Section TextBotSteps.
Import Telegram TextBot Config Steps Startup.

Variables (env : Env) (aiService : AIService).

(** Delivery only appends to the log. *)
Lemma text_deliver_log analytics chats w :
  exists lines, logged (snd (deliver env analytics chats w)) = logged w ++ lines.
Proof.
  revert w. induction chats as [ | chat rest IH]; intros w.
  - exists []. cbn. rewrite app_nil_r. reflexivity.
  - cbn [deliver]. rewrite bind_snd, Send_world.
    destruct (snd (fst (Send _ _ w))) as [err | ];
      [rewrite bind_snd, logPrintf_world | ];
      match goal with
      | |- context [deliver env analytics rest ?w0] => destruct (IH w0) as [lines Hlines]
      end;
      rewrite Hlines; cbn [logged]; [rewrite <- app_assoc | ]; eexists; reflexivity.
Qed.

Lemma text_handled message w :
  handled 1 message (snd (generate env aiService (invocations w)))
    w (snd (handleMessage env message aiService w)).
Proof.
  unfold handled.
  assert (Hone : forall c, chatOf c = Chat_ID message ->
            snd (handleMessage env message aiService w) = afterSend c w ->
            handled 1 message (snd (generate env aiService (invocations w)))
              w (snd (handleMessage env message aiService w))).
  { intros c Hc ->. unfold handled. cbn. split; [left; reflexivity | ].
    split; [exists [c]; cbn; repeat split; auto | ].
    split; [left; auto | exists []; rewrite app_nil_r; reflexivity]. }
  unfold handled in Hone.
  destruct (String.eqb_spec (Text message) "/start") as [Hstart | Hstart].
  { eapply Hone; [ | apply text_handle_start; exact Hstart]. reflexivity. }
  destruct (Z.eq_dec (From_ID message) ADMIN_USER_ID) as [Hadmin | Hadmin].
  2: { eapply Hone; [ | apply text_handle_refusal; assumption]. reflexivity. }
  destruct (String.eqb_spec (Text message) "/subscribe") as [Hsub | Hsub].
  { rewrite text_handle_subscribe by assumption. cbn.
    split; [right; auto | ].
    split; [eexists [_]; cbn; repeat split; auto | ].
    split; [left; auto | exists []; rewrite app_nil_r; reflexivity]. }
  destruct (String.eqb_spec (Text message) "/unsubscribe") as [Hunsub | Hunsub].
  { rewrite text_handle_unsubscribe by assumption. cbn.
    split; [right; auto | ].
    split; [eexists [_]; cbn; repeat split; auto | ].
    split; [left; auto | exists []; rewrite app_nil_r; reflexivity]. }
  destruct (String.eqb_spec (Text message) "/analytics") as [Hana | Hana].
  { destruct (fst (generate env aiService (invocations w))) as [text | e] eqn:Hgen.
    - rewrite (text_handle_analytics_success env aiService message w text) by assumption.
      cbn. split; [left; reflexivity | ].
      split; [eexists [_; _]; cbn; repeat split; auto | ].
      split; [right; auto | exists []; rewrite app_nil_r; reflexivity].
    - rewrite (text_handle_analytics_failure env aiService message w e) by assumption.
      cbn. split; [left; reflexivity | ].
      split; [eexists [_; _]; cbn; repeat split; auto | ].
      split; [right; auto | eexists; reflexivity]. }
  eapply Hone; [ | apply text_handle_unknown; assumption]. reflexivity.
Qed.

Lemma text_broadcast w :
  broadcast (snd (generate env aiService (invocations w)))
    w (snd (sendDailyAnalytics env aiService w)).
Proof.
  unfold broadcast.
  destruct (fst (generate env aiService (invocations w))) as [text | e] eqn:Hgen.
  - destruct (text_sendDaily_success env aiService w text Hgen) as (H1 & H2 & H3 & H4).
    split; [exact H2 | ]. split.
    { eexists. split; [exact H1 | ]. apply Forall_forall. intros c Hc.
      apply list_elem_of_In, in_map_iff in Hc as (chat & <- & _). reflexivity. }
    split; [exact H3 | ]. split; [exact H4 | ].
    (* the log *)
    unfold sendDailyAnalytics.
    rewrite !bind_snd. cbn [getSubscribed getInvocations logPrintf fst snd].
    rewrite text_GenerateAnalytics_run. cbn [fst snd invocations].
    rewrite Hgen. rewrite !bind_snd. cbn [getSubscribed fst snd subscribedChats].
    match goal with
    | |- context [deliver env text ?chats ?w0] =>
        destruct (text_deliver_log text chats w0) as [lines Hlines]
    end.
    rewrite Hlines. cbn [logged]. rewrite <- app_assoc. eexists; reflexivity.
  - destruct (text_sendDaily_failure env aiService w e Hgen) as (H1 & H2 & H3 & H4).
    split; [exact H2 | ]. split; [exists []; rewrite app_nil_r; split; [exact H1 | constructor] | ].
    split; [exact H3 | ]. split; [ | eexists; exact H4].
    unfold sendDailyAnalytics.
    rewrite !bind_snd. cbn [getSubscribed getInvocations logPrintf fst snd].
    rewrite text_GenerateAnalytics_run. cbn [fst snd invocations].
    rewrite Hgen. rewrite !bind_snd. reflexivity.
Qed.

End TextBotSteps.

Section CommandBotSteps.
Import Telegram CommandBot Config Steps Startup.

Variables (env : Env) (aiService : AIService).

Lemma command_deliver_log analytics chats w :
  exists lines, logged (snd (deliver env analytics chats w)) = logged w ++ lines.
Proof.
  revert w. induction chats as [ | chat rest IH]; intros w.
  - exists []. cbn. rewrite app_nil_r. reflexivity.
  - cbn [deliver]. rewrite bind_snd, Send_world.
    destruct (snd (fst (Send _ _ w))) as [err | ];
      [rewrite bind_snd, logPrintf_world | ];
      match goal with
      | |- context [deliver env analytics rest ?w0] => destruct (IH w0) as [lines Hlines]
      end;
      rewrite Hlines; cbn [logged]; [rewrite <- app_assoc | ]; eexists; reflexivity.
Qed.

Lemma command_handled message w :
  handled 0 message (snd (fst (generate env aiService (invocations w))))
    w (snd (handleMessage env message aiService w)).
Proof.
  assert (Hnone : handleMessage env message aiService w = (tt, w) ->
            handled 0 message (snd (fst (generate env aiService (invocations w))))
              w (snd (handleMessage env message aiService w))).
  { intros ->. unfold handled. cbn. split; [left; reflexivity | ].
    split; [exists []; rewrite app_nil_r; cbn; repeat split; auto | ].
    split; [left; auto | exists []; rewrite app_nil_r; reflexivity]. }
  assert (Hone : forall c, chatOf c = Chat_ID message ->
            snd (handleMessage env message aiService w) = afterSend c w ->
            handled 0 message (snd (fst (generate env aiService (invocations w))))
              w (snd (handleMessage env message aiService w))).
  { intros c Hc ->. unfold handled. cbn. split; [left; reflexivity | ].
    split; [exists [c]; cbn; repeat split; auto | ].
    split; [left; auto | exists []; rewrite app_nil_r; reflexivity]. }
  destruct (notCommandText (Text message)) eqn:Htext.
  { apply Hnone, command_handle_not_command. exact Htext. }
  destruct (String.eqb_spec (Command message) "start") as [Hstart | Hstart].
  { eapply Hone; [ | apply command_handle_start; assumption]. reflexivity. }
  destruct (String.eqb_spec (Command message) "subscribe") as [Hsub | Hsub];
    [ | destruct (String.eqb_spec (Command message) "unsubscribe") as [Hunsub | Hunsub];
        [ | destruct (String.eqb_spec (Command message) "analytics") as [Hana | Hana];
            [ | apply Hnone, command_handle_unknown; assumption]]];
    (destruct (Z.eq_dec (From_ID message) ADMIN_USER_ID) as [Hadmin | Hadmin];
     [ | eapply Hone; [ | apply command_handle_refusal; auto]; reflexivity]);
    unfold handled.
  - rewrite command_handle_subscribe by assumption. cbn.
    split; [right; auto | ].
    split; [eexists [_]; cbn; repeat split; auto | ].
    split; [left; auto | exists []; rewrite app_nil_r; reflexivity].
  - rewrite command_handle_unsubscribe by assumption. cbn.
    split; [right; auto | ].
    split; [eexists [_]; cbn; repeat split; auto | ].
    split; [left; auto | exists []; rewrite app_nil_r; reflexivity].
  - destruct (fst (fst (generate env aiService (invocations w)))) as [text | e] eqn:Hgen.
    + rewrite (command_handle_analytics_success env aiService message w text) by assumption.
      cbn. split; [left; reflexivity | ].
      split; [eexists [_; _]; cbn; repeat split; auto | ].
      split; [right; auto | eexists; reflexivity].
    + rewrite (command_handle_analytics_failure env aiService message w e) by assumption.
      cbn. split; [left; reflexivity | ].
      split; [eexists [_; _]; cbn; repeat split; auto | ].
      split; [right; auto | eexists; reflexivity].
Qed.

Lemma command_broadcast w :
  broadcast (snd (fst (generate env aiService (invocations w))))
    w (snd (sendDailyAnalytics env aiService w)).
Proof.
  unfold broadcast.
  destruct (fst (fst (generate env aiService (invocations w)))) as [text | e] eqn:Hgen.
  - destruct (command_sendDaily_success env aiService w text Hgen) as (H1 & H2 & H3 & H4).
    split; [exact H2 | ]. split.
    { eexists. split; [exact H1 | ]. apply Forall_forall. intros c Hc.
      apply list_elem_of_In, in_map_iff in Hc as (chat & <- & _). reflexivity. }
    split; [exact H3 | ]. split; [exact H4 | ].
    unfold sendDailyAnalytics.
    rewrite !bind_snd. cbn [getSubscribed getInvocations logPrintf fst snd].
    rewrite command_GenerateAnalytics_run. cbn [fst snd invocations].
    rewrite Hgen. rewrite !bind_snd. cbn [getSubscribed fst snd subscribedChats].
    match goal with
    | |- context [deliver env text ?chats ?w0] =>
        destruct (command_deliver_log text chats w0) as [lines Hlines]
    end.
    rewrite Hlines. cbn [logged]. rewrite <- !app_assoc. eexists; reflexivity.
  - destruct (command_sendDaily_failure env aiService w e Hgen) as (H1 & H2 & H3 & H4).
    split; [exact H2 | ]. split; [exists []; rewrite app_nil_r; split; [exact H1 | constructor] | ].
    split; [exact H3 | ]. split; [ | eexists; exact H4].
    unfold sendDailyAnalytics.
    rewrite !bind_snd. cbn [getSubscribed getInvocations logPrintf fst snd].
    rewrite command_GenerateAnalytics_run. cbn [fst snd invocations].
    rewrite Hgen. rewrite !bind_snd. reflexivity.
Qed.

End CommandBotSteps.

(* ===================================================================== *)
(** ** Histories of events *)
(* ===================================================================== *)

Section Histories.
Import Telegram Config Steps.

Variables (posts : World -> list HttpPost) (step : Event -> World -> World).
Hypothesis Hstep : forall ev w, stepped posts ev w (step ev w).

Let after (history : list Event) (w : World) : World :=
  fold_left (fun w ev => step ev w) history w.

Lemma step_subscribers ev w chat v :
  subscribedChats (step ev w) !! chat = Some v ->
  subscribedChats w !! chat = Some v
  \/ (v = true /\ exists message, ev = Update (Some message)
                  /\ Chat_ID message = chat /\ From_ID message = ADMIN_USER_ID).
Proof using Hstep.
  pose proof (Hstep ev w) as H. destruct ev as [[message | ] | ]; cbn in H.
  - destruct H as ([Hsame | (Hadmin & [Hins | Hdel])] & _).
    + rewrite Hsame. auto.
    + rewrite Hins. destruct (decide (Chat_ID message = chat)) as [<- | Hne].
      * rewrite lookup_insert_eq. intros [= <-]. right. eauto.
      * rewrite lookup_insert_ne by exact Hne. auto.
    + rewrite Hdel. destruct (decide (Chat_ID message = chat)) as [<- | Hne].
      * rewrite lookup_delete_eq. discriminate.
      * rewrite lookup_delete_ne by exact Hne. auto.
  - rewrite H. auto.
  - destruct H as (Hsame & _). rewrite Hsame. auto.
Qed.

Lemma history_subscribers history : forall w chat v,
  subscribedChats (after history w) !! chat = Some v ->
  subscribedChats w !! chat = Some v \/ (v = true /\ sentByAdministrator history chat).
Proof using Hstep.
  induction history as [ | ev rest IH]; intros w chat v; cbn.
  - auto.
  - intros Hfinal. destruct (IH _ _ _ Hfinal) as [Hmid | (Hv & message & Hin & Hchat & Hadmin)].
    + destruct (step_subscribers ev w chat v Hmid)
        as [Hinit | (Hv & message & -> & Hchat & Hadmin)]; [auto | ].
      right. split; [exact Hv | ]. exists message. split; [left | auto].
    + right. split; [exact Hv | ]. exists message. split; [right; exact Hin | auto].
Qed.

Lemma step_counts ev w :
  (invocations w <= invocations (step ev w)
   <= invocations w + (if mayGenerate ev then 1 else 0))%nat
  /\ (forall p, p ∈ posted (step ev w) -> p ∈ posted w \/ p ∈ posts w)
  /\ (exists new, outbox (step ev w) = outbox w ++ new)
  /\ (exists lines, logged (step ev w) = logged w ++ lines).
Proof using Hstep.
  pose proof (Hstep ev w) as H. destruct ev as [[message | ] | ]; cbn in H |- *.
  - destruct H as (_ & (new & Hout & _) & Hgen & Hlog).
    split; [ | split; [ | split; [eauto | exact Hlog]]].
    + destruct Hgen as [[-> _] | (Hadmin & -> & _)]; [lia | ].
      rewrite Hadmin, Z.eqb_refl. lia.
    + intros p. destruct Hgen as [[_ ->] | (_ & _ & ->)]; [auto | ].
      rewrite elem_of_app. auto.
  - rewrite H. split; [lia | ]. split; [auto | ].
    split; exists []; rewrite app_nil_r; reflexivity.
  - destruct H as (_ & (new & Hout & _) & -> & -> & Hlog).
    split; [lia | ]. split; [intros p; rewrite elem_of_app; auto | eauto].
Qed.

Lemma history_counts history : forall w,
  (invocations w <= invocations (after history w)
   <= invocations w + length (List.filter mayGenerate history))%nat
  /\ (forall p, p ∈ posted (after history w) -> p ∈ posted w \/ exists w0, p ∈ posts w0)
  /\ (exists new, outbox (after history w) = outbox w ++ new)
  /\ (exists lines, logged (after history w) = logged w ++ lines).
Proof using Hstep.
  unfold after. induction history as [ | ev rest IH]; intros w; cbn.
  - split; [lia | ]. split; [auto | ].
    split; exists []; rewrite app_nil_r; reflexivity.
  - destruct (IH (step ev w)) as (Hinv & Hposted & (new2 & Hout2) & (lines2 & Hlog2)).
    destruct (step_counts ev w) as (Hinv1 & Hposted1 & (new1 & Hout1) & (lines1 & Hlog1)).
    split; [ | split; [ | split]].
    + destruct (mayGenerate ev); cbn [length]; lia.
    + intros p Hp. destruct (Hposted p Hp) as [Hmid | Hgen]; [ | auto].
      destruct (Hposted1 p Hmid); eauto.
    + exists (new1 ++ new2). rewrite Hout2, Hout1.
      rewrite app_assoc. reflexivity.
    + exists (lines1 ++ lines2). rewrite Hlog2, Hlog1.
      rewrite app_assoc. reflexivity.
Qed.

End Histories.

Section Loops.
Import Telegram Config Steps Startup.

Lemma handled_at_least_none least message posts w w' :
  handled least message posts w w' -> handled 0 message posts w w'.
Proof.
  intros (H1 & (new & Hout & Hlen & Hall) & H3 & H4).
  split; [exact H1 | ]. split; [exists new; repeat split; auto; lia | auto].
Qed.

Lemma text_stepped env aiService ev w :
  stepped (fun w => snd (TextBot.generate env aiService (invocations w)))
    ev w (snd (TextBot.dispatch env aiService ev w)).
Proof.
  destruct ev as [[message | ] | ]; cbn.
  - eapply handled_at_least_none, text_handled.
  - reflexivity.
  - apply text_broadcast.
Qed.

Lemma command_stepped env aiService ev w :
  stepped (fun w => snd (fst (CommandBot.generate env aiService (invocations w))))
    ev w (snd (CommandBot.dispatch env aiService ev w)).
Proof.
  destruct ev as [[message | ] | ]; cbn.
  - apply command_handled.
  - reflexivity.
  - apply command_broadcast.
Qed.

Lemma text_mainLoop_fold env aiService history : forall w,
  snd (TextBot.mainLoop env aiService history w)
  = fold_left (fun w ev => snd (TextBot.dispatch env aiService ev w)) history w.
Proof.
  induction history as [ | ev rest IH]; intros w; [reflexivity | ].
  cbn [TextBot.mainLoop fold_left]. rewrite bind_snd. apply IH.
Qed.

Lemma command_mainLoop_fold env aiService history : forall w,
  snd (CommandBot.mainLoop env aiService history w)
  = fold_left (fun w ev => snd (CommandBot.dispatch env aiService ev w)) history w.
Proof.
  induction history as [ | ev rest IH]; intros w; [reflexivity | ].
  cbn [CommandBot.mainLoop fold_left]. rewrite bind_snd. apply IH.
Qed.

(** One turn of the loop adds at most one POST, and only for an event
    that can reach [GenerateAnalytics]. *)
Lemma stepped_posts posts ev w w' :
  (forall w0, length (posts w0) <= 1)%nat ->
  stepped posts ev w w' ->
  (length (posted w') <= length (posted w) + (if mayGenerate ev then 1 else 0))%nat.
Proof.
  intros Hone H. specialize (Hone w). destruct ev as [[message | ] | ]; cbn in H |- *.
  - destruct H as (_ & _ & [[_ ->] | (Hadmin & _ & ->)] & _); [lia | ].
    rewrite Hadmin, Z.eqb_refl, length_app. lia.
  - rewrite H. lia.
  - destruct H as (_ & _ & _ & -> & _). rewrite length_app. lia.
Qed.

Lemma history_posts posts step history :
  (forall w0, length (posts w0) <= 1)%nat ->
  (forall ev w, stepped posts ev w (step ev w)) ->
  forall w,
    (length (posted (fold_left (fun w ev => step ev w) history w))
     <= length (posted w) + length (List.filter mayGenerate history))%nat.
Proof.
  intros Hone Hstep. induction history as [ | ev rest IH]; intros w; cbn; [lia | ].
  pose proof (stepped_posts posts ev w (step ev w) Hone (Hstep ev w)) as H1.
  specialize (IH (step ev w)). destruct (mayGenerate ev); cbn [length]; lia.
Qed.

End Loops.

(* ===================================================================== *)
(** ** Further properties of the handlers and of the loop *)
(* ===================================================================== *)

Section HandlerProperties.
Import Telegram Config Steps Startup Samples.

(** X1.  The start command is open to everyone: in either entry point
    the sender is sent the welcome text, with the administrator's
    postscript exactly when the sender is the administrator, and nothing
    else in the world changes. *)
Theorem start_is_open_to_everyone :
  (forall env aiService message w,
      Text message = "/start" ->
      snd (TextBot.dispatch env aiService (Update (Some message)) w)
      = afterSend (NewMessage (Chat_ID message)
                     (if From_ID message =? ADMIN_USER_ID
                      then welcomeText +:+ adminSuffix else welcomeText)) w)
  /\ (forall env aiService message w,
      CommandBot.notCommandText (Text message) = false ->
      Command message = "start" ->
      snd (CommandBot.dispatch env aiService (Update (Some message)) w)
      = afterSend (NewMessage (Chat_ID message)
                     (if From_ID message =? ADMIN_USER_ID
                      then welcomeText +:+ adminSuffix else welcomeText)) w).
Proof.
  split.
  - intros env aiService message w Htext. apply text_handle_start. exact Htext.
  - intros env aiService message w Htext Hcmd. apply command_handle_start; assumption.
Qed.

Lemma start_is_open_to_everyone_witness :
  outbox (snd (TextBot.dispatch (textEnv acceptingPlatform "" textUnreachable)
                 (TextBot.NewAIService (textEnv acceptingPlatform "" textUnreachable))
                 (Update (Some (fromStranger "/start"))) initialWorld))
  = [NewMessage 7001 welcomeText]
  /\ outbox (snd (CommandBot.dispatch (commandEnv acceptingPlatform commandUnreachable)
                    (CommandBot.NewAIService "sk-test" "gpt-4o")
                    (Update (Some (fromAdmin "/start@stocks_bot"))) initialWorld))
     = [NewMessage ADMIN_USER_ID (welcomeText +:+ adminSuffix)].
Proof.
  split.
  - rewrite (proj1 start_is_open_to_everyone
               (textEnv acceptingPlatform "" textUnreachable)
               (TextBot.NewAIService (textEnv acceptingPlatform "" textUnreachable))
               (fromStranger "/start") initialWorld eq_refl).
    reflexivity.
  - rewrite (proj2 start_is_open_to_everyone
               (commandEnv acceptingPlatform commandUnreachable)
               (CommandBot.NewAIService "sk-test" "gpt-4o")
               (fromAdmin "/start@stocks_bot") initialWorld eq_refl eq_refl).
    reflexivity.
Defined.

(** X2.  When the administrator asks for analytics and
    [GenerateAnalytics] returns a text, in either entry point: the
    placeholder is sent, and then one edit in Markdown mode replaces the
    message whose identifier the platform returned for the placeholder, or
    message 0 when sending the placeholder failed; the subscriber map is
    unchanged and [GenerateAnalytics] has been called once. *)
Theorem analytics_success_edits_placeholder :
  (forall env aiService message w text,
      From_ID message = ADMIN_USER_ID ->
      Text message = "/analytics" ->
      fst (TextBot.generate env aiService (invocations w)) = Ok text ->
      let w' := snd (TextBot.dispatch env aiService (Update (Some message)) w) in
      outbox w' = outbox w
                  ++ [NewMessage (Chat_ID message) placeholderText;
                      EditMessageTextConfig (Chat_ID message)
                        (match sendOutcome (TextBot.platform env) (length (outbox w)) with
                         | Ok mid => mid
                         | Err _ => 0
                         end) text "Markdown"]
      /\ subscribedChats w' = subscribedChats w
      /\ invocations w' = S (invocations w))
  /\ (forall env aiService message w text,
      From_ID message = ADMIN_USER_ID ->
      CommandBot.notCommandText (Text message) = false ->
      Command message = "analytics" ->
      fst (fst (CommandBot.generate env aiService (invocations w))) = Ok text ->
      let w' := snd (CommandBot.dispatch env aiService (Update (Some message)) w) in
      outbox w' = outbox w
                  ++ [NewMessage (Chat_ID message) placeholderText;
                      EditMessageTextConfig (Chat_ID message)
                        (match sendOutcome (CommandBot.platform env) (length (outbox w)) with
                         | Ok mid => mid
                         | Err _ => 0
                         end) text "Markdown"]
      /\ subscribedChats w' = subscribedChats w
      /\ invocations w' = S (invocations w)).
Proof.
  split.
  - intros env aiService message w text Hadmin Htext Hgen. cbv zeta. cbn [TextBot.dispatch].
    rewrite (text_handle_analytics_success env aiService message w text) by assumption.
    cbn. auto.
  - intros env aiService message w text Hadmin Htext Hcmd Hgen. cbv zeta.
    cbn [CommandBot.dispatch].
    rewrite (command_handle_analytics_success env aiService message w text) by assumption.
    cbn. auto.
Qed.

(** On a platform that rejects the placeholder, the edit is aimed at
    message 0. *)
Lemma analytics_success_edits_placeholder_witness :
  outbox (snd (TextBot.dispatch (textEnv rejectingPlatform "sk-test" (textAnswers "TEXT"))
                 (TextBot.NewAIService (textEnv rejectingPlatform "sk-test" (textAnswers "TEXT")))
                 (Update (Some (fromAdmin "/analytics"))) initialWorld))
  = [NewMessage ADMIN_USER_ID placeholderText;
     EditMessageTextConfig ADMIN_USER_ID 0 "TEXT" "Markdown"]
  /\ outbox (snd (CommandBot.dispatch (commandEnv acceptingPlatform (commandAnswers "TEXT"))
                    (CommandBot.NewAIService "sk-test" "gpt-4o")
                    (Update (Some (fromAdmin "/analytics"))) initialWorld))
     = [NewMessage ADMIN_USER_ID placeholderText;
        EditMessageTextConfig ADMIN_USER_ID 100 "TEXT" "Markdown"].
Proof.
  split.
  - exact (proj1 (proj1 analytics_success_edits_placeholder
             (textEnv rejectingPlatform "sk-test" (textAnswers "TEXT"))
             (TextBot.NewAIService (textEnv rejectingPlatform "sk-test" (textAnswers "TEXT")))
             (fromAdmin "/analytics") initialWorld "TEXT" eq_refl eq_refl eq_refl)).
  - exact (proj1 (proj2 analytics_success_edits_placeholder
             (commandEnv acceptingPlatform (commandAnswers "TEXT"))
             (CommandBot.NewAIService "sk-test" "gpt-4o")
             (fromAdmin "/analytics") initialWorld "TEXT" eq_refl eq_refl eq_refl eq_refl)).
Defined.

(** X3.  Whatever a sender other than the administrator writes, the
    subscriber map, the calls of [GenerateAnalytics], the POSTs and the log
    stay as they are.  The text-matching entry point answers with the
    welcome text for /start and with the refusal for everything else; the
    command-matching entry point answers with the welcome text, with the
    refusal, or not at all. *)
Theorem stranger_changes_nothing :
  (forall env aiService message w,
      From_ID message <> ADMIN_USER_ID ->
      snd (TextBot.dispatch env aiService (Update (Some message)) w)
      = afterSend (NewMessage (Chat_ID message)
                     (if String.eqb (Text message) "/start"
                      then welcomeText else refusalText)) w)
  /\ (forall env aiService message w,
      From_ID message <> ADMIN_USER_ID ->
      let w' := snd (CommandBot.dispatch env aiService (Update (Some message)) w) in
      w' = w
      \/ w' = afterSend (NewMessage (Chat_ID message) welcomeText) w
      \/ w' = afterSend (NewMessage (Chat_ID message) refusalText) w).
Proof.
  split.
  - intros env aiService message w Hadmin. cbn [TextBot.dispatch].
    destruct (String.eqb_spec (Text message) "/start") as [Hstart | Hstart].
    + rewrite text_handle_start by exact Hstart.
      apply Z.eqb_neq in Hadmin. rewrite Hadmin. reflexivity.
    + apply text_handle_refusal; assumption.
  - intros env aiService message w Hadmin. cbv zeta. cbn [CommandBot.dispatch].
    destruct (CommandBot.notCommandText (Text message)) eqn:Htext.
    { left. rewrite command_handle_not_command by exact Htext. reflexivity. }
    destruct (String.eqb_spec (Command message) "start") as [Hstart | Hstart].
    { right; left. rewrite command_handle_start by assumption.
      apply Z.eqb_neq in Hadmin. rewrite Hadmin. reflexivity. }
    destruct (String.eqb_spec (Command message) "subscribe") as [Hsub | Hsub];
      [right; right; apply command_handle_refusal; auto | ].
    destruct (String.eqb_spec (Command message) "unsubscribe") as [Hunsub | Hunsub];
      [right; right; apply command_handle_refusal; auto | ].
    destruct (String.eqb_spec (Command message) "analytics") as [Hana | Hana];
      [right; right; apply command_handle_refusal; auto | ].
    left. rewrite command_handle_unknown by assumption. reflexivity.
Qed.

Lemma stranger_changes_nothing_witness :
  snd (TextBot.dispatch (textEnv acceptingPlatform "sk-test" textUnreachable)
         (TextBot.NewAIService (textEnv acceptingPlatform "sk-test" textUnreachable))
         (Update (Some (fromStranger "/analytics"))) twoSubscribers)
  = afterSend (NewMessage 7001 refusalText) twoSubscribers.
Proof.
  assert (Hstranger : From_ID (fromStranger "/analytics") <> ADMIN_USER_ID)
    by (cbn; unfold ADMIN_USER_ID; lia).
  exact (proj1 stranger_changes_nothing
           (textEnv acceptingPlatform "sk-test" textUnreachable)
           (TextBot.NewAIService (textEnv acceptingPlatform "sk-test" textUnreachable))
           (fromStranger "/analytics") twoSubscribers Hstranger).
Defined.

(** X4.  Subscribing and then unsubscribing a chat, as the administrator
    in either entry point, leaves the subscriber map without that chat,
    and so exactly as it was when the chat was not subscribed before;
    unsubscribing and then subscribing leaves the chat subscribed. *)
Theorem subscribe_unsubscribe_round_trip :
  (forall env aiService subscribe unsubscribe w,
      From_ID subscribe = ADMIN_USER_ID -> Text subscribe = "/subscribe" ->
      From_ID unsubscribe = ADMIN_USER_ID -> Text unsubscribe = "/unsubscribe" ->
      Chat_ID unsubscribe = Chat_ID subscribe ->
      let w1 := snd (TextBot.dispatch env aiService (Update (Some subscribe)) w) in
      let w2 := snd (TextBot.dispatch env aiService (Update (Some unsubscribe)) w1) in
      let v1 := snd (TextBot.dispatch env aiService (Update (Some unsubscribe)) w) in
      let v2 := snd (TextBot.dispatch env aiService (Update (Some subscribe)) v1) in
      subscribedChats w2 = delete (Chat_ID subscribe) (subscribedChats w)
      /\ (subscribedChats w !! Chat_ID subscribe = None ->
          subscribedChats w2 = subscribedChats w)
      /\ subscribedChats v2 = <[Chat_ID subscribe := true]> (subscribedChats w))
  /\ (forall env aiService subscribe unsubscribe w,
      From_ID subscribe = ADMIN_USER_ID ->
      CommandBot.notCommandText (Text subscribe) = false ->
      Command subscribe = "subscribe" ->
      From_ID unsubscribe = ADMIN_USER_ID ->
      CommandBot.notCommandText (Text unsubscribe) = false ->
      Command unsubscribe = "unsubscribe" ->
      Chat_ID unsubscribe = Chat_ID subscribe ->
      let w1 := snd (CommandBot.dispatch env aiService (Update (Some subscribe)) w) in
      let w2 := snd (CommandBot.dispatch env aiService (Update (Some unsubscribe)) w1) in
      let v1 := snd (CommandBot.dispatch env aiService (Update (Some unsubscribe)) w) in
      let v2 := snd (CommandBot.dispatch env aiService (Update (Some subscribe)) v1) in
      subscribedChats w2 = delete (Chat_ID subscribe) (subscribedChats w)
      /\ (subscribedChats w !! Chat_ID subscribe = None ->
          subscribedChats w2 = subscribedChats w)
      /\ subscribedChats v2 = <[Chat_ID subscribe := true]> (subscribedChats w)).
Proof.
  assert (Hmaps : forall (m : gmap Z bool) chat,
            delete chat (<[chat := true]> m) = delete chat m
            /\ (m !! chat = None -> delete chat (<[chat := true]> m) = m)
            /\ <[chat := true]> (delete chat m) = <[chat := true]> m).
  { intros m chat. rewrite delete_insert_eq, insert_delete_eq.
    split; [reflexivity | ]. split; [apply delete_id | reflexivity]. }
  split.
  - intros env aiService subscribe unsubscribe w Ha1 Ht1 Ha2 Ht2 Hchat. cbv zeta.
    cbn [TextBot.dispatch].
    rewrite (text_handle_unsubscribe env aiService unsubscribe _ Ha2 Ht2).
    rewrite (text_handle_subscribe env aiService subscribe _ Ha1 Ht1).
    rewrite (text_handle_unsubscribe env aiService unsubscribe _ Ha2 Ht2).
    rewrite (text_handle_subscribe env aiService subscribe _ Ha1 Ht1).
    cbn [subscribedChats]. rewrite Hchat. apply Hmaps.
  - intros env aiService subscribe unsubscribe w Ha1 Ht1 Hc1 Ha2 Ht2 Hc2 Hchat. cbv zeta.
    cbn [CommandBot.dispatch].
    rewrite (command_handle_unsubscribe env aiService unsubscribe _ Ha2 Ht2 Hc2).
    rewrite (command_handle_subscribe env aiService subscribe _ Ha1 Ht1 Hc1).
    rewrite (command_handle_unsubscribe env aiService unsubscribe _ Ha2 Ht2 Hc2).
    rewrite (command_handle_subscribe env aiService subscribe _ Ha1 Ht1 Hc1).
    cbn [subscribedChats]. rewrite Hchat. apply Hmaps.
Qed.

Lemma subscribe_unsubscribe_round_trip_witness :
  subscribedChats
    (snd (TextBot.dispatch (textEnv acceptingPlatform "" textUnreachable)
            (TextBot.NewAIService (textEnv acceptingPlatform "" textUnreachable))
            (Update (Some (fromAdmin "/unsubscribe")))
            (snd (TextBot.dispatch (textEnv acceptingPlatform "" textUnreachable)
                    (TextBot.NewAIService (textEnv acceptingPlatform "" textUnreachable))
                    (Update (Some (fromAdmin "/subscribe"))) initialWorld))))
  = subscribedChats initialWorld
  /\ subscribedChats
       (snd (CommandBot.dispatch (commandEnv acceptingPlatform commandUnreachable)
               (CommandBot.NewAIService "sk-test" "gpt-4o")
               (Update (Some (fromAdmin "/unsubscribe")))
               (snd (CommandBot.dispatch (commandEnv acceptingPlatform commandUnreachable)
                       (CommandBot.NewAIService "sk-test" "gpt-4o")
                       (Update (Some (fromAdmin "/subscribe"))) initialWorld))))
     = subscribedChats initialWorld.
Proof.
  split.
  - exact (proj1 (proj2 (proj1 subscribe_unsubscribe_round_trip
             (textEnv acceptingPlatform "" textUnreachable)
             (TextBot.NewAIService (textEnv acceptingPlatform "" textUnreachable))
             (fromAdmin "/subscribe") (fromAdmin "/unsubscribe") initialWorld
             eq_refl eq_refl eq_refl eq_refl eq_refl)) eq_refl).
  - exact (proj1 (proj2 (proj2 subscribe_unsubscribe_round_trip
             (commandEnv acceptingPlatform commandUnreachable)
             (CommandBot.NewAIService "sk-test" "gpt-4o")
             (fromAdmin "/subscribe") (fromAdmin "/unsubscribe") initialWorld
             eq_refl eq_refl eq_refl eq_refl eq_refl eq_refl eq_refl)) eq_refl).
Defined.

Lemma stepped_frame posts ev w w' chat :
  stepped posts ev w w' ->
  (forall message, ev = Update (Some message) -> Chat_ID message <> chat) ->
  subscribedChats w' !! chat = subscribedChats w !! chat.
Proof.
  intros H Hother. destruct ev as [[message | ] | ]; cbn in H.
  - specialize (Hother message eq_refl).
    destruct H as ([-> | (_ & [-> | ->])] & _);
      [reflexivity | apply lookup_insert_ne | apply lookup_delete_ne]; exact Hother.
  - rewrite H. reflexivity.
  - destruct H as (-> & _). reflexivity.
Qed.

(** X5.  One turn of the loop of [main], in either entry point, changes
    the subscription of no chat other than the chat the message came
    from; a wake signal and an update without a message change none. *)
Theorem other_chats_keep_their_subscription :
  (forall env aiService ev w chat,
      (forall message, ev = Update (Some message) -> Chat_ID message <> chat) ->
      subscribedChats (snd (TextBot.dispatch env aiService ev w)) !! chat
      = subscribedChats w !! chat)
  /\ (forall env aiService ev w chat,
      (forall message, ev = Update (Some message) -> Chat_ID message <> chat) ->
      subscribedChats (snd (CommandBot.dispatch env aiService ev w)) !! chat
      = subscribedChats w !! chat).
Proof.
  split; intros env aiService ev w chat Hother.
  - eapply stepped_frame; [apply text_stepped | exact Hother].
  - eapply stepped_frame; [apply command_stepped | exact Hother].
Qed.

Lemma other_chats_keep_their_subscription_witness :
  subscribedChats
    (snd (TextBot.dispatch (textEnv acceptingPlatform "" textUnreachable)
            (TextBot.NewAIService (textEnv acceptingPlatform "" textUnreachable))
            (Update (Some (fromAdmin "/unsubscribe"))) twoSubscribers)) !! 7001
  = Some true.
Proof.
  rewrite (proj1 other_chats_keep_their_subscription
             (textEnv acceptingPlatform "" textUnreachable)
             (TextBot.NewAIService (textEnv acceptingPlatform "" textUnreachable))
             (Update (Some (fromAdmin "/unsubscribe"))) twoSubscribers 7001).
  - reflexivity.
  - intros message [= <-]. discriminate.
Defined.

(** X6.  The requests one message leads to are addressed to the chat the
    message came from, and there are at most two of them; the
    text-matching entry point sends at least one, so it never leaves a
    message unanswered. *)
Theorem replies_go_to_the_sender :
  (forall env aiService message w,
      exists new,
        outbox (snd (TextBot.dispatch env aiService (Update (Some message)) w))
        = outbox w ++ new
        /\ (1 <= length new <= 2)%nat
        /\ Forall (fun c => chatOf c = Chat_ID message) new)
  /\ (forall env aiService message w,
      exists new,
        outbox (snd (CommandBot.dispatch env aiService (Update (Some message)) w))
        = outbox w ++ new
        /\ (length new <= 2)%nat
        /\ Forall (fun c => chatOf c = Chat_ID message) new).
Proof.
  split; intros env aiService message w; cbn [TextBot.dispatch CommandBot.dispatch].
  - destruct (text_handled env aiService message w) as (_ & Hout & _). exact Hout.
  - destruct (command_handled env aiService message w)
      as (_ & (new & Hout & Hlen & Hall) & _).
    exists new. repeat split; auto; lia.
Qed.

End HandlerProperties.

Section LoopProperties.
Import Telegram Config Steps Startup Samples Deployments.

Lemma text_posts_are_requests env aiService k p :
  p ∈ snd (TextBot.generate env aiService k) ->
  p = TextBot.request env aiService k /\ TextBot.APIKey (TextBot.config aiService) <> "".
Proof.
  unfold TextBot.generate.
  destruct (String.eqb_spec (TextBot.APIKey (TextBot.config aiService)) "") as [Hkey | Hkey];
    cbn [snd]; [intros H; inversion H | ].
  destruct (TextBot.exchangeAt env k) as [e | e | e | e | e | r]; cbn [snd];
    try (intros H; inversion H; fail);
    try (intros H; apply list_elem_of_singleton in H; auto; fail).
  destruct (TextBot.Error r); [ | destruct (TextBot.Choices r)]; cbn [snd];
    intros H; apply list_elem_of_singleton in H; auto.
Qed.

Lemma command_posts_are_requests env aiService k p :
  p ∈ snd (fst (CommandBot.generate env aiService k)) ->
  p = CommandBot.request env aiService k.
Proof.
  unfold CommandBot.generate.
  destruct (CommandBot.GetMarketData (CommandBot.fetchesAt env k)) as [[ptr err] marketLog].
  destruct (CommandBot.exchangeAt env k) as [e | e | e | e | e | r]; cbn [fst snd];
    try (intros H; inversion H; fail);
    try (intros H; apply list_elem_of_singleton in H; auto; fail).
  destruct (negb _); [ | destruct (CommandBot.Choices r)]; cbn [fst snd];
    intros H; apply list_elem_of_singleton in H; auto.
Qed.

(** X7.  When [main] has reached its loop, in either entry point, every
    entry of the subscriber map is [true] and belongs to a chat from which
    the administrator has written during the history. *)
Theorem subscribers_come_from_the_administrator :
  (forall env NewBotAPI history final,
      textMain env NewBotAPI history = Ran final ->
      forall chat v,
        subscribedChats final !! chat = Some v ->
        v = true /\ sentByAdministrator history chat)
  /\ (forall env getenv NewBotAPI history final,
      commandMain env getenv NewBotAPI history = Ran final ->
      forall chat v,
        subscribedChats final !! chat = Some v ->
        v = true /\ sentByAdministrator history chat).
Proof.
  split.
  - intros env NewBotAPI history final Hmain chat v Hlookup.
    unfold textMain in Hmain.
    destruct (String.eqb _ ""); [discriminate | ].
    destruct (NewBotAPI _); [ | discriminate].
    injection Hmain as <-. rewrite text_mainLoop_fold in Hlookup.
    destruct (history_subscribers _ _ (text_stepped env (TextBot.NewAIService env))
                history initialWorld chat v Hlookup) as [Hinit | Hfrom]; [ | exact Hfrom].
    cbn in Hinit. rewrite lookup_empty in Hinit. discriminate.
  - intros env getenv NewBotAPI history final Hmain chat v Hlookup.
    unfold commandMain in Hmain.
    destruct (String.eqb (getenv "TELEGRAM_BOT_TOKEN") ""); [discriminate | ].
    destruct (String.eqb (getenv "AI_API_KEY") ""); [discriminate | ].
    destruct (NewBotAPI _); [ | discriminate].
    injection Hmain as <-. rewrite command_mainLoop_fold in Hlookup.
    destruct (history_subscribers _ _ (command_stepped env _)
                history initialWorld chat v Hlookup) as [Hinit | Hfrom]; [ | exact Hfrom].
    cbn in Hinit. rewrite lookup_empty in Hinit. discriminate.
Qed.

Lemma subscribers_come_from_the_administrator_witness :
  sentByAdministrator busyDay ADMIN_USER_ID.
Proof.
  refine (proj2 (proj1 subscribers_come_from_the_administrator
            (textDeployment acceptingPlatform "123:token" "" textUnreachable)
            login busyDay _ eq_refl ADMIN_USER_ID true _)).
  vm_compute. reflexivity.
Defined.

(** X8.  Over any history, in either entry point, [GenerateAnalytics] is
    called at most once per wake signal and per message of the
    administrator, and at most that many POSTs are issued: messages of
    other senders and empty updates cost no call. *)
Theorem completion_calls_are_bounded :
  (forall env aiService history w,
      let w' := snd (TextBot.mainLoop env aiService history w) in
      (invocations w <= invocations w'
       <= invocations w + length (List.filter mayGenerate history))%nat
      /\ (length (posted w')
          <= length (posted w) + length (List.filter mayGenerate history))%nat)
  /\ (forall env aiService history w,
      let w' := snd (CommandBot.mainLoop env aiService history w) in
      (invocations w <= invocations w'
       <= invocations w + length (List.filter mayGenerate history))%nat
      /\ (length (posted w')
          <= length (posted w) + length (List.filter mayGenerate history))%nat).
Proof.
  split; intros env aiService history w; cbv zeta.
  - rewrite text_mainLoop_fold. split.
    + apply (history_counts _ _ (text_stepped env aiService) history w).
    + apply (history_posts _ _ history
               (fun w0 => text_generate_posts env aiService (invocations w0))
               (text_stepped env aiService) w).
  - rewrite command_mainLoop_fold. split.
    + apply (history_counts _ _ (command_stepped env aiService) history w).
    + apply (history_posts _ _ history
               (fun w0 => command_generate_posts env aiService (invocations w0))
               (command_stepped env aiService) w).
Qed.

(** X9.  When [main] of the command-matching entry point has reached its
    loop, every POST it has issued goes to the OpenAI endpoint, carries
    the value of AI_API_KEY as bearer token, which is not empty, names a
    model, which is not empty, and has a system message followed by a
    user message. *)
Theorem command_bot_posts_carry_the_key :
  forall env getenv NewBotAPI history final,
    commandMain env getenv NewBotAPI history = Ran final ->
    forall p, p ∈ posted final ->
      postURL p = "https://api.openai.com/v1/chat/completions"
      /\ postBearer p = getenv "AI_API_KEY"
      /\ postBearer p <> ""
      /\ postModel p <> ""
      /\ map fst (postMessages p) = ["system"; "user"].
Proof.
  intros env getenv NewBotAPI history final Hmain p Hp.
  unfold commandMain in Hmain.
  destruct (String.eqb (getenv "TELEGRAM_BOT_TOKEN") ""); [discriminate | ].
  destruct (String.eqb_spec (getenv "AI_API_KEY") "") as [ | Hkey]; [discriminate | ].
  destruct (NewBotAPI _); [ | discriminate].
  injection Hmain as <-. rewrite command_mainLoop_fold in Hp.
  match type of Hp with
  | context [CommandBot.dispatch env ?s] =>
      destruct (history_counts _ _ (command_stepped env s) history initialWorld)
        as (_ & Hposted & _)
  end.
  destruct (Hposted p Hp) as [Hinit | [w0 Hgen]]; [inversion Hinit | ].
  apply command_posts_are_requests in Hgen. subst p.
  unfold CommandBot.request.
  destruct (GetMarketData_shape (CommandBot.fetchesAt env (invocations w0)))
    as (d & log' & ->).
  cbn. repeat split; auto.
  destruct (String.eqb_spec (getenv "AI_MODEL_NAME") ""); [discriminate | assumption].
Qed.

Lemma command_bot_posts_carry_the_key_witness :
  Forall (fun p => postBearer p = "sk-test")
    (posted (snd (CommandBot.mainLoop (commandEnv acceptingPlatform commandUnreachable)
                    (CommandBot.NewAIService "sk-test" "gpt-4o") busyDay initialWorld))).
Proof.
  apply Forall_forall. intros p Hp.
  exact (proj1 (proj2 (command_bot_posts_carry_the_key
           (commandEnv acceptingPlatform commandUnreachable)
           (configured "123:token" "sk-test") login busyDay _ eq_refl p Hp))).
Defined.

(** X10.  When [main] of the text-matching entry point has reached its
    loop: if AI_API_KEY is not set, no POST has been issued at all; and in
    any case every POST that has been issued carries the value of
    AI_API_KEY as bearer token, goes to a URL that is not empty, names a
    model that is not empty and offers the retrieval tool. *)
Theorem text_bot_posts_need_the_key :
  forall env NewBotAPI history final,
    textMain env NewBotAPI history = Ran final ->
    (TextBot.getenv env "AI_API_KEY" = "" -> posted final = [])
    /\ forall p, p ∈ posted final ->
         postBearer p = TextBot.getenv env "AI_API_KEY"
         /\ postBearer p <> ""
         /\ postURL p <> ""
         /\ postModel p <> ""
         /\ postTools p = ["retrieval"].
Proof.
  intros env NewBotAPI history final Hmain.
  unfold textMain in Hmain.
  destruct (String.eqb _ ""); [discriminate | ].
  destruct (NewBotAPI _); [ | discriminate].
  injection Hmain as <-. rewrite text_mainLoop_fold.
  destruct (history_counts _ _ (text_stepped env (TextBot.NewAIService env))
              history initialWorld) as (_ & Hposted & _).
  assert (Hall : forall p,
            p ∈ posted (fold_left
                          (fun w ev => snd (TextBot.dispatch env (TextBot.NewAIService env) ev w))
                          history initialWorld) ->
            postBearer p = TextBot.getenv env "AI_API_KEY"
            /\ postBearer p <> "" /\ postURL p <> "" /\ postModel p <> ""
            /\ postTools p = ["retrieval"]).
  { intros p Hp. destruct (Hposted p Hp) as [Hinit | [w0 Hgen]]; [inversion Hinit | ].
    apply text_posts_are_requests in Hgen as [-> Hkey].
    cbn in Hkey |- *. repeat split; auto.
    - destruct (String.eqb_spec (TextBot.getenv env "AI_API_BASE_URL") "");
        [discriminate | assumption].
    - destruct (String.eqb_spec (TextBot.getenv env "AI_MODEL_NAME") "");
        [discriminate | assumption]. }
  split; [ | exact Hall].
  intros Hkey. apply elem_of_nil_inv. intros p Hp.
  destruct (Hall p Hp) as (Hb & Hne & _). congruence.
Qed.

Lemma text_bot_posts_need_the_key_witness :
  posted (snd (TextBot.mainLoop
                 (textDeployment acceptingPlatform "123:token" "" textUnreachable)
                 (TextBot.NewAIService
                    (textDeployment acceptingPlatform "123:token" "" textUnreachable))
                 busyDay initialWorld)) = [].
Proof.
  exact (proj1 (text_bot_posts_need_the_key
           (textDeployment acceptingPlatform "123:token" "" textUnreachable)
           login busyDay _ eq_refl) eq_refl).
Defined.

(** X11.  A wake signal with nobody subscribed, in either entry point,
    still calls [GenerateAnalytics] once, with its POST, and hands nothing
    to [bot.Send]. *)
Theorem empty_broadcast_still_generates :
  (forall env aiService w,
      rangesOverKeys (TextBot.platform env) ->
      subscribedChats w = ∅ ->
      let w' := snd (TextBot.dispatch env aiService WakeSignal w) in
      outbox w' = outbox w
      /\ invocations w' = S (invocations w)
      /\ posted w' = posted w ++ snd (TextBot.generate env aiService (invocations w)))
  /\ (forall env aiService w,
      rangesOverKeys (CommandBot.platform env) ->
      subscribedChats w = ∅ ->
      let w' := snd (CommandBot.dispatch env aiService WakeSignal w) in
      outbox w' = outbox w
      /\ invocations w' = S (invocations w)
      /\ posted w' = posted w
                     ++ snd (fst (CommandBot.generate env aiService (invocations w)))).
Proof.
  assert (Hnobody : forall p k (m : gmap Z bool),
            rangesOverKeys p -> m = ∅ -> rangeOrder p k m = []).
  { intros p k m Hrange ->. apply Permutation_nil_r. rewrite (Hrange k ∅).
    rewrite map_to_list_empty. reflexivity. }
  split; intros env aiService w Hrange Hempty; cbv zeta;
    cbn [TextBot.dispatch CommandBot.dispatch].
  - destruct (text_broadcast env aiService w) as (_ & _ & Hinv & Hposted & _).
    split; [ | auto].
    destruct (fst (TextBot.generate env aiService (invocations w))) as [text | e] eqn:Hgen.
    + destruct (text_sendDaily_success env aiService w text Hgen) as (-> & _).
      rewrite (Hnobody _ _ _ Hrange Hempty). cbn. apply app_nil_r.
    + destruct (text_sendDaily_failure env aiService w e Hgen) as (-> & _). reflexivity.
  - destruct (command_broadcast env aiService w) as (_ & _ & Hinv & Hposted & _).
    split; [ | auto].
    destruct (fst (fst (CommandBot.generate env aiService (invocations w))))
      as [text | e] eqn:Hgen.
    + destruct (command_sendDaily_success env aiService w text Hgen) as (-> & _).
      rewrite (Hnobody _ _ _ Hrange Hempty). cbn. apply app_nil_r.
    + destruct (command_sendDaily_failure env aiService w e Hgen) as (-> & _). reflexivity.
Qed.

Lemma empty_broadcast_still_generates_witness :
  length (posted (snd (CommandBot.dispatch
                         (commandEnv acceptingPlatform (commandAnswers "TEXT"))
                         (CommandBot.NewAIService "sk-test" "gpt-4o")
                         WakeSignal initialWorld))) = 1%nat.
Proof.
  rewrite (proj2 (proj2 (proj2 empty_broadcast_still_generates
             (commandEnv acceptingPlatform (commandAnswers "TEXT"))
             (CommandBot.NewAIService "sk-test" "gpt-4o") initialWorld
             (sample_platform_ranges acceptingPlatform eq_refl) eq_refl))).
  reflexivity.
Defined.

End LoopProperties.

(* ===================================================================== *)
(** ** The fetches of the market data service *)
(* ===================================================================== *)

Ltac split_matches :=
  repeat match goal with
         | |- context [match ?x with _ => _ end] => destruct x eqn:?
         end.

Section IndexFetch.
Import Telegram Moex Shapes.

Variable src : Sources.

(** What the loop over the index rows can change is the two index
    levels. *)
Lemma scanIndices_invariant (P : CommandBot.MarketData -> Prop) mdData :
  (forall d x, P d -> P (withIndexMOEX d x)) ->
  (forall d x, P d -> P (withIndexRTS d x)) ->
  forall secData i marketData,
    P marketData -> P (scanIndices src i secData mdData marketData).
Proof.
  intros Hmoex Hrts. induction secData as [ | sec rest IH]; intros i marketData HP.
  - exact HP.
  - cbn [scanIndices]. split_matches; apply IH; auto.
Qed.

Lemma scanIndices_without_IMOEX mdData : forall secData i marketData,
  (forall items, JArray items ∈ secData -> items !! 0%nat <> Some (JString "IMOEX")) ->
  CommandBot.IndexMOEX (scanIndices src i secData mdData marketData)
  = CommandBot.IndexMOEX marketData.
Proof.
  induction secData as [ | sec rest IH]; intros i marketData Hrows.
  - reflexivity.
  - assert (Hrest : forall items, JArray items ∈ rest ->
                      items !! 0%nat <> Some (JString "IMOEX")).
    { intros items Hin. apply Hrows. right. exact Hin. }
    cbn [scanIndices].
    destruct sec as [ | b | f | s | secArray | fields]; try (apply IH; exact Hrest).
    destruct (length secArray <? 2)%nat; [apply IH; exact Hrest | ].
    destruct (secArray !! 0%nat) as [[ | b | f | ticker | a | o] | ] eqn:Hfirst;
      try (apply IH; exact Hrest).
    destruct (mdData !! i) as [[ | b | f | s | mdArray | o] | ]; try (apply IH; exact Hrest).
    destruct (length mdArray <? 3)%nat; [apply IH; exact Hrest | ].
    destruct (mdArray !! 2%nat) as [cell | ]; [ | apply IH; exact Hrest].
    destruct (numberIn src cell) as [lastPrice | ]; [ | apply IH; exact Hrest].
    destruct (String.eqb_spec ticker "IMOEX") as [-> | Hticker].
    + exfalso. apply (Hrows secArray); [left | exact Hfirst].
    + destruct (String.eqb ticker "RTSI"); rewrite IH by exact Hrest; reflexivity.
Qed.

Lemma currencyRates_keeps marketData marketData' log :
  currencyRates src marketData = Returns (marketData', log) ->
  CommandBot.IndexMOEX marketData' = CommandBot.IndexMOEX marketData
  /\ CommandBot.IndexRTS marketData' = CommandBot.IndexRTS marketData
  /\ CommandBot.TopStocks marketData' = CommandBot.TopStocks marketData
  /\ CommandBot.MarketNews marketData' = CommandBot.MarketNews marketData.
Proof.
  unfold currencyRates. split_matches; intros [= <- <-]; cbn; auto.
Qed.

Lemma classifyTrend_keeps marketData :
  let d := classifyTrend marketData in
  CommandBot.IndexMOEX d = CommandBot.IndexMOEX marketData
  /\ CommandBot.IndexRTS d = CommandBot.IndexRTS marketData
  /\ CommandBot.USDRate d = CommandBot.USDRate marketData
  /\ CommandBot.EURRate d = CommandBot.EURRate marketData
  /\ CommandBot.TopStocks d = CommandBot.TopStocks marketData
  /\ CommandBot.MarketNews d = CommandBot.MarketNews marketData.
Proof.
  cbv zeta. unfold classifyTrend. cbn. split_matches; cbn; auto 10.
Qed.

(** With the four parts present, the call is the loop, the rates and the
    trend. *)
Lemma getMOEXData_tables secData mdData :
  indexTables src secData mdData ->
  getMOEXData src
  = match currencyRates src (scanIndices src 0 secData mdData freshMarketData) with
    | Panics reason => Panics reason
    | Returns (marketData, log) => Returns (Ok (classifyTrend marketData), log)
    end.
Proof.
  intros (moexResp & securities & marketdata & H1 & H2 & H3 & H4 & H5).
  unfold getMOEXData. rewrite H1, H2, H3, H4, H5. reflexivity.
Qed.

(** Without them, the call returns an error, asks for no rates and logs
    nothing. *)
Lemma getMOEXData_cases :
  (exists secData mdData, indexTables src secData mdData)
  \/ (exists e, getMOEXData src = Returns (Err e, [])).
Proof.
  unfold getMOEXData, indexTables.
  destruct (indexResponse src) as [e | e | e | moexResp]; try (right; eauto; fail).
  destruct (field "securities" moexResp) as [ | | | | | securities] eqn:H1;
    try (right; eauto; fail).
  destruct (field "data" securities) as [ | | | | secData | ] eqn:H2;
    try (right; eauto; fail).
  destruct (field "marketdata" moexResp) as [ | | | | | marketdata] eqn:H3;
    try (right; eauto; fail).
  destruct (field "data" marketdata) as [ | | | | mdData | ] eqn:H4;
    try (right; eauto; fail).
  left. exists secData, mdData, moexResp, securities, marketdata. auto.
Qed.

Lemma indexTables_unique secData mdData secData' mdData' :
  indexTables src secData mdData -> indexTables src secData' mdData' ->
  secData' = secData /\ mdData' = mdData.
Proof.
  intros (r & s & m & H1 & H2 & H3 & H4 & H5) (r' & s' & m' & H1' & H2' & H3' & H4' & H5').
  rewrite H1 in H1'. injection H1' as <-.
  rewrite H2 in H2'. injection H2' as <-.
  rewrite H4 in H4'. injection H4' as <-.
  rewrite H3 in H3'. rewrite H5 in H5'. split; congruence.
Qed.

End IndexFetch.

Section IndexProperties.
Import Telegram Moex Shapes.

Lemma getMOEXData_snapshot src d log :
  getMOEXData src = Returns (Ok d, log) ->
  exists secData mdData marketData,
    indexTables src secData mdData
    /\ currencyRates src (scanIndices src 0 secData mdData freshMarketData)
       = Returns (marketData, log)
    /\ d = classifyTrend marketData.
Proof.
  intros Hget. destruct (getMOEXData_cases src) as [(secData & mdData & Htab) | [e He]];
    [ | congruence].
  rewrite (getMOEXData_tables src secData mdData Htab) in Hget.
  destruct (currencyRates _ _) as [[marketData log'] | reason] eqn:Hrates; [ | discriminate].
  injection Hget as <- <-. eauto 10.
Qed.

(** X12.  A snapshot returned by [getMOEXData] has no stocks and no news
    yet, and its trend follows the level of the MOEX index alone: up when
    the level is greater than 4200, down when it is not and is less than
    3800, stable otherwise, which includes a level that is NaN. *)
Theorem moex_trend_follows_the_index src d log :
  getMOEXData src = Returns (Ok d, log) ->
  CommandBot.TopStocks d = [] /\ CommandBot.MarketNews d = []
  /\ ((CommandBot.MarketTrend d = "up"
       /\ CommandBot.gt (CommandBot.IndexMOEX d) f_4200 = true)
      \/ (CommandBot.MarketTrend d = "down"
          /\ CommandBot.gt (CommandBot.IndexMOEX d) f_4200 = false
          /\ SFltb (CommandBot.IndexMOEX d) f_3800 = true)
      \/ (CommandBot.MarketTrend d = "stable"
          /\ CommandBot.gt (CommandBot.IndexMOEX d) f_4200 = false
          /\ SFltb (CommandBot.IndexMOEX d) f_3800 = false)).
Proof.
  intros Hget.
  destruct (getMOEXData_snapshot src d log Hget)
    as (secData & mdData & marketData & Htab & Hrates & ->).
  destruct (classifyTrend_keeps marketData) as (_ & _ & _ & _ & Hstocks & Hnews).
  destruct (currencyRates_keeps src _ _ _ Hrates) as (_ & _ & Hstocks' & Hnews').
  rewrite Hstocks, Hnews, Hstocks', Hnews'.
  split; [ | split].
  - apply (scanIndices_invariant src (fun d => CommandBot.TopStocks d = [])); auto.
  - apply (scanIndices_invariant src (fun d => CommandBot.MarketNews d = [])); auto.
  - unfold classifyTrend. cbn [CommandBot.IndexMOEX withMarketTrend].
    destruct (CommandBot.gt (CommandBot.IndexMOEX marketData) f_4200) eqn:Hup;
      [left; cbn; rewrite Hup; auto | ].
    destruct (SFltb (CommandBot.IndexMOEX marketData) f_3800) eqn:Hdown;
      [right; left | right; right]; cbn; rewrite Hup, Hdown; auto.
Qed.

Lemma moex_trend_follows_the_index_witness :
  exists d, getMOEXData (sampleSources (Parsed sampleRates)) = Returns (Ok d, [])
            /\ CommandBot.TopStocks d = [].
Proof.
  eexists. split; [vm_compute; reflexivity | ].
  exact (proj1 (moex_trend_follows_the_index (sampleSources (Parsed sampleRates)) _ []
                  eq_refl)).
Defined.

(** X13.  When the answer of the exchange has no row for IMOEX, the
    snapshot [getMOEXData] returns has the index at zero and reports the
    market as falling. *)
Theorem moex_without_index_row_reads_as_falling src secData mdData d log :
  indexTables src secData mdData ->
  (forall items, JArray items ∈ secData -> items !! 0%nat <> Some (JString "IMOEX")) ->
  getMOEXData src = Returns (Ok d, log) ->
  CommandBot.IndexMOEX d = CommandBot.f_zero /\ CommandBot.MarketTrend d = "down".
Proof.
  intros Htab Hrows Hget.
  destruct (getMOEXData_snapshot src d log Hget)
    as (secData' & mdData' & marketData & Htab' & Hrates & ->).
  destruct (indexTables_unique src _ _ _ _ Htab Htab') as [-> ->].
  destruct (currencyRates_keeps src _ _ _ Hrates) as (Hmoex & _).
  rewrite scanIndices_without_IMOEX in Hmoex by exact Hrows.
  cbn in Hmoex. unfold classifyTrend. cbn [CommandBot.IndexMOEX withMarketTrend].
  rewrite Hmoex. cbn. auto.
Qed.

Lemma moex_without_index_row_reads_as_falling_witness :
  exists d, getMOEXData (sourcesWith (Parsed quietIndex) (NoBody "unexpected EOF"))
            = Returns (Ok d, [])
            /\ CommandBot.MarketTrend d = "down".
Proof.
  eexists. split; [vm_compute; reflexivity | ].
  refine (proj2 (moex_without_index_row_reads_as_falling
                   (sourcesWith (Parsed quietIndex) (NoBody "unexpected EOF"))
                   [] [] _ [] _ _ eq_refl)).
  - exists quietIndex, [("data", JArray [])], [("data", JArray [])]. repeat split.
  - intros items Hin. inversion Hin.
Defined.

Lemma getMOEXData_no_error src secData mdData e log :
  indexTables src secData mdData -> getMOEXData src <> Returns (Err e, log).
Proof.
  intros Htab. rewrite (getMOEXData_tables src secData mdData Htab).
  destruct (currencyRates _ _) as [[marketData log'] | reason]; discriminate.
Qed.

(** X14.  [getMOEXData] returns an error exactly when the answer to the
    index request does not have the objects [securities] and [marketdata]
    with an array [data] each; it then logs nothing. *)
Theorem moex_malformed_answer_is_an_error src :
  ((exists e, getMOEXData src = Returns (Err e, []))
   <-> ~ exists secData mdData, indexTables src secData mdData)
  /\ forall e log, getMOEXData src = Returns (Err e, log) -> log = [].
Proof.
  split; [split | ].
  - intros (e & Herr) (secData & mdData & Htab).
    exact (getMOEXData_no_error src secData mdData e [] Htab Herr).
  - intros Hnone. destruct (getMOEXData_cases src) as [Htab | [e He]];
      [contradiction | eauto].
  - intros e log Herr. destruct (getMOEXData_cases src) as [(secData & mdData & Htab) | [e' He]].
    + destruct (getMOEXData_no_error src secData mdData e log Htab Herr).
    + congruence.
Qed.

(** X15.  When the answer to the index request is well formed and the
    rates table has been decoded, [getMOEXData] panics exactly when the
    table has no row or its first row is too short for the column of the
    dollar or of the euro rate. *)
Theorem moex_rates_table_can_panic src secData mdData currResp :
  indexTables src secData mdData ->
  currencyResponse src = Parsed currResp ->
  let idx := columnIndices 0 (Columns (Cbrf currResp)) ∅ in
  (exists reason, getMOEXData src = Panics reason)
  <-> match Data (Cbrf currResp) with
      | [] => True
      | row :: _ =>
          (length row <= indexOfColumn idx "CBRF_USD_LAST")%nat
          \/ (length row <= indexOfColumn idx "CBRF_EUR_LAST")%nat
      end.
Proof.
  intros Htab Hcurr. cbv zeta.
  rewrite (getMOEXData_tables src secData mdData Htab).
  unfold currencyRates. rewrite Hcurr.
  destruct (Data (Cbrf currResp)) as [ | row rest]; [split; eauto | ].
  destruct (row !! indexOfColumn _ "CBRF_USD_LAST") as [usd | ] eqn:Husd.
  - destruct (row !! indexOfColumn _ "CBRF_EUR_LAST") as [eur | ] eqn:Heur.
    + apply lookup_lt_Some in Husd, Heur. split; [intros [reason H]; discriminate | lia].
    + apply lookup_ge_None in Heur. split; eauto.
  - apply lookup_ge_None in Husd. split; eauto.
Qed.

Lemma moex_rates_table_can_panic_witness :
  exists reason,
    getMOEXData (sampleSources (Parsed ratesWithoutRows)) = Panics reason.
Proof.
  refine (proj2 (moex_rates_table_can_panic
                   (sampleSources (Parsed ratesWithoutRows)) _ _ ratesWithoutRows
                   _ eq_refl) I).
  exists sampleIndex. eexists. eexists. repeat split; reflexivity.
Defined.

(** X16.  When the answer to the index request is well formed and the
    rates request fails, in transport, in reading or in decoding,
    [getMOEXData] still returns a snapshot; its dollar and euro rates are
    zero, and only a failure of transport is logged. *)
Theorem moex_rates_are_zero_without_the_table src secData mdData :
  indexTables src secData mdData ->
  (forall currResp, currencyResponse src <> Parsed currResp) ->
  exists d log,
    getMOEXData src = Returns (Ok d, log)
    /\ CommandBot.USDRate d = CommandBot.f_zero
    /\ CommandBot.EURRate d = CommandBot.f_zero
    /\ (log = [] \/ exists err, currencyResponse src = NoResponse err
                                /\ log = [LogMarketDataFailed err]).
Proof.
  intros Htab Hnot.
  rewrite (getMOEXData_tables src secData mdData Htab).
  assert (Hzero : CommandBot.USDRate (scanIndices src 0 secData mdData freshMarketData)
                  = CommandBot.f_zero
                  /\ CommandBot.EURRate (scanIndices src 0 secData mdData freshMarketData)
                     = CommandBot.f_zero).
  { apply (scanIndices_invariant src
             (fun d => CommandBot.USDRate d = CommandBot.f_zero
                       /\ CommandBot.EURRate d = CommandBot.f_zero)); auto. }
  unfold currencyRates.
  destruct (currencyResponse src) as [err | err | err | currResp] eqn:Hcurr;
    [ | | | exfalso; exact (Hnot currResp eq_refl)];
    eexists; eexists; (split; [reflexivity | ]);
    destruct (classifyTrend_keeps (scanIndices src 0 secData mdData freshMarketData))
      as (_ & _ & -> & -> & _);
    destruct Hzero as [-> ->]; repeat split; eauto.
Qed.

Lemma moex_rates_are_zero_without_the_table_witness :
  exists d log,
    getMOEXData (sampleSources (NoResponse "timeout")) = Returns (Ok d, log)
    /\ CommandBot.USDRate d = CommandBot.f_zero.
Proof.
  destruct (moex_rates_are_zero_without_the_table
              (sampleSources (NoResponse "timeout"))
              [JArray [JString "IMOEX"; JString "Индекс МосБиржи"]]
              [JArray [JNull; JNull; JString "4250"]]) as (d & log & Hget & Husd & _).
  - exists sampleIndex. eexists. eexists. repeat split; reflexivity.
  - intros currResp. discriminate.
  - exists d, log. split; assumption.
Defined.

Lemma columnIndices_absent name columns : forall i idx,
  name ∉ columns -> columnIndices i columns idx !! name = idx !! name.
Proof.
  induction columns as [ | col rest IH]; intros i idx Habsent; [reflexivity | ].
  cbn [columnIndices]. apply not_elem_of_cons in Habsent as [Hne Hrest].
  rewrite IH by exact Hrest. apply lookup_insert_ne. congruence.
Qed.

Lemma columnIndices_last name pre post : forall i idx,
  name ∉ post ->
  columnIndices i (pre ++ name :: post) idx !! name = Some (i + length pre)%nat.
Proof.
  induction pre as [ | col pre IH]; intros i idx Hlast.
  - cbn [app columnIndices length]. rewrite columnIndices_absent by exact Hlast.
    rewrite lookup_insert_eq. f_equal. lia.
  - cbn [app columnIndices length]. rewrite IH by exact Hlast. f_equal. lia.
Qed.

(** X17.  When the answer to the index request is well formed and the
    rates table has a first row long enough, [getMOEXData] returns a
    snapshot whose rates are the cells of that first row in the columns
    named CBRF_USD_LAST and CBRF_EUR_LAST, a cell that is no number
    reading as zero.  The column of a name is its last position among the
    column names, and column 0 for a name that is not among them. *)
Theorem moex_rates_come_from_the_first_row src secData mdData currResp row rest :
  indexTables src secData mdData ->
  currencyResponse src = Parsed currResp ->
  Data (Cbrf currResp) = row :: rest ->
  let column := indexOfColumn (columnIndices 0 (Columns (Cbrf currResp)) ∅) in
  (forall name, name ∉ Columns (Cbrf currResp) -> column name = 0%nat)
  /\ (forall pre name post,
        Columns (Cbrf currResp) = pre ++ name :: post -> name ∉ post ->
        column name = length pre)
  /\ forall usd eur,
       row !! column "CBRF_USD_LAST" = Some usd ->
       row !! column "CBRF_EUR_LAST" = Some eur ->
       exists d,
         getMOEXData src = Returns (Ok d, [])
         /\ CommandBot.USDRate d = floatOrZero usd
         /\ CommandBot.EURRate d = floatOrZero eur.
Proof.
  intros Htab Hcurr Hdata. cbv zeta. split; [ | split].
  - intros name Habsent. unfold indexOfColumn.
    rewrite columnIndices_absent by exact Habsent. reflexivity.
  - intros pre name post -> Hlast. unfold indexOfColumn.
    rewrite columnIndices_last by exact Hlast. reflexivity.
  - intros usd eur Husd Heur.
    rewrite (getMOEXData_tables src secData mdData Htab).
    unfold currencyRates. rewrite Hcurr, Hdata, Husd, Heur.
    eexists. split; [reflexivity | ].
    match goal with
    | |- context [classifyTrend ?m] =>
        destruct (classifyTrend_keeps m) as (_ & _ & -> & -> & _)
    end.
    split; reflexivity.
Qed.

(** A table without the dollar column, with the euro rate as a string:
    the dollar rate is read from the date in column 0 and both rates are
    zero. *)
Lemma moex_rates_come_from_the_first_row_witness :
  exists d,
    getMOEXData (sampleSources (Parsed ratesWithoutDollar)) = Returns (Ok d, [])
    /\ CommandBot.USDRate d = CommandBot.f_zero
    /\ CommandBot.EURRate d = CommandBot.f_zero.
Proof.
  refine (proj2 (proj2 (moex_rates_come_from_the_first_row
            (sampleSources (Parsed ratesWithoutDollar)) _ _ ratesWithoutDollar
            [JString "2024-01-01"; JString "98.7"] [] _ eq_refl eq_refl))
            (JString "2024-01-01") (JString "98.7") eq_refl eq_refl).
  exists sampleIndex. eexists. eexists. repeat split; reflexivity.
Defined.

End IndexProperties.

Section StockFetch.
Import Telegram Moex Shapes StockSamples.

Variable src : Sources.

(** The loop over the rows only ever inserts a stock in roubles under its
    own ticker. *)
Lemma collectStocks_keyed sc mc mdData : forall secData i stockMap stockMap',
  keyedByTicker stockMap ->
  collectStocks src sc mc i secData mdData stockMap = Returns stockMap' ->
  keyedByTicker stockMap'.
Proof.
  induction secData as [ | sec rest IH]; intros i stockMap stockMap' Hkeyed.
  - cbn. intros [= <-]. exact Hkeyed.
  - cbn [collectStocks]. split_matches; try (intros Hno; discriminate Hno);
      try (apply IH; exact Hkeyed).
    all: apply IH; intros key stock;
      match goal with
      | |- <[?t := _]> _ !! _ = _ -> _ =>
          destruct (decide (t = key)) as [<- | Hne];
            [rewrite lookup_insert_eq; intros [= <-]; cbn; auto
            | rewrite lookup_insert_ne by exact Hne; apply Hkeyed]
      end.
Qed.

Lemma getTopStocks_tables columns secData mdColumns mdData :
  stockTables src columns secData mdColumns mdData ->
  getTopStocks src
  = let sc := securityColumns 0 columns
                {| tickerIdx := -1; shortNameIdx := -1; boardIdIdx := -1 |} in
    let mc := marketColumns 0 mdColumns {| lastIdx := -1; changeIdx := -1 |} in
    if (tickerIdx sc =? -1) || (shortNameIdx sc =? -1) || (lastIdx mc =? -1)
    then Returns (Err columnsMissing)
    else
      match collectStocks src sc mc 0 secData mdData ∅ with
      | Panics reason => Panics reason
      | Returns stockMap =>
          let stocks := rangeStocks src stockMap in
          if (length stocks =? 0)%nat then Returns (Err noStocks)
          else if (5 <? length stocks)%nat then Returns (Ok (take 5 stocks))
          else Returns (Ok stocks)
      end.
Proof.
  intros (moexResp & securities & marketdata & H1 & H2 & H3 & H4 & H5 & H6 & H7).
  unfold getTopStocks. rewrite H1, H2, H3, H4, H5, H6, H7. reflexivity.
Qed.

(** A list of stocks is returned only from a map the loop has filled. *)
Lemma getTopStocks_ok stocks :
  getTopStocks src = Returns (Ok stocks) ->
  exists stockMap,
    keyedByTicker stockMap
    /\ rangeStocks src stockMap <> []
    /\ (stocks = rangeStocks src stockMap \/ stocks = take 5 (rangeStocks src stockMap))
    /\ (length stocks <= 5)%nat.
Proof.
  unfold getTopStocks.
  destruct (stocksResponse src) as [e | e | e | moexResp]; try discriminate.
  destruct (field "securities" moexResp) as [ | | | | | securities]; try discriminate.
  destruct (field "columns" securities) as [ | | | | columns | ]; try discriminate.
  destruct (field "data" securities) as [ | | | | secData | ]; try discriminate.
  destruct (field "marketdata" moexResp) as [ | | | | | marketdata]; try discriminate.
  destruct (field "columns" marketdata) as [ | | | | mdColumns | ]; try discriminate.
  destruct (field "data" marketdata) as [ | | | | mdData | ]; try discriminate.
  cbv zeta. destruct (_ || _); [discriminate | ].
  destruct (collectStocks _ _ _ _ _ _ _) as [stockMap | reason] eqn:Hloop; [ | discriminate].
  assert (Hkeyed : keyedByTicker stockMap).
  { eapply collectStocks_keyed; [ | exact Hloop]. intros ticker stock Hnone.
    rewrite lookup_empty in Hnone. discriminate. }
  destruct (Nat.eqb_spec (length (rangeStocks src stockMap)) 0) as [ | Hlen]; [discriminate | ].
  assert (Hne : rangeStocks src stockMap <> []).
  { intros Hnil. rewrite Hnil in Hlen. apply Hlen. reflexivity. }
  destruct (Nat.ltb_spec 5 (length (rangeStocks src stockMap))) as [Hmany | Hfew];
    intros [= <-]; exists stockMap;
    (split; [exact Hkeyed | split; [exact Hne | split]]).
  - right; reflexivity.
  - rewrite length_take. lia.
  - left; reflexivity.
  - lia.
Qed.

Lemma tickers_of_keyed (stockMap : gmap string CommandBot.StockInfo) :
  keyedByTicker stockMap ->
  CommandBot.Ticker <$> (map_to_list stockMap).*2 = (map_to_list stockMap).*1
  /\ Forall (fun stock => CommandBot.Currency stock = "RUB") (map_to_list stockMap).*2.
Proof.
  intros Hkeyed.
  assert (Hall : Forall (fun kv => CommandBot.Ticker kv.2 = kv.1
                                   /\ CommandBot.Currency kv.2 = "RUB")
                   (map_to_list stockMap)).
  { apply Forall_forall. intros [ticker stock] Hin.
    apply elem_of_map_to_list in Hin. exact (Hkeyed ticker stock Hin). }
  induction Hall as [ | [ticker stock] rest [Ht Hc] _ [IH1 IH2]]; [split; constructor | ].
  cbn in *. split; [f_equal; assumption | constructor; assumption].
Qed.

Lemma securityColumns_absent name columns : forall i found,
  JString name ∉ columns ->
  let found' := securityColumns i columns found in
  (name = "SECID" -> tickerIdx found' = tickerIdx found)
  /\ (name = "SHORTNAME" -> shortNameIdx found' = shortNameIdx found)
  /\ (name = "BOARDID" -> boardIdIdx found' = boardIdIdx found).
Proof.
  induction columns as [ | col rest IH]; intros i found Habsent; cbv zeta; [auto | ].
  apply not_elem_of_cons in Habsent as [Hne Hrest].
  cbn [securityColumns].
  destruct col as [ | b | f | colName | a | o]; try (apply IH; exact Hrest).
  destruct (String.eqb_spec colName "SECID") as [-> | H1];
    [ | destruct (String.eqb_spec colName "SHORTNAME") as [-> | H2];
        [ | destruct (String.eqb_spec colName "BOARDID") as [-> | H3]]];
    try (apply IH; exact Hrest);
    match goal with
    | |- context [securityColumns _ rest ?f] =>
        destruct (IH (i + 1) f Hrest) as (I1 & I2 & I3)
    end;
    (split; [ | split]); intros ->; try congruence; cbn in *; auto.
Qed.

Lemma marketColumns_absent columns : forall i found,
  JString "LAST" ∉ columns ->
  lastIdx (marketColumns i columns found) = lastIdx found.
Proof.
  induction columns as [ | col rest IH]; intros i found Habsent; [reflexivity | ].
  apply not_elem_of_cons in Habsent as [Hne Hrest].
  cbn [marketColumns].
  destruct col as [ | b | f | colName | a | o]; try (apply IH; exact Hrest).
  destruct (String.eqb_spec colName "LAST") as [-> | H1]; [congruence | ].
  destruct (String.eqb colName "CHANGE"); rewrite IH by exact Hrest; reflexivity.
Qed.

End StockFetch.

Section StockProperties.
Import Telegram Moex Shapes StockSamples.

(** X18.  A list of stocks returned by [getTopStocks] is not empty, has
    at most five stocks, all in roubles, and no two of them have the same
    ticker. *)
Theorem top_stocks_are_few_and_distinct src stocks :
  rangesOverStocks src ->
  getTopStocks src = Returns (Ok stocks) ->
  stocks <> []
  /\ (length stocks <= 5)%nat
  /\ NoDup (CommandBot.Ticker <$> stocks)
  /\ Forall (fun stock => CommandBot.Currency stock = "RUB") stocks.
Proof.
  intros Hrange Hget.
  destruct (getTopStocks_ok src stocks Hget) as (stockMap & Hkeyed & Hne & Hstocks & Hlen).
  destruct (tickers_of_keyed stockMap Hkeyed) as [Htickers Hrub].
  assert (Hall : NoDup (CommandBot.Ticker <$> rangeStocks src stockMap)
                 /\ Forall (fun stock => CommandBot.Currency stock = "RUB")
                      (rangeStocks src stockMap)).
  { rewrite (Hrange stockMap). split; [ | exact Hrub].
    rewrite Htickers. apply NoDup_fst_map_to_list. }
  destruct Hall as [Hnodup Hforall].
  destruct Hstocks as [-> | ->].
  - auto.
  - split; [ | split; [exact Hlen | split]].
    + destruct (rangeStocks src stockMap); [congruence | discriminate].
    + rewrite fmap_take. eapply sublist_NoDup; [exact Hnodup | apply sublist_take].
    + apply Forall_take. exact Hforall.
Qed.

Lemma sample_sources_range stocks : rangesOverStocks (stockSources stocks).
Proof. intros m. reflexivity. Qed.

Lemma top_stocks_are_few_and_distinct_witness :
  exists stocks,
    getTopStocks (stockSources sampleStocks) = Returns (Ok stocks)
    /\ NoDup (CommandBot.Ticker <$> stocks).
Proof.
  eexists. split; [vm_compute; reflexivity | ].
  exact (proj1 (proj2 (proj2 (top_stocks_are_few_and_distinct
           (stockSources sampleStocks) _ (sample_sources_range sampleStocks) eq_refl)))).
Defined.

(** X19.  When the answer to the stocks request has all its parts but
    its column names lack SECID or SHORTNAME, or the column names of the
    market data lack LAST, [getTopStocks] returns the error that columns
    are missing, whatever the rows are. *)
Theorem top_stocks_need_their_columns src columns secData mdColumns mdData :
  stockTables src columns secData mdColumns mdData ->
  JString "SECID" ∉ columns \/ JString "SHORTNAME" ∉ columns
  \/ JString "LAST" ∉ mdColumns ->
  getTopStocks src = Returns (Err columnsMissing).
Proof.
  intros Htab Hmissing.
  rewrite (getTopStocks_tables src columns secData mdColumns mdData Htab). cbv zeta.
  destruct Hmissing as [H | [H | H]].
  - pose proof (proj1 (securityColumns_absent "SECID" columns 0
                  {| tickerIdx := -1; shortNameIdx := -1; boardIdIdx := -1 |} H) eq_refl)
      as Hidx.
    rewrite Hidx. reflexivity.
  - pose proof (proj1 (proj2 (securityColumns_absent "SHORTNAME" columns 0
                  {| tickerIdx := -1; shortNameIdx := -1; boardIdIdx := -1 |} H)) eq_refl)
      as Hidx.
    rewrite Hidx. cbn. rewrite orb_true_r. reflexivity.
  - rewrite (marketColumns_absent mdColumns 0 {| lastIdx := -1; changeIdx := -1 |} H).
    cbn. rewrite orb_true_r. reflexivity.
Qed.

Lemma top_stocks_need_their_columns_witness :
  getTopStocks (stockSources stocksWithoutLast) = Returns (Err columnsMissing).
Proof.
  refine (top_stocks_need_their_columns (stockSources stocksWithoutLast)
            _ _ [JString "SECID"; JString "CHANGE"] _ _ _).
  - exists stocksWithoutLast. eexists. eexists. repeat split; reflexivity.
  - right; right. intros Hin.
    repeat (apply elem_of_cons in Hin as [Hin | Hin]; [discriminate | ]).
    inversion Hin.
Defined.

(** X20.  When the column names have SECID and SHORTNAME, and LAST is
    there, but BOARDID is not, [getTopStocks] panics on the first row that
    is long enough and has a string as ticker: the board is read at index
    -1. *)
Theorem top_stocks_without_board_column_panic
    src columns secData mdColumns mdData secArray rest ticker :
  stockTables src columns secData mdColumns mdData ->
  let sc := securityColumns 0 columns
              {| tickerIdx := -1; shortNameIdx := -1; boardIdIdx := -1 |} in
  let mc := marketColumns 0 mdColumns {| lastIdx := -1; changeIdx := -1 |} in
  tickerIdx sc <> -1 -> shortNameIdx sc <> -1 -> lastIdx mc <> -1 ->
  JString "BOARDID" ∉ columns ->
  secData = JArray secArray :: rest ->
  shortNameIdx sc < Z.of_nat (length secArray) ->
  at_ secArray (tickerIdx sc) = Some (JString ticker) ->
  getTopStocks src = Panics indexOutOfRange.
Proof.
  intros Htab sc mc Ht Hs Hl Hboard -> Hlong Hticker.
  rewrite (getTopStocks_tables src columns _ mdColumns mdData Htab). cbv zeta.
  fold sc mc.
  apply Z.eqb_neq in Ht, Hs, Hl. rewrite Ht, Hs, Hl. cbn [orb].
  cbn [collectStocks].
  replace (Z.of_nat (length secArray) <=? shortNameIdx sc) with false
    by (symmetry; apply Z.leb_gt; exact Hlong).
  rewrite Hticker.
  pose proof (proj2 (proj2 (securityColumns_absent "BOARDID" columns 0
                {| tickerIdx := -1; shortNameIdx := -1; boardIdIdx := -1 |} Hboard)) eq_refl)
    as Hb.
  fold sc in Hb. rewrite Hb. reflexivity.
Qed.

Lemma top_stocks_without_board_column_panic_witness :
  getTopStocks (stockSources stocksWithoutBoard) = Panics indexOutOfRange.
Proof.
  refine (top_stocks_without_board_column_panic (stockSources stocksWithoutBoard)
            [JString "SECID"; JString "SHORTNAME"] _ [JString "SECID"; JString "LAST"] _
            [JString "SBER"; JString "Сбербанк"] [] "SBER" _ _ _ _ _ eq_refl _ eq_refl).
  - exists stocksWithoutBoard. eexists. eexists. repeat split; reflexivity.
  - discriminate.
  - discriminate.
  - discriminate.
  - intros Hin.
    repeat (apply elem_of_cons in Hin as [Hin | Hin]; [discriminate | ]).
    inversion Hin.
  - reflexivity.
Defined.

End StockProperties.

Section NewsProperties.
Import Telegram Moex Shapes StockSamples.

Lemma convertArticles_items src : forall articles tick,
  Forall2 (fun item article =>
             CommandBot.Title item = articleTitle article
             /\ CommandBot.Source item = articleSource article
             /\ CommandBot.URL item = articleURL article
             /\ match parseRFC3339 src (PublishedAt article) with
                | Ok pubTime => CommandBot.Timestamp item = pubTime
                | Err _ => exists n, (tick <= n)%nat /\ CommandBot.Timestamp item = clock src n
                end)
    (convertArticles src tick articles) articles.
Proof.
  induction articles as [ | article rest IH]; intros tick; [constructor | ].
  cbn [convertArticles].
  destruct (parseRFC3339 src (PublishedAt article)) as [pubTime | e] eqn:Hparse.
  - constructor; [cbn; rewrite Hparse; auto | apply IH].
  - constructor; [cbn; rewrite Hparse; eauto 10 | ].
    eapply Forall2_impl; [apply (IH (S tick)) | ].
    intros item a (H1 & H2 & H3 & H4). repeat split; auto.
    destruct (parseRFC3339 src (PublishedAt a)); [exact H4 | ].
    destruct H4 as (n & Hn & Ht). exists n. split; [lia | exact Ht].
Qed.

(** X21.  When [fetchNewsFromAPI] returns news, the answer was decoded
    with status ok, and the news are its articles in their order, one item
    per article with its title, source and URL; the time of an item is the
    publication time when that parses as RFC 3339 and a reading of the
    clock otherwise. *)
Theorem fetched_news_keep_the_articles src tick items :
  fetchNewsFromAPI src tick = Ok items ->
  exists newsResp,
    newsResponse src = Parsed newsResp
    /\ Status newsResp = "ok"
    /\ items <> []
    /\ Forall2 (fun item article =>
                  CommandBot.Title item = articleTitle article
                  /\ CommandBot.Source item = articleSource article
                  /\ CommandBot.URL item = articleURL article
                  /\ match parseRFC3339 src (PublishedAt article) with
                     | Ok pubTime => CommandBot.Timestamp item = pubTime
                     | Err _ =>
                         exists n, (tick <= n)%nat
                                   /\ CommandBot.Timestamp item = clock src n
                     end)
         items (Articles newsResp).
Proof.
  unfold fetchNewsFromAPI.
  destruct (newsResponse src) as [e | e | e | newsResp]; try discriminate.
  destruct (String.eqb_spec (Status newsResp) "ok") as [Hok | Hnot]; [ | discriminate].
  destruct (Articles newsResp) as [ | article rest] eqn:Harticles; [discriminate | ].
  cbn [negb orb length Nat.eqb]. intros [= <-].
  exists newsResp. rewrite Harticles.
  split; [reflexivity | ]. split; [exact Hok | ].
  split; [ | exact (convertArticles_items src (article :: rest) tick)].
  cbn [convertArticles]. destruct (parseRFC3339 _ _); discriminate.
Qed.

Lemma fetched_news_keep_the_articles_witness :
  exists items,
    fetchNewsFromAPI (newsSources "news-key" (Parsed sampleArticles)) 3 = Ok items
    /\ length items = 2%nat.
Proof.
  eexists. split; [vm_compute; reflexivity | ].
  destruct (fetched_news_keep_the_articles
              (newsSources "news-key" (Parsed sampleArticles)) 3 _ eq_refl)
    as (newsResp & _ & _ & _ & Hitems).
  apply Forall2_length in Hitems. reflexivity.
Defined.

Lemma getMarketNews_ok src :
  exists news,
    getMarketNews src = Ok news
    /\ news <> []
    /\ (news = cannedNews src
        \/ (NEWS_API_KEY src <> "" /\ fetchNewsFromAPI src 3 = Ok news)).
Proof.
  unfold getMarketNews.
  destruct (String.eqb_spec (NEWS_API_KEY src) "") as [Hkey | Hkey]; cbn [negb].
  - exists (cannedNews src). repeat split; [discriminate | auto].
  - destruct (fetchNewsFromAPI src 3) as [realNews | e] eqn:Hfetch.
    + destruct realNews as [ | item rest]; cbn [length Nat.ltb Nat.leb].
      * exists (cannedNews src). repeat split; [discriminate | auto].
      * exists (item :: rest). repeat split; [discriminate | auto].
    + exists (cannedNews src). repeat split; [discriminate | auto].
Qed.

Lemma fetchNewsFromAPI_items src tick items :
  fetchNewsFromAPI src tick = Ok items -> items <> [].
Proof.
  unfold fetchNewsFromAPI.
  destruct (newsResponse src) as [e | e | e | newsResp]; try discriminate.
  destruct (negb (String.eqb (Status newsResp) "ok")); [discriminate | ].
  destruct (Articles newsResp) as [ | article rest]; [discriminate | ].
  cbn [orb length Nat.eqb convertArticles].
  destruct (parseRFC3339 src (PublishedAt article)); intros [= <-]; discriminate.
Qed.

(** X22.  [getMarketNews] never returns an error and never returns an
    empty list.  When the key of the News API is set and
    [fetchNewsFromAPI] returns news, it returns exactly those news; in
    every other case, the key not set or that call failed, it returns its
    three canned items. *)
Theorem market_news_never_fail src :
  exists news,
    getMarketNews src = Ok news
    /\ news <> []
    /\ (news = cannedNews src
        \/ (NEWS_API_KEY src <> "" /\ fetchNewsFromAPI src 3 = Ok news))
    /\ (NEWS_API_KEY src = "" -> news = cannedNews src)
    /\ (forall e, fetchNewsFromAPI src 3 = Err e -> news = cannedNews src)
    /\ (NEWS_API_KEY src <> "" ->
        forall items, fetchNewsFromAPI src 3 = Ok items -> news = items).
Proof.
  destruct (getMarketNews_ok src) as (news & Hget & Hne & Hfrom).
  exists news. split; [exact Hget | ]. split; [exact Hne | ]. split; [exact Hfrom | ].
  split; [ | split].
  - intros Hkey. destruct Hfrom as [-> | [Hset _]]; [reflexivity | contradiction].
  - intros e Herr. destruct Hfrom as [-> | [_ Hok]]; [reflexivity | congruence].
  - intros Hkey items Hitems.
    pose proof (fetchNewsFromAPI_items src 3 items Hitems) as Hsome.
    unfold getMarketNews in Hget.
    destruct (String.eqb_spec (NEWS_API_KEY src) "") as [Hnone | _]; [contradiction | ].
    cbn [negb] in Hget. rewrite Hitems in Hget.
    destruct items as [ | item rest]; [contradiction | ].
    cbn [length Nat.ltb Nat.leb] in Hget. congruence.
Qed.

Lemma market_news_never_fail_witness :
  getMarketNews (newsSources "news-key" (Parsed sampleArticles))
  = fetchNewsFromAPI (newsSources "news-key" (Parsed sampleArticles)) 3
  /\ getMarketNews (newsSources "news-key" (Parsed sampleArticles))
     <> Ok (cannedNews (newsSources "news-key" (Parsed sampleArticles))).
Proof.
  destruct (market_news_never_fail (newsSources "news-key" (Parsed sampleArticles)))
    as (news & Hget & _ & _ & _ & _ & Hreal).
  eassert (Hitems : fetchNewsFromAPI (newsSources "news-key" (Parsed sampleArticles)) 3
                    = Ok _) by (vm_compute; reflexivity).
  assert (Hkey : NEWS_API_KEY (newsSources "news-key" (Parsed sampleArticles)) <> "")
    by discriminate.
  rewrite Hget, (Hreal Hkey _ Hitems). split; [symmetry; exact Hitems | ].
  vm_compute. discriminate.
Defined.

Lemma GetMarketData_with_news_and_stocks f news first rest :
  CommandBot.getMarketNews f = Ok news ->
  match CommandBot.getTopStocks f with
  | Ok stocks => stocks
  | Err _ => CommandBot.stubStocks
  end = first :: rest ->
  exists d log,
    CommandBot.GetMarketData f = (Some d, None, log)
    /\ CommandBot.MarketNews d = news
    /\ CommandBot.TopStocks d = first :: rest
    /\ CommandBot.RecommendedStock d = CommandBot.bestOf first (first :: rest).
Proof.
  intros Hnews Hstocks. unfold CommandBot.GetMarketData. rewrite Hnews.
  destruct (CommandBot.getMOEXData f) as [moex | e1],
           (CommandBot.getTopStocks f) as [stocks | e3].
  - subst stocks. eexists. eexists. split; [reflexivity | ]. cbn. auto.
  - injection Hstocks as <- <-. eexists. eexists. split; [reflexivity | ]. cbn. auto.
  - subst stocks. eexists. eexists. split; [reflexivity | ]. cbn. auto.
  - injection Hstocks as <- <-. eexists. eexists. split; [reflexivity | ]. cbn. auto.
Qed.

(** X23.  Whenever [GetMarketData] returns, with the fetches as the
    service performs them, it returns a snapshot and a nil error; the
    snapshot has news, has between one and five top stocks, and recommends
    one of them, none of which has a greater change.  So neither the empty
    list of news nor the canned recommendation is ever used. *)
Theorem market_data_is_never_empty src snapshot err log :
  Moex.GetMarketData src = Returns (snapshot, err, log) ->
  err = None
  /\ exists d,
       snapshot = Some d
       /\ CommandBot.MarketNews d <> []
       /\ (1 <= length (CommandBot.TopStocks d) <= 5)%nat
       /\ CommandBot.RecommendedStock d ∈ CommandBot.TopStocks d
       /\ forall stock, stock ∈ CommandBot.TopStocks d ->
            CommandBot.gt (CommandBot.Change stock)
              (CommandBot.Change (CommandBot.RecommendedStock d)) = false.
Proof.
  unfold Moex.GetMarketData.
  destruct (getMOEXData src) as [[moexData log0] | reason]; [ | discriminate].
  destruct (getMarketNews_ok src) as (news & -> & Hnews & _).
  destruct (getTopStocks src) as [stocks | reason] eqn:Hstocks; [ | discriminate].
  assert (Hshape : exists first rest,
            match stocks with Ok s => s | Err _ => CommandBot.stubStocks end = first :: rest
            /\ (length (first :: rest) <= 5)%nat).
  { destruct stocks as [s | e].
    - destruct (getTopStocks_ok src s Hstocks) as (stockMap & _ & Hne & Hs & Hlen).
      destruct s as [ | first rest].
      + exfalso. destruct Hs as [Hs | Hs]; [congruence | ].
        destruct (rangeStocks src stockMap); [congruence | discriminate].
      + eauto.
    - eexists. eexists. split; [reflexivity | cbn; lia]. }
  destruct Hshape as (first & rest & Hlist & Hlen).
  destruct (GetMarketData_with_news_and_stocks
              {| CommandBot.getMOEXData := moexData;
                 CommandBot.getMarketNews := Ok news;
                 CommandBot.getTopStocks := stocks |} news first rest eq_refl Hlist)
    as (d & lines & -> & Hn & Ht & Hr).
  destruct (bestOf_spec (first :: rest) first) as [Hsel Hmax].
  assert (Hin : CommandBot.bestOf first (first :: rest) ∈ first :: rest).
  { destruct Hsel as [-> | [Hin _]]; [left | exact Hin]. }
  intros [= <- <- <-]. split; [reflexivity | ]. exists d.
  rewrite Hn, Ht, Hr.
  split; [reflexivity | ]. split; [exact Hnews | ].
  split; [cbn [length] in *; lia | ]. split; [exact Hin | exact Hmax].
Qed.

Lemma market_data_is_never_empty_witness :
  exists d log,
    Moex.GetMarketData (sampleSources (Parsed sampleRates)) = Returns (Some d, None, log)
    /\ CommandBot.MarketNews d <> [].
Proof.
  eassert (Hrun : Moex.GetMarketData (sampleSources (Parsed sampleRates))
                  = Returns (_, _, _)) by (vm_compute; reflexivity).
  destruct (market_data_is_never_empty (sampleSources (Parsed sampleRates)) _ _ _ Hrun)
    as (Herr & d & Hd & Hnews & _).
  exists d. eexists. split; [rewrite Hrun, Hd, Herr; reflexivity | exact Hnews].
Defined.

End NewsProperties.

Section FetchPanics.
Import Telegram Moex Shapes.

(** C10 at its failing input.  The answer to the index request is well
    formed and the answer to the rates request decodes, from the body
    [{}] for instance, into a table [cbrf] without rows.  [getMOEXData]
    reads the first row of that table without a check and panics, and so
    does [GetMarketData]: it returns neither a snapshot nor an error, and
    no stub takes the place of the rates. *)
Theorem GetMarketData_panics_without_rates src secData mdData currResp :
  indexTables src secData mdData ->
  currencyResponse src = Parsed currResp ->
  Data (Cbrf currResp) = [] ->
  getMOEXData src = Panics indexOutOfRange
  /\ Moex.GetMarketData src = Panics indexOutOfRange
  /\ forall snapshot err log, Moex.GetMarketData src <> Returns (snapshot, err, log).
Proof.
  intros Htab Hcurr Hrows.
  assert (Hmoex : getMOEXData src = Panics indexOutOfRange).
  { rewrite (getMOEXData_tables src secData mdData Htab).
    unfold currencyRates. rewrite Hcurr, Hrows. reflexivity. }
  assert (Hall : Moex.GetMarketData src = Panics indexOutOfRange).
  { unfold Moex.GetMarketData. rewrite Hmoex. reflexivity. }
  split; [exact Hmoex | ]. split; [exact Hall | ].
  intros snapshot err log. rewrite Hall. discriminate.
Qed.

Lemma GetMarketData_panics_without_rates_witness :
  Moex.GetMarketData (sampleSources (Parsed ratesFromEmptyObject))
  = Panics indexOutOfRange.
Proof.
  refine (proj1 (proj2 (GetMarketData_panics_without_rates
                          (sampleSources (Parsed ratesFromEmptyObject)) _ _
                          ratesFromEmptyObject _ eq_refl eq_refl))).
  exists sampleIndex. eexists. eexists. repeat split; reflexivity.
Defined.

End FetchPanics.

Section TrendProperties.
Import Telegram Moex Shapes.

Lemma classifyTrend_level marketData :
  CommandBot.MarketTrend (classifyTrend marketData)
  = if CommandBot.gt (CommandBot.IndexMOEX (classifyTrend marketData)) f_4200 then "up"
    else if SFltb (CommandBot.IndexMOEX (classifyTrend marketData)) f_3800 then "down"
    else "stable".
Proof.
  destruct (classifyTrend_keeps marketData) as (-> & _).
  unfold classifyTrend. cbn [CommandBot.IndexMOEX withMarketTrend].
  destruct (CommandBot.gt (CommandBot.IndexMOEX marketData) f_4200); [reflexivity | ].
  destruct (SFltb (CommandBot.IndexMOEX marketData) f_3800); reflexivity.
Qed.

(** [GetMarketData] fills in the news, the stocks and the recommendation,
    and leaves the level of the index and the trend as the fetch, or the
    stub, gave them. *)
Lemma GetMarketData_keeps_level f d err log :
  CommandBot.GetMarketData f = (Some d, err, log) ->
  let base := match CommandBot.getMOEXData f with
              | Ok moexData => moexData
              | Err _ => CommandBot.stubMarketData
              end in
  CommandBot.IndexMOEX d = CommandBot.IndexMOEX base
  /\ CommandBot.MarketTrend d = CommandBot.MarketTrend base.
Proof.
  unfold CommandBot.GetMarketData.
  destruct (CommandBot.getMOEXData f), (CommandBot.getMarketNews f),
           (CommandBot.getTopStocks f) as [[ | first rest] | ];
    intros [= <- _ _]; cbn; auto.
Qed.

(** X24.  In every snapshot [GetMarketData] returns, with the fetches as
    the service performs them, the trend agrees with the level of the MOEX
    index in the same snapshot, also when the stub replaces a failed
    fetch: up above 4200, down below 3800, stable otherwise.  So
    [translateTrend] gives the label of growth exactly for a level above
    4200, and reaches its default branch only for a stable market. *)
Theorem trend_label_matches_the_index src d err log :
  Moex.GetMarketData src = Returns (Some d, err, log) ->
  let level := CommandBot.IndexMOEX d in
  CommandBot.MarketTrend d
  = (if CommandBot.gt level f_4200 then "up"
     else if SFltb level f_3800 then "down" else "stable")
  /\ (translateTrend (CommandBot.MarketTrend d) = translateTrend "up"
      <-> CommandBot.gt level f_4200 = true)
  /\ (translateTrend (CommandBot.MarketTrend d) = translateTrend "down"
      <-> CommandBot.gt level f_4200 = false /\ SFltb level f_3800 = true)
  /\ (translateTrend (CommandBot.MarketTrend d) = translateTrend "stable"
      <-> CommandBot.MarketTrend d = "stable").
Proof.
  intros Hget level.
  assert (Htrend : CommandBot.MarketTrend d
                   = if CommandBot.gt level f_4200 then "up"
                     else if SFltb level f_3800 then "down" else "stable").
  { unfold Moex.GetMarketData in Hget.
    destruct (getMOEXData src) as [[moexData log0] | reason] eqn:Hmoex; [ | discriminate].
    destruct (getTopStocks src) as [stocks | reason]; [ | discriminate].
    destruct (CommandBot.GetMarketData _) as [[snapshot err'] lines] eqn:Hrun.
    injection Hget as -> <- _.
    destruct (GetMarketData_keeps_level _ _ _ _ Hrun) as [Hlevel Htrend].
    cbn [CommandBot.getMOEXData] in Hlevel, Htrend.
    subst level. rewrite Hlevel, Htrend.
    destruct moexData as [m | e].
    - destruct (getMOEXData_snapshot src m log0 Hmoex) as (_ & _ & marketData & _ & _ & ->).
      apply classifyTrend_level.
    - vm_compute. reflexivity. }
  split; [exact Htrend | ].
  rewrite Htrend.
  destruct (CommandBot.gt level f_4200); [ | destruct (SFltb level f_3800)];
    (split; [ | split]); split; intros H;
    try reflexivity; try discriminate H; try (destruct H; discriminate); auto.
Qed.

Lemma trend_label_matches_the_index_witness :
  exists d log,
    Moex.GetMarketData (sampleSources (Parsed sampleRates)) = Returns (Some d, None, log)
    /\ CommandBot.MarketTrend d = "up".
Proof.
  eassert (Hrun : Moex.GetMarketData (sampleSources (Parsed sampleRates))
                  = Returns (Some _, None, _)) by (vm_compute; reflexivity).
  eexists. eexists. split; [exact Hrun | ].
  rewrite (proj1 (trend_label_matches_the_index _ _ _ _ Hrun)).
  vm_compute. reflexivity.
Defined.

End TrendProperties.

(* ===================================================================== *)
(** ** Generation, delivery and the timer *)
(* ===================================================================== *)

Section GenerationProperties.
Import Telegram Config Steps Samples.

(** X25.  [GenerateAnalytics] returns a text exactly in these cases.  In
    the service of [ai_service.go]: the credential is empty and the text
    is the local report; or the credential is set, the answer of the
    endpoint was decoded, it has no error object and the text is the
    content of its first choice.  In the service built with the market
    data service: the answer was decoded, the message of its error object
    is empty and the text is the content of its first choice.  An error
    object wins over choices, and choices after the first are ignored. *)
Theorem generation_succeeds_exactly_when :
  (forall env aiService k text,
      fst (TextBot.generate env aiService k) = Ok text
      <-> (TextBot.APIKey (TextBot.config aiService) = ""
           /\ text = TextBot.getLocalAnalytics env k)
          \/ (TextBot.APIKey (TextBot.config aiService) <> ""
              /\ exists aiResponse rest,
                   TextBot.exchangeAt env k = TextBot.Decoded aiResponse
                   /\ TextBot.Error aiResponse = None
                   /\ TextBot.Choices aiResponse = text :: rest))
  /\ (forall env aiService k text,
      fst (fst (CommandBot.generate env aiService k)) = Ok text
      <-> exists aiResp rest,
            CommandBot.exchangeAt env k = CommandBot.Decoded aiResp
            /\ CommandBot.ErrorMessage aiResp = ""
            /\ CommandBot.Choices aiResp = text :: rest).
Proof.
  split.
  - intros env aiService k text. unfold TextBot.generate.
    destruct (String.eqb_spec (TextBot.APIKey (TextBot.config aiService)) "") as [Hkey | Hkey].
    + cbn [fst]. split.
      * intros [= <-]. left. auto.
      * intros [[_ ->] | [Hset _]]; [reflexivity | contradiction].
    + split.
      * intros Hok. right. split; [exact Hkey | ].
        destruct (TextBot.exchangeAt env k) as [e | e | e | e | e | r]; try discriminate.
        destruct (TextBot.Error r) eqn:Herr; [discriminate | ].
        destruct (TextBot.Choices r) as [ | content rest] eqn:Hchoices; [discriminate | ].
        injection Hok as <-. eauto.
      * intros [[Hempty _] | (_ & r & rest & -> & -> & ->)]; [contradiction | reflexivity].
  - intros env aiService k text. unfold CommandBot.generate.
    destruct (CommandBot.GetMarketData (CommandBot.fetchesAt env k)) as [[ptr err] marketLog].
    split.
    + intros Hok.
      destruct (CommandBot.exchangeAt env k) as [e | e | e | e | e | r]; try discriminate.
      destruct (String.eqb_spec (CommandBot.ErrorMessage r) "") as [Herr | Herr];
        [ | discriminate].
      destruct (CommandBot.Choices r) as [ | content rest] eqn:Hchoices; [discriminate | ].
      injection Hok as <-. eauto.
    + intros (r & rest & -> & Herr & Hchoices). rewrite Herr, Hchoices. reflexivity.
Qed.

(** X26.  Every request [GenerateAnalytics] of the service built with
    the market data service prepares carries market data: [GetMarketData]
    has returned a snapshot without an error, the user prompt ends with the
    text [FormatMarketDataForAI] gives for that snapshot, and nothing is
    logged beyond what [GetMarketData] logged, so the branch for
    unavailable data is never taken.  The system prompt is never empty: it
    is the content of the prompt file when that was read and is not empty,
    and the default prompt otherwise. *)
Theorem request_carries_market_data env aiService k :
  (exists d log,
      CommandBot.GetMarketData (CommandBot.fetchesAt env k) = (Some d, None, log)
      /\ postMessages (CommandBot.request env aiService k)
         = [("system", CommandBot.LoadAIPrompt env k);
            ("user", CommandBot.userPrompt (CommandBot.FormatMarketDataForAI env d))]
      /\ snd (CommandBot.generate env aiService k) = log)
  /\ CommandBot.LoadAIPrompt env k <> ""
  /\ (forall content,
        CommandBot.readPromptFile env k = Ok content -> content <> "" ->
        CommandBot.LoadAIPrompt env k = content)
  /\ ((forall content, CommandBot.readPromptFile env k = Ok content -> content = "") ->
      CommandBot.LoadAIPrompt env k = CommandBot.defaultPrompt).
Proof.
  split; [ | split; [ | split]].
  - destruct (GetMarketData_shape (CommandBot.fetchesAt env k)) as (d & log & Hrun).
    exists d, log. split; [exact Hrun | ].
    unfold CommandBot.request, CommandBot.generate. rewrite Hrun. rewrite app_nil_r.
    split; [reflexivity | ].
    destruct (CommandBot.exchangeAt env k) as [e | e | e | e | e | r]; try reflexivity.
    destruct (negb _); [reflexivity | ]. destruct (CommandBot.Choices r); reflexivity.
  - unfold CommandBot.LoadAIPrompt.
    destruct (CommandBot.readPromptFile env k) as [content | e]; [ | discriminate].
    destruct content as [ | c rest]; [discriminate | cbn; discriminate].
  - intros content Hread Hcontent. unfold CommandBot.LoadAIPrompt. rewrite Hread.
    destruct content as [ | c rest]; [contradiction | reflexivity].
  - intros Hempty. unfold CommandBot.LoadAIPrompt.
    destruct (CommandBot.readPromptFile env k) as [content | e]; [ | reflexivity].
    rewrite (Hempty content eq_refl). reflexivity.
Qed.

Lemma deliveryFailures_elem p chat e : forall chats start,
  LogDeliveryFailed chat e ∈ deliveryFailures p start chats
  <-> exists i, chats !! i = Some chat /\ sendOutcome p (start + i) = Err e.
Proof.
  induction chats as [ | first rest IH]; intros start.
  - cbn. split; [intros H; inversion H | intros (i & H & _); discriminate].
  - cbn [deliveryFailures]. split.
    + intros Hin.
      assert (Hcase : (first = chat /\ sendOutcome p start = Err e)
                      \/ LogDeliveryFailed chat e ∈ deliveryFailures p (S start) rest).
      { destruct (sendOutcome p start) as [mid | e0]; [auto | ].
        apply elem_of_cons in Hin as [[= -> ->] | Hin]; auto. }
      destruct Hcase as [[-> Hfail] | Hrest].
      * exists 0%nat. rewrite Nat.add_0_r. auto.
      * apply IH in Hrest as (i & Hi & Hfail). exists (S i).
        rewrite Nat.add_succ_r. auto.
    + intros (i & Hi & Hfail). destruct i as [ | i].
      * cbn in Hi. injection Hi as ->. rewrite Nat.add_0_r in Hfail.
        rewrite Hfail. left.
      * cbn in Hi. rewrite Nat.add_succ_r in Hfail.
        assert (Hrest : LogDeliveryFailed chat e ∈ deliveryFailures p (S start) rest)
          by (apply IH; eauto).
        destruct (sendOutcome p start); [exact Hrest | right; exact Hrest].
Qed.

Lemma text_deliver_failures env analytics : forall chats w,
  logged (snd (TextBot.deliver env analytics chats w))
  = logged w ++ deliveryFailures (TextBot.platform env) (length (outbox w)) chats.
Proof.
  induction chats as [ | chat rest IH]; intros w.
  - cbn. rewrite app_nil_r. reflexivity.
  - cbn [TextBot.deliver deliveryFailures]. rewrite bind_snd, Send_world.
    unfold Send at 1. cbn [fst snd].
    destruct (sendOutcome (TextBot.platform env) (length (outbox w))) as [mid | e]; cbn [snd].
    + rewrite IH. cbn [logged outbox]. rewrite length_app, Nat.add_1_r. reflexivity.
    + rewrite bind_snd, logPrintf_world, IH. cbn [logged outbox].
      rewrite length_app, Nat.add_1_r, <- app_assoc. reflexivity.
Qed.

Lemma command_deliver_failures env analytics : forall chats w,
  logged (snd (CommandBot.deliver env analytics chats w))
  = logged w ++ deliveryFailures (CommandBot.platform env) (length (outbox w)) chats.
Proof.
  induction chats as [ | chat rest IH]; intros w.
  - cbn. rewrite app_nil_r. reflexivity.
  - cbn [CommandBot.deliver deliveryFailures]. rewrite bind_snd, Send_world.
    unfold Send at 1. cbn [fst snd].
    destruct (sendOutcome (CommandBot.platform env) (length (outbox w))) as [mid | e];
      cbn [snd].
    + rewrite IH. cbn [logged outbox]. rewrite length_app, Nat.add_1_r. reflexivity.
    + rewrite bind_snd, logPrintf_world, IH. cbn [logged outbox].
      rewrite length_app, Nat.add_1_r, <- app_assoc. reflexivity.
Qed.

(** X27.  In a broadcast of the text-matching entry point whose text was
    generated, the log gains the line that announces the broadcast and
    then one line per rejected request, in the order of delivery, naming
    the chat and the error: the request to the [i]-th chat fails exactly
    when such a line is logged for it. *)
Theorem delivery_failures_are_logged env aiService w text :
  fst (TextBot.generate env aiService (invocations w)) = Ok text ->
  let order := rangeOrder (TextBot.platform env) (invocations w) (subscribedChats w) in
  let w' := snd (TextBot.dispatch env aiService WakeSignal w) in
  logged w' = logged w ++ LogBroadcast (size (subscribedChats w))
                          :: deliveryFailures (TextBot.platform env) (length (outbox w)) order
  /\ forall chat e,
       LogDeliveryFailed chat e
         ∈ deliveryFailures (TextBot.platform env) (length (outbox w)) order
       <-> exists i, order !! i = Some chat
                     /\ sendOutcome (TextBot.platform env) (length (outbox w) + i) = Err e.
Proof.
  intros Hgen. cbv zeta. split; [ | intros chat e; apply deliveryFailures_elem].
  cbn [TextBot.dispatch]. unfold TextBot.sendDailyAnalytics.
  rewrite !bind_snd. cbn [getSubscribed getInvocations logPrintf fst snd].
  rewrite text_GenerateAnalytics_run. cbn [fst snd invocations].
  rewrite Hgen. rewrite !bind_snd. cbn [getSubscribed fst snd subscribedChats].
  rewrite text_deliver_failures. cbn [logged outbox]. rewrite <- app_assoc. reflexivity.
Qed.

Lemma delivery_failures_are_logged_witness :
  logged (snd (TextBot.dispatch (textEnv rejectingPlatform "sk-test" (textAnswers "TEXT"))
                 (TextBot.NewAIService (textEnv rejectingPlatform "sk-test" (textAnswers "TEXT")))
                 WakeSignal twoSubscribers))
  = [LogBroadcast 2;
     LogDeliveryFailed ADMIN_USER_ID "Forbidden: bot was blocked by the user";
     LogDeliveryFailed 7001 "Forbidden: bot was blocked by the user"].
Proof.
  rewrite (proj1 (delivery_failures_are_logged
             (textEnv rejectingPlatform "sk-test" (textAnswers "TEXT"))
             (TextBot.NewAIService (textEnv rejectingPlatform "sk-test" (textAnswers "TEXT")))
             twoSubscribers "TEXT" eq_refl)).
  vm_compute. reflexivity.
Defined.

End GenerationProperties.

Section TimerProperties.
Import GoTime Scheduler Config.

(** X28.  The loop of [scheduleDaily] does not drift: when the zone is
    settled at the same offset around two readings of the clock, and the
    second reading is strictly after the target of the first and less
    than 24 hours after it, the new target is the previous target plus
    exactly 24 hours, on the next civil day, however late in that window
    the reading is; the wait is the new target minus the reading,
    positive and less than 24 hours. *)
Theorem scheduleDaily_does_not_drift loaded hour minute reading1 reading2 off :
  validSchedule hour minute ->
  settled (zoneOf loaded) off reading1 ->
  settled (zoneOf loaded) off reading2 ->
  let p1 := plan loaded hour minute reading1 in
  let p2 := plan loaded hour minute reading2 in
  unixNano (planNextRun p1) < unixNano reading2 < unixNano (planNextRun p1) + 24 * Hour ->
  unixNano (planNextRun p2) = unixNano (planNextRun p1) + 24 * Hour
  /\ localDay (planNextRun p2) = localDay (planNextRun p1) + 1
  /\ waitDuration p2 = unixNano (planNextRun p1) + 24 * Hour - unixNano reading2
  /\ 0 < waitDuration p2 < 24 * Hour.
Proof.
  intros Hvalid Hs1 Hs2 p1 p2 Hwindow.
  pose proof (recomputed_wait_after_target loaded loaded hour minute reading1 reading2 off
                Hvalid Hs1 Hs2 Hwindow) as (Hnext & Hday & Hwait).
  destruct (plan_wait loaded hour minute reading2 off Hvalid Hs2) as [Hexact _].
  split; [exact Hnext | ]. split; [exact Hday | ]. split; [ | exact Hwait].
  etransitivity; [exact Hexact | ].
  apply (f_equal (fun n => n - unixNano reading2)). exact Hnext.
Qed.

Lemma scheduleDaily_does_not_drift_witness :
  waitDuration (plan (Some europeMoscow) DAILY_HOUR DAILY_MINUTE
                  (Add mondayMorning (5 * Hour)))
  = 19 * Hour.
Proof.
  assert (Hvalid : validSchedule DAILY_HOUR DAILY_MINUTE)
    by (unfold validSchedule, DAILY_HOUR, DAILY_MINUTE; lia).
  assert (Hs1 : settled (zoneOf (Some europeMoscow)) (3 * 60 * 60)
                  (Add mondayMorning (- Hour)))
    by (apply europeMoscow_settled; vm_compute; discriminate).
  assert (Hs2 : settled (zoneOf (Some europeMoscow)) (3 * 60 * 60)
                  (Add mondayMorning (5 * Hour)))
    by (apply europeMoscow_settled; vm_compute; discriminate).
  assert (Hwindow :
            unixNano (planNextRun (plan (Some europeMoscow) DAILY_HOUR DAILY_MINUTE
                                     (Add mondayMorning (- Hour))))
            < unixNano (Add mondayMorning (5 * Hour))
            < unixNano (planNextRun (plan (Some europeMoscow) DAILY_HOUR DAILY_MINUTE
                                       (Add mondayMorning (- Hour)))) + 24 * Hour)
    by (vm_compute; split; reflexivity).
  rewrite (proj1 (proj2 (proj2 (scheduleDaily_does_not_drift (Some europeMoscow)
             DAILY_HOUR DAILY_MINUTE (Add mondayMorning (- Hour))
             (Add mondayMorning (5 * Hour)) _ Hvalid Hs1 Hs2 Hwindow)))).
  vm_compute. reflexivity.
Defined.

End TimerProperties.
